(** * Sales-analytics dashboard (dsa_app.py): a shallow embedding

    The development follows the blocks of [dsa_app.py]:
    - Bloco 2, [dsa_init_db]: table creation and one-time seeding with
      180 days of generated sales, over an explicit connection and the
      global NumPy generator;
    - Bloco 4, [dsa_carrega_dados]: the seeded table read back as a
      frame;
    - Bloco 5, [dsa_filtros_sidebar]: the boolean-mask filter, over a
      store of data frames so that aliasing is visible;
    - Bloco 6, [dsa_renderiza_cards_kpis]: the three KPIs;
    - Bloco 7, [dsa_gera_pdf_report]: the sequence of drawing calls sent
      to FPDF;
    - Bloco 9, the grouped sums of the charts, the weekday chart and the
      exported frame of [datascienceacademy_mp10].

    Conventions.  A Python [str] is the list of its code points.  A
    [date] is its proleptic Gregorian ordinal ([date.toordinal()]).  The
    column [faturamento] only ever holds [round(x, 2)], and is kept in
    hundredths (centavos) as an integer; the intermediate floats of the
    generator and the quotients of the aggregations are exact rationals.
    A Python exception is [None]. *)

From Stdlib Require Import ZArith NArith QArith Qminmax List Bool Lia.
From Stdlib Require Import Permutation Sorted String Ascii Lqa.
From stdpp Require Import gmap.
Import ListNotations.

Set Default Proof Using "Type".

(** ** Python values *)

Module Py.

(** A [str]: its code points. *)
Definition str := list N.

(** Decoder for the literals of this file, which are UTF-8 in the source
    text as they are in [dsa_app.py]. *)
Fixpoint utf8 (bs : list N) : str :=
  match bs with
  | [] => []
  | b :: t =>
    if (b <? 128)%N then b :: utf8 t
    else if (b <? 224)%N then
      match t with
      | c1 :: t' => ((b - 192) * 64 + (c1 - 128))%N :: utf8 t'
      | _ => []
      end
    else if (b <? 240)%N then
      match t with
      | c1 :: c2 :: t' =>
        ((b - 224) * 4096 + (c1 - 128) * 64 + (c2 - 128))%N :: utf8 t'
      | _ => []
      end
    else
      match t with
      | c1 :: c2 :: c3 :: t' =>
        ((b - 240) * 262144 + (c1 - 128) * 4096 + (c2 - 128) * 64
         + (c3 - 128))%N :: utf8 t'
      | _ => []
      end
  end.

Definition lit (s : string) : str :=
  utf8 (List.map N_of_ascii (list_ascii_of_string s)).

Definition str_eqb (a b : str) : bool := bool_decide (a = b).

(** [x in xs] on a list of strings. *)
Definition contains (xs : list str) (x : str) : bool :=
  existsb (str_eqb x) xs.

(** [s[:n]] *)
Definition slice_to (n : nat) (s : str) : str := firstn n s.

(** ** Numbers as text *)

Fixpoint digits_aux (fuel : nat) (n : N) (acc : str) : str :=
  match fuel with
  | O => acc
  | S fuel' =>
    let acc' := (48 + n mod 10)%N :: acc in
    if (n / 10 =? 0)%N then acc' else digits_aux fuel' (n / 10)%N acc'
  end.

(** Decimal digits of a natural number; a number has at most
    [log2 n + 1] of them. *)
Definition digits (n : N) : str :=
  digits_aux (S (N.to_nat (N.log2 n))) n [].

Definition minus_sign (z : Z) : str := if (z <? 0)%Z then [45%N] else [].

(** [str(z)] for an [int]. *)
Definition str_int (z : Z) : str := minus_sign z ++ digits (Z.abs_N z).

(** ["%0wd"] for a non-negative field. *)
Definition zfill (w : nat) (n : N) : str :=
  let d := digits n in repeat 48%N (w - length d) ++ d.

(** Thousands separators, on the digits in reverse. *)
Fixpoint group3_rev (ds : str) : str :=
  match ds with
  | a :: b :: c :: ((_ :: _) as rest) => a :: b :: c :: 44%N :: group3_rev rest
  | _ => ds
  end.

Definition grouped (n : N) : str := rev (group3_rev (rev (digits n))).

(** [f"{z:,}"] for an [int]. *)
Definition fmt_int_grouped (z : Z) : str := minus_sign z ++ grouped (Z.abs_N z).

(** [f"{x:,.2f}"] for a value [x] of [c] hundredths. *)
Definition fmt_2f_grouped (c : Z) : str :=
  let a := Z.abs_N c in
  minus_sign c ++ grouped (a / 100)%N ++ [46%N] ++ zfill 2 (a mod 100)%N.

(** Round half to even, the rounding of [round] and of the [f]
    presentation type. *)
Definition round_half_even (q : Q) : Z :=
  let n := Qnum q in
  let d := Zpos (Qden q) in
  let fl := (n / d)%Z in
  let r2 := (2 * (n mod d))%Z in
  if (r2 <? d)%Z then fl
  else if (d <? r2)%Z then (fl + 1)%Z
  else if Z.even fl then fl else (fl + 1)%Z.

(** [round(x, 2)], as a number of hundredths. *)
Definition round2 (x : Q) : Z := round_half_even (x * 100).

(** [max(0, x)]: the first argument unless the second is greater. *)
Definition max0 (x : Q) : Q := if Qle_bool x 0 then 0%Q else x.

(** ** Dates (datetime.py) *)

Definition DI400Y : Z := 146097.
Definition DI100Y : Z := 36524.
Definition DI4Y : Z := 1461.

Definition days_before_month : list Z :=
  [0; 0; 31; 59; 90; 120; 151; 181; 212; 243; 273; 304; 334]%Z.
Definition days_in_month : list Z :=
  [0; 31; 28; 31; 30; 31; 30; 31; 31; 30; 31; 30; 31]%Z.

Definition is_leap (year : Z) : bool :=
  ((year mod 4 =? 0) && (negb (year mod 100 =? 0) || (year mod 400 =? 0)))%Z.

Definition b2z (b : bool) : Z := if b then 1%Z else 0%Z.

(** [_ymd2ord] *)
Definition ymd2ord (year month day : Z) : Z :=
  let y := (year - 1)%Z in
  (y * 365 + y / 4 - y / 100 + y / 400
   + nth (Z.to_nat month) days_before_month 0
   + b2z ((2 <? month) && is_leap year) + day)%Z.

(** [_ord2ymd] *)
Definition ord2ymd (ordinal : Z) : Z * Z * Z :=
  let n := (ordinal - 1)%Z in
  let n400 := (n / DI400Y)%Z in
  let n := (n mod DI400Y)%Z in
  let year := (n400 * 400 + 1)%Z in
  let n100 := (n / DI100Y)%Z in
  let n := (n mod DI100Y)%Z in
  let n4 := (n / DI4Y)%Z in
  let n := (n mod DI4Y)%Z in
  let n1 := (n / 365)%Z in
  let n := (n mod 365)%Z in
  let year := (year + n100 * 100 + n4 * 4 + n1)%Z in
  if ((n1 =? 4) || (n100 =? 4))%Z then ((year - 1)%Z, 12%Z, 31%Z)
  else
    let leapyear := ((n1 =? 3) && (negb (n4 =? 24) || (n100 =? 3)))%Z in
    let month := Z.shiftr (n + 50) 5 in
    let preceding :=
      (nth (Z.to_nat month) days_before_month 0
       + b2z ((2 <? month) && leapyear))%Z in
    if (n <? preceding)%Z then
      let month := (month - 1)%Z in
      let preceding :=
        (preceding - (nth (Z.to_nat month) days_in_month 0
                      + b2z ((month =? 2) && leapyear)))%Z in
      (year, month, (n - preceding + 1)%Z)
    else (year, month, (n - preceding + 1)%Z).

(** [date.weekday()]: Monday is 0. *)
Definition weekday (ordinal : Z) : Z := ((ordinal + 6) mod 7)%Z.

(** [date.isoformat()], also [str(date)]. *)
Definition isoformat (ordinal : Z) : str :=
  let '(y, m, d) := ord2ymd ordinal in
  zfill 4 (Z.to_N y) ++ [45%N] ++ zfill 2 (Z.to_N m) ++ [45%N]
  ++ zfill 2 (Z.to_N d).

(** [date(y, m, d)] *)
Definition date (y m d : Z) : Z := ymd2ord y m d.

(** ** Text encoding *)

(** [s.encode("latin-1", "replace")]: one byte per character, [?] for a
    character the encoding does not have. *)
Definition encode_latin1_replace (s : str) : list N :=
  List.map (fun c => if (c <=? 255)%N then c else 63%N) s.

(** [b.decode("latin-1")] *)
Definition decode_latin1 (b : list N) : str := b.

Definition is_latin1 (s : str) : bool := forallb (fun c => (c <=? 255)%N) s.

End Py.

Notation "'u' s" := (Py.lit s%string) (at level 1, s at level 0, only parsing).

(** ** The table tb_vendas and the data frame rows *)

(** A tuple of [rows], in the column order of the INSERT:
    (date, regiao, categoria, produto, faturamento, quantidade). *)
Record Linha := mkLinha {
  l_date : Py.str;
  l_regiao : Py.str;
  l_categoria : Py.str;
  l_produto : Py.str;
  l_faturamento : Z;
  l_quantidade : Z
}.

(** A row of the data frame read back from the table, [date] parsed. *)
Record Venda := mkVenda {
  rowid : Z;
  date : Z;
  regiao : Py.str;
  categoria : Py.str;
  produto : Py.str;
  faturamento : Z;
  quantidade : Z
}.

(** ** NumPy's global generator

    The functions of [np.random] the program calls, over an abstract
    generator state, with the ranges NumPy documents for them. *)
Class NumpyRandom := {
  rng : Type;
  (** the state [np.random.seed(s)] installs *)
  seed : Z -> rng;
  (** [np.random.randint(low, high)]: the draw and the next state *)
  randint : Z -> Z -> rng -> Z * rng;
  (** [np.random.uniform(low, high)] *)
  uniform : Q -> Q -> rng -> Q * rng;
  randint_range :
    forall low high g, (low < high)%Z ->
      (low <= fst (randint low high g) < high)%Z;
  uniform_range :
    forall low high g, (low < high)%Q ->
      (low <= fst (uniform low high g))%Q /\ (fst (uniform low high g) < high)%Q
}.

(** A generator to run the model with: a linear congruential one. *)
Module LCG.
Definition modulus : Z := 2147483648.
Definition next (g : Z) : Z := ((1103515245 * g + 12345) mod modulus)%Z.
Definition randint (low high : Z) (g : Z) : Z * Z :=
  ((low + next g mod (high - low))%Z, next g).
Definition uniform (low high : Q) (g : Z) : Q * Z :=
  ((low + (high - low) * (next g # 2147483648))%Q, next g).
End LCG.

(** ** Computations over a state that may raise *)

Definition ST (S A : Type) : Type := S -> option (A * S).

Definition ret {S A} (x : A) : ST S A := fun s => Some (x, s).

Definition bind {S A B} (m : ST S A) (k : A -> ST S B) : ST S B :=
  fun s => match m s with
           | Some (x, s') => k x s'
           | None => None
           end.

Definition raise {S A} : ST S A := fun _ => None.

Definition lift_option {S A} (o : option A) : ST S A :=
  match o with Some x => ret x | None => raise end.

Notation "'let!' x ':=' m 'in' k" := (bind m (fun x => k))
  (at level 10, x name, m at level 100, k at level 200, only parsing).

(** [m] returns from every state, never raising, with a result in [Q]. *)
Definition returns {S A} (m : ST S A) (Q : A -> Prop) : Prop :=
  forall s, exists x s', m s = Some (x, s') /\ Q x.

(** [for _ in range(n): rows.append(body)] *)
Fixpoint for_range {S A} (n : nat) (body : ST S A) : ST S (list A) :=
  match n with
  | O => ret []
  | S n' => let! x := body in let! xs := for_range n' body in ret (x :: xs)
  end.

(** [for d in ds: body(d)], each [body] appending its rows. *)
Fixpoint for_each {S A B} (ds : list A) (body : A -> ST S (list B))
  : ST S (list B) :=
  match ds with
  | [] => ret []
  | d :: ds' =>
    let! xs := body d in let! ys := for_each ds' body in ret (xs ++ ys)
  end.

(** [for x in xs: body(x)], for its effect. *)
Fixpoint for_ {S A} (xs : list A) (body : A -> ST S unit) : ST S unit :=
  match xs with
  | [] => ret tt
  | x :: xs' => let! _ := body x in for_ xs' body
  end.

(** [enumerate(xs)] *)
Definition enumerate {A} (xs : list A) : list (nat * A) :=
  combine (seq 0 (length xs)) xs.

(** [d[k]] on a dict in insertion order; KeyError when absent. *)
Fixpoint dict_get {V} (d : list (Py.str * V)) (k : Py.str) : option V :=
  match d with
  | [] => None
  | (k', v) :: d' => if Py.str_eqb k k' then Some v else dict_get d' k
  end.

Definition keys {V} (d : list (Py.str * V)) : list Py.str := List.map fst d.

(** ** The generator and the seeding of the table *)

Section Generator.
Context {R : NumpyRandom}.

Definition M (A : Type) : Type := ST rng A.

(** [np.random.seed(s)] *)
Definition np_seed (s : Z) : M unit := fun _ => Some (tt, seed s).

(** [np.random.randint(low, high)]; ValueError when [low >= high]. *)
Definition np_randint (low high : Z) : M Z :=
  fun g => if (low <? high)%Z then Some (randint low high g) else None.

(** [np.random.uniform(low, high)] *)
Definition np_uniform (low high : Q) : M Q :=
  fun g => Some (uniform low high g).

(** [np.random.choice(a)] for a list: an index drawn in
    [0, len(a)); ValueError on an empty list. *)
Definition np_choice {A} (a : list A) : M A :=
  let! i := np_randint 0 (Z.of_nat (length a)) in
  lift_option (nth_error a (Z.to_nat i)).

Definition regioes : list Py.str :=
  [u"Norte"; u"Nordeste"; u"Sul"; u"Sudeste"; u"Centro-Oeste"].

Definition categorias : list Py.str :=
  [u"Eletrônicos"; u"Roupas"; u"Alimentos"; u"Serviços"].

Definition dict_produtos : list (Py.str * list (Py.str * Z)) :=
  [ (u"Eletrônicos", [(u"Smartphone", 1200); (u"Laptop", 3500); (u"Tablet", 800)]);
    (u"Roupas", [(u"Camiseta", 50); (u"Terno", 150); (u"Casaco", 300)]);
    (u"Alimentos", [(u"Congelados", 40); (u"Bebidas", 15); (u"Limpeza", 25)]);
    (u"Serviços", [(u"Consultoria", 1000); (u"Instalação", 400); (u"Suporte", 200)])
  ]%Z.

(** [faturamento] of one sale before rounding. *)
Definition faturamento_de (preco_base quantidade : Z) (noise : Q) : Q :=
  Py.max0 (inject_Z (preco_base * quantidade) * (1 + noise)).

(** What is expected of a generated row: the product is one of its
    category in [dict_produtos], the quantity is in [1, 25), and the
    revenue is the rounded, floored product of quantity, base price and
    a noise factor within 20% of one. *)
Definition venda_valida (l : Linha) : Prop :=
  exists (produtos_c : list (Py.str * Z)) (preco_base : Z) (noise : Q),
    dict_get dict_produtos (l_categoria l) = Some produtos_c
    /\ In (l_produto l) (keys produtos_c)
    /\ dict_get produtos_c (l_produto l) = Some preco_base
    /\ (1 <= l_quantidade l < 25)%Z
    /\ (- (20 # 100) <= noise)%Q /\ (noise < 20 # 100)%Q
    /\ l_faturamento l
       = Py.round2 (Py.max0 (inject_Z (l_quantidade l * preco_base) * (1 + noise)))
    /\ (0 <= l_faturamento l)%Z.

(** The body of the inner loop: one sale of day [d]. *)
Definition gera_venda (d : Z) : M Linha :=
  let! r := np_choice regioes in
  let! c := np_choice categorias in
  let! produtos_c := lift_option (dict_get dict_produtos c) in
  let! p := np_choice (keys produtos_c) in
  let! preco_base := lift_option (dict_get produtos_c p) in
  let! quantidade := np_randint 1 25 in
  let! noise := np_uniform (-(20 # 100)) (20 # 100) in
  ret (mkLinha (Py.isoformat d) r c p
         (Py.round2 (faturamento_de preco_base quantidade noise)) quantidade).

(** The body of the outer loop: the sales of day [d]. *)
Definition gera_dia (d : Z) : M (list Linha) :=
  let! vendas_diarias := np_randint 5 15 in
  for_range (Z.to_nat vendas_diarias) (gera_venda d).

(** [[start_date + timedelta(days = i) for i in range(n)]] *)
Definition datas (start_date : Z) (n : nat) : list Z :=
  List.map (fun i => (start_date + Z.of_nat i)%Z) (seq 0 n).

(** The generation pass of [dsa_init_db], from the seeding of the
    generator to the last [rows.append]. *)
Definition gera_rows (semente start_date : Z) (dias : nat) : M (list Linha) :=
  let! _ := np_seed semente in
  for_each (datas start_date dias) gera_dia.

(** ** The connection *)

(** [tb_vendas] with its AUTOINCREMENT counter; [None] before
    CREATE TABLE. *)
Record Tabela := mkTabela {
  registros : list (Z * Linha);
  ultimo_id : Z
}.

Record Conn := mkConn { tb_vendas : option Tabela }.

(** CREATE TABLE IF NOT EXISTS tb_vendas *)
Definition create_table_if_not_exists (conn : Conn) : Tabela :=
  match tb_vendas conn with
  | Some t => t
  | None => mkTabela [] 0
  end.

(** SELECT COUNT( * ) FROM tb_vendas *)
Definition select_count (t : Tabela) : Z := Z.of_nat (length (registros t)).

(** One INSERT: the next id is one more than the largest ever used. *)
Definition insert (t : Tabela) (l : Linha) : Tabela :=
  mkTabela (registros t ++ [((ultimo_id t + 1)%Z, l)]) (ultimo_id t + 1).

(** [cursor.executemany("INSERT ...", rows)] *)
Definition executemany (t : Tabela) (rows : list Linha) : Tabela :=
  fold_left insert rows t.

(** [dsa_init_db(conn)], on the connection and the global generator. *)
Definition dsa_init_db (conn : Conn) : M Conn :=
  let t := create_table_if_not_exists conn in
  if (select_count t =? 0)%Z then
    let! rows := gera_rows 42 (Py.date 2026 1 1) 180 in
    ret (mkConn (Some (executemany t rows)))
  else ret (mkConn (Some t)).

(** ** The KPIs *)

Definition reais (centavos : Z) : Q := centavos # 100.

(** [a / b]; ZeroDivisionError when [b] is zero. *)
Definition truediv {S} (a : Q) (b : Z) : ST S Q :=
  if (b =? 0)%Z then raise else ret (a / inject_Z b)%Q.

(** [Series.sum()] of a column of whole numbers: the exact sum, added
    from the first row on.  The program adds [faturamento] in float64,
    where the last digits of a sum can depend on the order of the
    additions. *)
Definition soma (xs : list Z) : Z := fold_left Z.add xs 0%Z.

(** [dsa_renderiza_cards_kpis(df)]: the returned tuple.  The cards are
    drawn from these values and from [delta_rev], a draw that only
    decorates the first card. *)
Definition dsa_renderiza_cards_kpis (df : list Venda) : M (Z * Z * Q) :=
  let total_faturamento := soma (List.map faturamento df) in
  let total_qty := soma (List.map quantidade df) in
  let! avg_ticket :=
    (if (0 <? total_qty)%Z then truediv (reais total_faturamento) total_qty
     else ret 0%Q) in
  let! delta_rev := np_uniform (-(5 # 1)) (15 # 1) in
  ret (total_faturamento, total_qty, avg_ticket).

End Generator.

(** ** Data frames in the store *)

(** A cell of a column added to a frame by assignment. *)
Inductive valor :=
| VInt (z : Z)
| VStr (s : Py.str)
| VNaN.

(** A frame: the rows read from the table and the columns assigned
    afterwards, by name. *)
Record DataFrame := mkDataFrame {
  linhas : list Venda;
  extras : list (Py.str * list valor)
}.

(** Frames are objects: a variable holds a reference into the store. *)
Abbreviation ref := positive (only parsing).
Abbreviation store := (gmap positive DataFrame) (only parsing).

Definition H (A : Type) : Type := ST store A.

(** A new object, at a reference the store does not use. *)
Definition alloc (F : DataFrame) : H ref :=
  fun h => let l := fresh (dom h) in Some (l, <[l := F]> h).

Definition deref (df : ref) : H DataFrame :=
  fun h => match h !! df with Some F => Some (F, h) | None => None end.

(** [a & b] on boolean series *)
Definition series_and (a b : list bool) : list bool :=
  List.map (fun p => andb (fst p) (snd p)) (combine a b).

(** [rows[mask]]: the rows whose mask entry is True, in order. *)
Fixpoint boolean_index {A} (rows : list A) (mask : list bool) : list A :=
  match rows, mask with
  | r :: rows', b :: mask' =>
    if b then r :: boolean_index rows' mask' else boolean_index rows' mask'
  | _, _ => []
  end.

(** [df[mask]]: a new frame. *)
Definition getitem_mask (df : ref) (mask : list bool) : H ref :=
  let! F := deref df in
  alloc (mkDataFrame (boolean_index (linhas F) mask)
           (List.map (fun c => (fst c, boolean_index (snd c) mask)) (extras F))).

(** [df.copy()]: a new frame with the same contents. *)
Definition copy (df : ref) : H ref :=
  let! F := deref df in alloc F.

Fixpoint set_col (cols : list (Py.str * list valor)) (name : Py.str)
  (col : list valor) : list (Py.str * list valor) :=
  match cols with
  | [] => [(name, col)]
  | (n, c) :: cols' =>
    if Py.str_eqb name n then (n, col) :: cols'
    else (n, c) :: set_col cols' name col
  end.

(** [df[name] = col]: the frame is changed in place. *)
Definition setitem (df : ref) (name : Py.str) (col : list valor) : H unit :=
  fun h => match h !! df with
           | Some F =>
             Some (tt, <[df := mkDataFrame (linhas F) (set_col (extras F) name col)]> h)
           | None => None
           end.

(** [df[name]] for an assigned column; KeyError when absent. *)
Definition getitem_col (df : ref) (name : Py.str) : H (list valor) :=
  let! F := deref df in lift_option (dict_get (extras F) name).

(** ** The sidebar filter *)

(** What the four widgets return. *)
Record Sidebar := mkSidebar {
  date_range : list Z;
  selected_regioes : list Py.str;
  selected_categorias : list Py.str;
  selected_produtos : list Py.str
}.

(** [s.min()] and [s.max()] on the date column; [None] is NaT. *)
Definition series_min (s : list Z) : option Z :=
  match s with [] => None | x :: s' => Some (fold_left Z.min s' x) end.
Definition series_max (s : list Z) : option Z :=
  match s with [] => None | x :: s' => Some (fold_left Z.max s' x) end.

(** [d >= bound] and [d <= bound]; False against NaT. *)
Definition date_ge (d : Z) (bound : option Z) : bool :=
  match bound with Some b => (b <=? d)%Z | None => false end.
Definition date_le (d : Z) (bound : option Z) : bool :=
  match bound with Some b => (d <=? b)%Z | None => false end.

(** [start_date, end_date], after the check on [len(date_range)]. *)
Definition periodo (ui : Sidebar) (rows : list Venda) : option Z * option Z :=
  let min_date := series_min (List.map date rows) in
  let max_date := series_max (List.map date rows) in
  match date_range ui with
  | [start_date; end_date] => (Some start_date, Some end_date)
  | _ => (min_date, max_date)
  end.

(** The boolean mask of the filter. *)
Definition mascara (ui : Sidebar) (rows : list Venda) : list bool :=
  let '(start_date, end_date) := periodo ui rows in
  series_and
    (series_and
       (series_and
          (series_and
             (List.map (fun r => date_ge (date r) start_date) rows)
             (List.map (fun r => date_le (date r) end_date) rows))
          (List.map (fun r => Py.contains (selected_regioes ui) (regiao r)) rows))
       (List.map (fun r => Py.contains (selected_categorias ui) (categoria r)) rows))
    (List.map (fun r => Py.contains (selected_produtos ui) (produto r)) rows).

(** [dsa_filtros_sidebar(df)]: [df[mask].copy()], with the widgets'
    values [ui]. *)
Definition dsa_filtros_sidebar (ui : Sidebar) (df : ref) : H ref :=
  let! F := deref df in
  let! fatia := getitem_mask df (mascara ui (linhas F)) in
  let! df_dsa_filtrado := copy fatia in
  ret df_dsa_filtrado.

(** The rows of the frame [dsa_filtros_sidebar] returns. *)
Definition filtra (ui : Sidebar) (rows : list Venda) : list Venda :=
  boolean_index rows (mascara ui rows).

(** ** The weekday chart *)

Definition dias_pt_map : list (Z * Py.str) :=
  [ (0, u"Segunda-feira"); (1, u"Terça-feira"); (2, u"Quarta-feira");
    (3, u"Quinta-feira"); (4, u"Sexta-feira"); (5, u"Sábado");
    (6, u"Domingo") ]%Z.

Definition dias_pt_ordem : list Py.str :=
  [ u"Segunda-feira"; u"Terça-feira"; u"Quarta-feira";
    u"Quinta-feira"; u"Sexta-feira"; u"Sábado"; u"Domingo" ].

Fixpoint int_dict_get (d : list (Z * Py.str)) (k : Z) : option Py.str :=
  match d with
  | [] => None
  | (k', v) :: d' => if (k =? k')%Z then Some v else int_dict_get d' k
  end.

(** [s.map(d)]: NaN where the dict has no entry. *)
Definition series_map (d : list (Z * Py.str)) (s : list valor) : list valor :=
  List.map (fun v => match v with
                     | VInt z => match int_dict_get d z with
                                 | Some name => VStr name
                                 | None => VNaN
                                 end
                     | _ => VNaN
                     end) s.

(** One row into the groups: its value added to the sum and to the
    count of its key; a NaN key is dropped. *)
Definition agrupa (g : gmap Py.str (Z * Z)) (kv : valor * Z)
  : gmap Py.str (Z * Z) :=
  match fst kv with
  | VStr k =>
    match g !! k with
    | Some (s, n) => <[k := ((s + snd kv)%Z, (n + 1)%Z)]> g
    | None => <[k := (snd kv, 1%Z)]> g
    end
  | _ => g
  end.

Definition media (sn : Z * Z) : Q := (reais (fst sn) / inject_Z (snd sn))%Q.

(** [df.groupby(key)[["faturamento"]].mean()]: the mean per key. *)
Definition groupby_mean (key : list valor) (faturamentos : list Z)
  : gmap Py.str Q :=
  media <$> fold_left agrupa (combine key faturamentos) ∅.

(** [.reindex(labels).reset_index()]: one row per label, in the order of
    [labels]; [None] is the NaN of a label without a group. *)
Definition reindex (g : gmap Py.str Q) (labels : list Py.str)
  : list (Py.str * option Q) :=
  List.map (fun k => (k, g !! k)) labels.

(** The weekday block of [datascienceacademy_mp10]: the two column
    assignments on the filtered frame and [wd_rev]. *)
Definition wd_rev (df_dsa_filtrado : ref) : H (list (Py.str * option Q)) :=
  let! F := deref df_dsa_filtrado in
  let! _ := setitem df_dsa_filtrado u"weekday_num"
              (List.map (fun r => VInt (Py.weekday (date r))) (linhas F)) in
  let! weekday_num := getitem_col df_dsa_filtrado u"weekday_num" in
  let! _ := setitem df_dsa_filtrado u"dia_semana"
              (series_map dias_pt_map weekday_num) in
  let! dia_semana := getitem_col df_dsa_filtrado u"dia_semana" in
  let! F' := deref df_dsa_filtrado in
  ret (reindex (groupby_mean dia_semana (List.map faturamento (linhas F')))
         dias_pt_ordem).

(** The mean the chart is expected to show for weekday [i]: that of the
    revenues of the rows dated on that weekday, none without such rows. *)
Definition media_do_dia (rows : list Venda) (i : Z) : option Q :=
  match List.filter (fun r => (Py.weekday (date r) =? i)%Z) rows with
  | [] => None
  | bucket =>
    Some (reais (soma (List.map faturamento bucket))
          / inject_Z (Z.of_nat (length bucket)))%Q
  end.

(** The key of a row in the column [dia_semana]. *)
Definition chave (r : Venda) : valor :=
  match int_dict_get dias_pt_map (Py.weekday (date r)) with
  | Some nome => VStr nome
  | None => VNaN
  end.

Definition is_key (k : Py.str) (v : valor) : bool :=
  match v with VStr s => Py.str_eqb s k | _ => false end.

(** Sum and count of a group after more values of its key. *)
Definition acumula (o : option (Z * Z)) (vs : list Z) : option (Z * Z) :=
  match vs, o with
  | [], _ => o
  | _, Some (s, n) => Some ((s + soma vs)%Z, (n + Z.of_nat (length vs))%Z)
  | _, None => Some (soma vs, Z.of_nat (length vs))
  end.

(** ** The PDF report *)

(** [DataFrame.sort_values(by, ascending)] with its default [kind]
    (quicksort): pandas promises the rows back, ordered by the column,
    and promises stability only for [kind] mergesort or stable. *)
Class PandasSort := {
  sort_values : (Venda -> Z) -> bool -> list Venda -> list Venda;
  sort_values_perm :
    forall by_ ascending df, Permutation (sort_values by_ ascending df) df;
  sort_values_sorted :
    forall (by_ : Venda -> Z) (ascending : bool) (df : list Venda),
      StronglySorted
        (fun a b => if ascending then (by_ a <= by_ b)%Z else (by_ b <= by_ a)%Z)
        (sort_values by_ ascending df)
}.

(** A sort to run the model with.  It places the rows one at a time,
    from the last row of the frame to the first, each in front of the
    rows already placed that it does not follow. *)
Module Sorts.
Definition not_after (ascending : bool) (x y : Z) : bool :=
  if ascending then (x <=? y)%Z else (y <=? x)%Z.

Fixpoint insert_by (first : Z -> Z -> bool) (by_ : Venda -> Z) (x : Venda)
  (l : list Venda) : list Venda :=
  match l with
  | [] => [x]
  | y :: l' =>
    if first (by_ x) (by_ y) then x :: y :: l'
    else y :: insert_by first by_ x l'
  end.

(** A row goes in front of the later rows of equal key: rows of equal
    key keep the order of [df]. *)
Definition stable (by_ : Venda -> Z) (ascending : bool) (df : list Venda)
  : list Venda :=
  fold_right (insert_by (not_after ascending) by_) [] df.

End Sorts.

(** A call of the drawing API, as recorded on the document. *)
Inductive pdf_op :=
| SetAutoPageBreak (auto : bool) (margin : Z)
| AddPage
| SetFont (family style : Py.str) (size : Z)
| SetFillColor (r g b : Z)
| Rect (x y w h : Z) (style : Py.str)
| SetY (y : Z)
| Ln (h : option Z)
| Cell (w h : Z) (txt : Py.str) (border : Z) (align : Py.str) (new_line : bool).

Definition PDF (A : Type) : Type := ST (list pdf_op) A.

Definition emit (op : pdf_op) : PDF unit := fun doc => Some (tt, doc ++ [op]).

(** [pdf.cell(w, h, txt, border, align, new_x, new_y)] with a core
    font: FPDF raises on a character outside Latin-1.  [new_line] is
    True for [new_x = LMARGIN, new_y = NEXT], False for [RIGHT, TOP]. *)
Definition pdf_cell (w h : Z) (txt : Py.str) (border : Z) (align : Py.str)
  (new_line : bool) : PDF unit :=
  if Py.is_latin1 txt then emit (Cell w h txt border align new_line)
  else raise.

(** What [datetime.now()] returned. *)
Record datetime := mkDatetime {
  year : Z; month : Z; day : Z; hour : Z; minute : Z
}.

(** [now.strftime('%d/%m/%Y %H:%M')] *)
Definition strftime_dmY_HM (now : datetime) : Py.str :=
  Py.zfill 2 (Z.to_N (day now)) ++ u"/" ++ Py.zfill 2 (Z.to_N (month now))
  ++ u"/" ++ Py.zfill 4 (Z.to_N (year now)) ++ u" "
  ++ Py.zfill 2 (Z.to_N (hour now)) ++ u":" ++ Py.zfill 2 (Z.to_N (minute now)).

Definition col_widths : list Z := [30; 30; 30; 40; 25; 30]%Z.

Definition headers : list Py.str :=
  [u"Data"; u"Regiao"; u"Categoria"; u"Produto"; u"Qtd"; u"Receita"].

(** The list [data] built from a row of [df_top]. *)
Definition data (row : Venda) : list Py.str :=
  [ Py.isoformat (date row);
    regiao row;
    categoria row;
    Py.slice_to 20 (produto row);
    Py.str_int (quantidade row);
    u"R$ " ++ Py.fmt_2f_grouped (faturamento row) ].

(** [str(d).encode("latin-1", "replace").decode("latin-1")] *)
Definition safe_txt (d : Py.str) : Py.str :=
  Py.decode_latin1 (Py.encode_latin1_replace d).

(** The inner loop: the cells of one row of the table. *)
Definition celulas (row : Venda) : PDF unit :=
  let! _ :=
    for_ (enumerate (data row)) (fun '(i, d) =>
      let! w := lift_option (nth_error col_widths i) in
      pdf_cell w 7 (safe_txt d) 1 (if (i =? 4)%nat then u"C" else u"L") false) in
  emit (Ln None).

Section Report.
Context {P : PandasSort}.

(** [df.sort_values("faturamento", ascending=False).head(15)] *)
Definition df_top (df_dsa_filtrado : list Venda) : list Venda :=
  firstn 15 (sort_values faturamento false df_dsa_filtrado).

(** Section 5 of [dsa_gera_pdf_report]: the rows of the table. *)
Definition tabela (df_dsa_filtrado : list Venda) : PDF unit :=
  let! _ := emit (SetFont u"Helvetica" u"" 9) in
  for_ (df_top df_dsa_filtrado) celulas.

(** [dsa_gera_pdf_report]: the document drawn from the filtered frame
    and the KPIs, at time [now]. *)
Definition dsa_gera_pdf_report (now : datetime) (df_dsa_filtrado : list Venda)
  (total_faturamento total_quantidade : Z) (avg_ticket : Q)
  : option (list pdf_op) :=
  let report : PDF unit :=
    let! _ := emit (SetAutoPageBreak true 15) in
    let! _ := emit AddPage in
    let! _ := emit (SetFont u"Helvetica" u"B" 16) in
    let! _ := pdf_cell 0 10 u"Relatorio Executivo de Vendas" 0 u"C" true in
    let! _ := emit (Ln (Some 5%Z)) in
    let! _ := emit (SetFont u"Helvetica" u"" 10) in
    let! _ := pdf_cell 0 8 (u"Gerado em: " ++ strftime_dmY_HM now) 0 u"L" true in
    let! _ := emit (SetFillColor 240 240 240) in
    let! _ := emit (Rect 10 35 190 25 u"F") in
    let! _ := emit (SetY 40) in
    let! _ := emit (SetFont u"Helvetica" u"B" 12) in
    let! _ := pdf_cell 60 8 u"Receita Total" 0 u"C" false in
    let! _ := pdf_cell 60 8 u"Quantidade" 0 u"C" false in
    let! _ := pdf_cell 60 8 u"Ticket Medio" 0 u"C" true in
    let! _ := emit (SetFont u"Helvetica" u"" 12) in
    let! _ := pdf_cell 60 8 (u"R$ " ++ Py.fmt_2f_grouped total_faturamento)
                0 u"C" false in
    let! _ := pdf_cell 60 8 (Py.fmt_int_grouped total_quantidade) 0 u"C" false in
    let! _ := pdf_cell 60 8 (u"R$ " ++ Py.fmt_2f_grouped (Py.round2 avg_ticket))
                0 u"C" true in
    let! _ := emit (Ln (Some 15%Z)) in
    let! _ := emit (SetFont u"Helvetica" u"B" 12) in
    let! _ := pdf_cell 0 8 u"Top 15 Vendas (por receita):" 0 u"L" true in
    let! _ := emit (SetFont u"Helvetica" u"B" 9) in
    let! _ := for_ (enumerate headers) (fun '(i, h) =>
                let! w := lift_option (nth_error col_widths i) in
                pdf_cell w 8 h 1 u"C" false) in
    let! _ := emit (Ln None) in
    tabela df_dsa_filtrado in
  match report [] with
  | Some (_, doc) => Some doc
  | None => None
  end.

End Report.

(** ** What the report is expected to draw *)

(** The drawing calls of one row of the table: six cells, each with the
    width of its column and the transcoded text of its field, centred in
    the quantity column and left-aligned elsewhere, then a line break. *)
Definition celulas_de (row : Venda) : list pdf_op :=
  List.map (fun '(i, d) =>
              Cell (nth i col_widths 0%Z) 7 (safe_txt d) 1
                (if (i =? 4)%nat then u"C" else u"L") false)
    (enumerate (data row))
  ++ [Ln None].

(** [m] draws [ops] after whatever the document holds, and returns. *)
Definition emits (m : PDF unit) (ops : list pdf_op) : Prop :=
  forall doc, m doc = Some (tt, doc ++ ops).

(** The characters of [s] are all in Latin-1. *)
Definition latin1 (s : Py.str) : Prop := Forall (fun c => (c <= 255)%N) s.

(** Rows of equal revenue are in [out] in the order they have in [df]. *)
Definition ordem_original (df out : list Venda) : Prop :=
  forall v : Z,
    sublist (filter (fun r => faturamento r = v) out)
            (filter (fun r => faturamento r = v) df).

(** ** Sample data *)

(** Sample rows: two sales of the same revenue. *)
Definition venda_a : Venda :=
  mkVenda 1 (Py.date 2026 1 1) u"Sul" u"Roupas" u"Terno" 15000 1.
Definition venda_b : Venda :=
  mkVenda 2 (Py.date 2026 1 2) u"Norte" u"Roupas" u"Casaco" 15000 1.

Definition venda_c : Venda :=
  mkVenda 3 (Py.date 2026 1 8) u"Sul" u"Alimentos" u"Bebidas" 4550 3.

Definition amostra : list Venda := [venda_a; venda_b; venda_c].

(** A store with one frame, at reference 1. *)
Definition store_amostra : gmap positive DataFrame :=
  <[1%positive := mkDataFrame amostra []]> ∅.

(** The widgets with the date control partly cleared. *)
Definition ui_parcial : Sidebar :=
  mkSidebar [Py.date 2026 1 2] [u"Sul"; u"Norte"] [u"Roupas"]
    [u"Terno"; u"Casaco"].

(** ** More of what the generator is expected to produce *)

(** The rows of day [d]: between 5 and 14 of them, all dated [d]. *)
Definition bloco_do_dia (d : Z) (bloco : list Linha) : Prop :=
  5 <= length bloco <= 14
  /\ Forall (fun l => l_date l = Py.isoformat d) bloco.

(** The revenue of a row, in hundredths, is within 20% of quantity times
    base price, and is positive. *)
Definition na_banda (l : Linha) : Prop :=
  exists (produtos_c : list (Py.str * Z)) (preco_base : Z),
    dict_get dict_produtos (l_categoria l) = Some produtos_c
    /\ dict_get produtos_c (l_produto l) = Some preco_base
    /\ (80 * (preco_base * l_quantidade l) <= l_faturamento l
        <= 120 * (preco_base * l_quantidade l))%Z
    /\ (0 < l_faturamento l)%Z.

(** The ids of a table are distinct and none is above the counter. *)
Definition ids_validos (t : Tabela) : Prop :=
  NoDup (List.map fst (registros t))
  /\ Forall (fun p => (fst p <= ultimo_id t)%Z) (registros t).

(** ** The options of the selection widgets *)

(** Comparison of two [str], character by character. *)
Fixpoint str_compare (a b : Py.str) : comparison :=
  match a, b with
  | [], [] => Eq
  | [], _ :: _ => Lt
  | _ :: _, [] => Gt
  | x :: a', y :: b' =>
    match (x ?= y)%N with
    | Eq => str_compare a' b'
    | c => c
    end
  end.

(** [a < b] *)
Definition str_ltb (a b : Py.str) : bool :=
  match str_compare a b with Lt => true | _ => false end.

Fixpoint insere_ordenado (x : Py.str) (l : list Py.str) : list Py.str :=
  match l with
  | [] => [x]
  | y :: l' => if str_ltb y x then y :: insere_ordenado x l' else x :: y :: l'
  end.

(** [sorted(xs)] on strings: ascending, equal items in their order. *)
Definition sorted (xs : list Py.str) : list Py.str :=
  fold_right insere_ordenado [] xs.

Fixpoint unique_from (seen : list Py.str) (s : list Py.str) : list Py.str :=
  match s with
  | [] => []
  | x :: s' =>
    if Py.contains seen x then unique_from seen s'
    else x :: unique_from (x :: seen) s'
  end.

(** [s.unique()]: the distinct values, in order of first appearance. *)
Definition unique (s : list Py.str) : list Py.str := unique_from [] s.

(** [sorted(df[col].unique())]: the options of a multiselect, also its
    default selection. *)
Definition opcoes (col : list Py.str) : list Py.str := sorted (unique col).

(** The frame the weekday block leaves behind. *)
Definition com_dia_semana (F : DataFrame) : DataFrame :=
  mkDataFrame (linhas F)
    (set_col
       (set_col (extras F) u"weekday_num"
          (List.map (fun r => VInt (Py.weekday (date r))) (linhas F)))
       u"dia_semana" (List.map chave (linhas F))).

(** ** The sums of the other charts *)

Section GroupBySum.
Context {K : Type} (compare : K -> K -> comparison).

(** One row into the groups, kept in ascending order of key: its value
    is added to the sum of its key, or starts a new group in its place. *)
Fixpoint soma_no_grupo (k : K) (v : Z) (g : list (K * Z)) : list (K * Z) :=
  match g with
  | [] => [(k, v)]
  | (k', s) :: g' =>
    match compare k k' with
    | Eq => (k', (s + v)%Z) :: g'
    | Lt => (k, v) :: (k', s) :: g'
    | Gt => (k', s) :: soma_no_grupo k v g'
    end
  end.

(** [df.groupby(key)[["faturamento"]].sum().reset_index()]: one row per
    key, in ascending order of key, with the sum of its revenues. *)
Definition groupby_sum (key : list K) (faturamentos : list Z) : list (K * Z) :=
  fold_left (fun g kv => soma_no_grupo (fst kv) (snd kv) g)
    (combine key faturamentos) [].

(** The sum of key [k] in the groups. *)
Fixpoint busca (k : K) (g : list (K * Z)) : option Z :=
  match g with
  | [] => None
  | (k', s) :: g' =>
    match compare k k' with Eq => Some s | _ => busca k g' end
  end.

End GroupBySum.

(** The frames of the line chart, the pie chart and the bar chart. *)
Definition daily_rev (rows : list Venda) : list (Z * Z) :=
  groupby_sum Z.compare (List.map date rows) (List.map faturamento rows).

Definition cat_rev (rows : list Venda) : list (Py.str * Z) :=
  groupby_sum str_compare (List.map categoria rows) (List.map faturamento rows).

Definition regiao_rev (rows : list Venda) : list (Py.str * Z) :=
  groupby_sum str_compare (List.map regiao rows) (List.map faturamento rows).

(** The sum a chart is expected to show for key [k]: that of the
    revenues of the rows of that key, none without such rows. *)
Definition soma_da_chave {K} (compare : K -> K -> comparison)
  (key : Venda -> K) (rows : list Venda) (k : K) : option Z :=
  match List.filter (fun r => match compare k (key r) with
                              | Eq => true
                              | _ => false
                              end) rows with
  | [] => None
  | grupo => Some (soma (List.map faturamento grupo))
  end.

(** ** Loading the table *)

(** The first and the last day of the century of the dates the program
    writes. *)
Definition timestamp_min : Z := Py.date 2000 1 1.
Definition timestamp_max : Z := Py.date 2099 12 31.

(** [pd.to_datetime], as [read_sql_query] applies it to the texts of a
    column named in [parse_dates]: the date of a text; [None] is NaT.  Of
    all it reads, this much is used: the ISO text of a date of this
    century stands for that date. *)
Class PandasDatetime := {
  to_datetime : Py.str -> option Z;
  to_datetime_iso :
    forall d, (timestamp_min <= d <= timestamp_max)%Z ->
      to_datetime (Py.isoformat d) = Some d
}.

(** A reader of ISO dates to run the model with ([date.fromisoformat] on
    a text of the form YYYY-MM-DD). *)
Module Iso.
Definition digit (c : N) : option Z :=
  if ((48 <=? c) && (c <=? 57))%N then Some (Z.of_N (c - 48)) else None.

Definition number (cs : list N) : option Z :=
  fold_left (fun acc c =>
               match acc, digit c with
               | Some a, Some d => Some (10 * a + d)%Z
               | _, _ => None
               end) cs (Some 0%Z).

Definition days_in (year month : Z) : Z :=
  if ((month =? 2) && Py.is_leap year)%Z then 29%Z
  else nth (Z.to_nat month) Py.days_in_month 0%Z.

Definition fromisoformat (s : Py.str) : option Z :=
  match s with
  | [y1; y2; y3; y4; s1; m1; m2; s2; d1; d2] =>
    match number [y1; y2; y3; y4], number [m1; m2], number [d1; d2] with
    | Some y, Some m, Some d =>
      if ((s1 =? 45)%N && (s2 =? 45)%N
          && (1 <=? y)%Z && (1 <=? m)%Z && (m <=? 12)%Z
          && (1 <=? d)%Z && (d <=? days_in y m)%Z)
      then Some (Py.ymd2ord y m d) else None
    | _, _, _ => None
    end
  | _ => None
  end.

(** The integers from [lo], [n] of them. *)
Fixpoint zseq (lo : Z) (n : nat) : list Z :=
  match n with
  | O => []
  | S n' => lo :: zseq (lo + 1) n'
  end.
End Iso.

Section Load.
Context {R : NumpyRandom} {D : PandasDatetime}.

(** One row of the result of the query, its date parsed; [None] when
    the text is not a date: the frame would hold NaT, which a [Venda]
    does not. *)
Definition le_linha (p : Z * Linha) : option Venda :=
  match to_datetime (l_date (snd p)) with
  | Some d =>
    Some (mkVenda (fst p) d (l_regiao (snd p)) (l_categoria (snd p))
            (l_produto (snd p)) (l_faturamento (snd p)) (l_quantidade (snd p)))
  | None => None
  end.

Fixpoint le_linhas (regs : list (Z * Linha)) : option (list Venda) :=
  match regs with
  | [] => Some []
  | p :: regs' =>
    match le_linha p, le_linhas regs' with
    | Some v, Some vs => Some (v :: vs)
    | _, _ => None
    end
  end.

(** [pd.read_sql_query("SELECT * FROM tb_vendas", conn,
    parse_dates = ["date"])]; an error when there is no such table. *)
Definition read_sql_query (conn : Conn) : M (list Venda) :=
  match tb_vendas conn with
  | Some t => lift_option (le_linhas (registros t))
  | None => raise
  end.

(** [dsa_carrega_dados()], on the database file and the global
    generator; the result is the frame, with the database as the call
    leaves it.  (The memoisation of the result for ten minutes is the
    decorator's, not the function's.) *)
Definition dsa_carrega_dados (db : Conn) : M (Conn * list Venda) :=
  let! conn := dsa_init_db db in
  let! df := read_sql_query conn in
  ret (conn, df).

End Load.

(** The row of the frame for row [p] of the table, dated [d]. *)
Definition venda_de (d : Z) (p : Z * Linha) : Venda :=
  mkVenda (fst p) d (l_regiao (snd p)) (l_categoria (snd p))
    (l_produto (snd p)) (l_faturamento (snd p)) (l_quantidade (snd p)).

(** The day of each row of the blocks of a generation pass. *)
Fixpoint dias_linhas (ds : list Z) (blocos : list (list Linha)) : list Z :=
  match ds, blocos with
  | d :: ds', bloco :: blocos' =>
    repeat d (length bloco) ++ dias_linhas ds' blocos'
  | _, _ => []
  end.

(** Pairing of two lists, as [zip]. *)
Fixpoint zip_with {A B C} (f : A -> B -> C) (xs : list A) (ys : list B)
  : list C :=
  match xs, ys with
  | x :: xs', y :: ys' => f x y :: zip_with f xs' ys'
  | _, _ => []
  end.

(** [df.columns]: the columns of the table, then the assigned ones. *)
Definition columns (F : DataFrame) : list Py.str :=
  [u"id"; u"date"; u"regiao"; u"categoria"; u"produto"; u"faturamento";
   u"quantidade"] ++ keys (extras F).

(** More sample data: a row of the table, a table holding it, the
    widgets with no region selected, and the weekday chart of [amostra]. *)
Definition linha_amostra : Linha :=
  mkLinha u"2026-01-01" u"Sul" u"Roupas" u"Terno" 15000 1.

Definition tabela_amostra : Tabela := mkTabela [(1%Z, linha_amostra)] 1.

Definition ui_sem_regiao : Sidebar :=
  mkSidebar [Py.date 2026 1 1; Py.date 2026 1 31] [] [u"Roupas"] [u"Terno"].

Definition chart_amostra : list (Py.str * option Q) :=
  [ (u"Segunda-feira", None); (u"Terça-feira", None);
    (u"Quarta-feira", None); (u"Quinta-feira", Some (19550 # 200));
    (u"Sexta-feira", Some (15000 # 100)); (u"Sábado", None);
    (u"Domingo", None) ].

(** * Properties *)

(** ** The two generic instances *)

Lemma LCG_next_range (g : Z) : (0 <= LCG.next g < LCG.modulus)%Z.
Proof. unfold LCG.next. apply Z.mod_pos_bound. reflexivity. Qed.

Lemma LCG_randint_range (low high g : Z) :
  (low < high)%Z -> (low <= fst (LCG.randint low high g) < high)%Z.
Proof.
  intros Hlt. unfold LCG.randint. cbn [fst].
  pose proof (Z.mod_pos_bound (LCG.next g) (high - low)) as Hm. lia.
Qed.

Lemma LCG_uniform_range (low high : Q) (g : Z) :
  (low < high)%Q ->
  (low <= fst (LCG.uniform low high g))%Q
  /\ (fst (LCG.uniform low high g) < high)%Q.
Proof.
  intros Hlt. unfold LCG.uniform. cbn [fst].
  pose proof (LCG_next_range g) as [H0 H1]. unfold LCG.modulus in H1.
  set (t := (LCG.next g # 2147483648)%Q).
  assert (Ht0 : (0 <= t)%Q) by (unfold t, Qle; cbn; lia).
  assert (Ht1 : (t < 1)%Q) by (unfold t, Qlt; cbn; lia).
  split; nra.
Qed.

#[export] Instance LCG_random : NumpyRandom := {|
  rng := Z;
  seed := fun s => s;
  randint := LCG.randint;
  uniform := LCG.uniform;
  randint_range := LCG_randint_range;
  uniform_range := LCG_uniform_range
|}.

(** ** Reasoning on computations *)

Section Returns.
Context {S : Type}.
Implicit Types s : S.

Lemma returns_ret {A} (x : A) (Q : A -> Prop) :
  Q x -> returns (S := S) (ret x) Q.
Proof. intros HQ s. exists x, s. split; [reflexivity | exact HQ]. Qed.

Lemma returns_bind {A B} (m : ST S A) (k : A -> ST S B)
  (P : A -> Prop) (Q : B -> Prop) :
  returns m P -> (forall x, P x -> returns (k x) Q) -> returns (bind m k) Q.
Proof.
  intros Hm Hk s. destruct (Hm s) as (x & s1 & Hx & HP).
  destruct (Hk x HP s1) as (y & s2 & Hy & HQ).
  exists y, s2. unfold bind. rewrite Hx. split; assumption.
Qed.

Lemma returns_weaken {A} (m : ST S A) (P Q : A -> Prop) :
  returns m P -> (forall x, P x -> Q x) -> returns m Q.
Proof.
  intros Hm HPQ s. destruct (Hm s) as (x & s1 & Hx & HP).
  exists x, s1. split; [assumption | apply HPQ, HP].
Qed.

Lemma returns_lift_option {A} (o : option A) (x : A) (Q : A -> Prop) :
  o = Some x -> Q x -> returns (S := S) (lift_option o) Q.
Proof. intros -> HQ. apply returns_ret, HQ. Qed.

Lemma returns_for_range {A} (body : ST S A) (P : A -> Prop) (n : nat) :
  returns body P ->
  returns (for_range n body) (fun xs => Forall P xs /\ length xs = n).
Proof.
  intros Hbody. induction n as [|n IH]; cbn [for_range].
  - apply returns_ret. split; [constructor | reflexivity].
  - eapply returns_bind; [exact Hbody |]. intros x Hx.
    eapply returns_bind; [exact IH |]. intros xs [Hxs Hlen].
    apply returns_ret. split; [constructor; assumption | cbn; lia].
Qed.

Lemma returns_for_each {A B} (body : A -> ST S (list B)) (P : B -> Prop)
  (lo : nat) (ds : list A) :
  (forall d, In d ds ->
     returns (body d) (fun xs => Forall P xs /\ lo <= length xs)) ->
  returns (for_each ds body)
    (fun xs => Forall P xs /\ lo * length ds <= length xs).
Proof.
  induction ds as [|d ds IH]; intros Hbody; cbn [for_each].
  - apply returns_ret. split; [constructor | cbn; lia].
  - eapply returns_bind; [apply Hbody; left; reflexivity |].
    intros xs [Hxs Hlen].
    eapply returns_bind; [apply IH; intros d' Hd'; apply Hbody; right; exact Hd' |].
    intros ys [Hys Hlen'].
    apply returns_ret. split.
    + apply Forall_app. split; assumption.
    + rewrite length_app. cbn [length]. lia.
Qed.

End Returns.

(** ** The generator *)

Lemma dict_get_keys {V} (d : list (Py.str * V)) (k : Py.str) :
  In k (keys d) -> exists v, dict_get d k = Some v.
Proof.
  induction d as [|[k' v] d IH]; cbn; [tauto |].
  intros [-> | Hin].
  - exists v. unfold Py.str_eqb. rewrite bool_decide_eq_true_2; reflexivity.
  - destruct (Py.str_eqb k k'); [exists v; reflexivity | apply IH, Hin].
Qed.

Lemma max0_nonneg (x : Q) : (0 <= Py.max0 x)%Q.
Proof.
  unfold Py.max0. destruct (Qle_bool x 0) eqn:E.
  - apply Qle_refl.
  - apply Qlt_le_weak, Qnot_le_lt. intros Hle.
    apply Qle_bool_iff in Hle. congruence.
Qed.

Lemma round_half_even_nonneg (q : Q) : (0 <= q)%Q -> (0 <= Py.round_half_even q)%Z.
Proof.
  intros Hq. unfold Py.round_half_even.
  assert (Hn : (0 <= Qnum q)%Z).
  { unfold Qle in Hq. cbn in Hq. lia. }
  assert (Hfl : (0 <= Qnum q / Z.pos (Qden q))%Z) by (apply Z.div_pos; lia).
  repeat match goal with |- context [if ?b then _ else _] => destruct b end; lia.
Qed.

Lemma round2_nonneg (x : Q) : (0 <= x)%Q -> (0 <= Py.round2 x)%Z.
Proof.
  intros Hx. unfold Py.round2. apply round_half_even_nonneg.
  apply Qmult_le_0_compat; [exact Hx | discriminate].
Qed.

Section GeneratorFacts.
Context {R : NumpyRandom}.

Lemma returns_randint (low high : Z) :
  (low < high)%Z ->
  returns (np_randint low high) (fun z => (low <= z < high)%Z).
Proof.
  intros Hlt g. unfold np_randint.
  destruct (Z.ltb_spec low high) as [_ | Hge]; [| lia].
  destruct (randint low high g) as [z g'] eqn:E.
  exists z, g'. split; [reflexivity |].
  pose proof (randint_range low high g Hlt) as Hr. rewrite E in Hr. exact Hr.
Qed.

Lemma returns_uniform (low high : Q) :
  (low < high)%Q ->
  returns (np_uniform low high) (fun x => (low <= x)%Q /\ (x < high)%Q).
Proof.
  intros Hlt g. unfold np_uniform.
  destruct (uniform low high g) as [x g'] eqn:E.
  exists x, g'. split; [reflexivity |].
  pose proof (uniform_range low high g Hlt) as Hr. rewrite E in Hr. exact Hr.
Qed.

Lemma returns_choice {A} (a : list A) :
  a <> [] -> returns (np_choice a) (fun x => In x a).
Proof.
  intros Hne. unfold np_choice.
  eapply returns_bind.
  - apply returns_randint. destruct a; [congruence | cbn [length]; lia].
  - intros i Hi. cbn beta in Hi |- *.
    destruct (nth_error a (Z.to_nat i)) as [x|] eqn:E.
    + eapply returns_lift_option; [reflexivity |].
      eapply nth_error_In, E.
    + apply nth_error_None in E. lia.
Qed.

End GeneratorFacts.

Section GeneratorClaims.
Context {R : NumpyRandom}.

Lemma categorias_registradas (c : Py.str) :
  In c categorias ->
  exists produtos_c, dict_get dict_produtos c = Some produtos_c
                     /\ keys produtos_c <> [].
Proof.
  intros Hc. cbn in Hc.
  destruct Hc as [<- | [<- | [<- | [<- | []]]]];
    eexists; (split; [vm_compute; reflexivity | discriminate]).
Qed.

Lemma returns_gera_venda (d : Z) :
  returns (gera_venda d) venda_valida.
Proof.
  unfold gera_venda.
  eapply returns_bind; [apply returns_choice; discriminate |]. intros r _.
  eapply returns_bind; [apply returns_choice; discriminate |]. intros c Hc.
  destruct (categorias_registradas c Hc) as (produtos_c & Hget & Hne).
  eapply returns_bind; [eapply returns_lift_option with (Q := eq produtos_c);
                        [exact Hget | reflexivity] |].
  intros ? <-.
  eapply returns_bind; [apply returns_choice, Hne |]. intros p Hp.
  destruct (dict_get_keys produtos_c p Hp) as (preco_base & Hpreco).
  eapply returns_bind; [eapply returns_lift_option with (Q := eq preco_base);
                        [exact Hpreco | reflexivity] |].
  intros ? <-.
  eapply returns_bind; [apply returns_randint; lia |]. intros quantidade Hq.
  eapply returns_bind; [apply returns_uniform; reflexivity |].
  intros noise [Hn0 Hn1].
  apply returns_ret.
  exists produtos_c, preco_base, noise. cbn.
  unfold faturamento_de. rewrite (Z.mul_comm quantidade preco_base).
  split; [exact Hget |]. split; [exact Hp |]. split; [exact Hpreco |].
  split; [exact Hq |]. split; [exact Hn0 |]. split; [exact Hn1 |].
  split; [reflexivity |].
  apply round2_nonneg, max0_nonneg.
Qed.

Lemma returns_gera_dia (d : Z) :
  returns (gera_dia d) (fun xs => Forall venda_valida xs /\ 5 <= length xs).
Proof.
  unfold gera_dia.
  eapply returns_bind; [apply returns_randint; lia |].
  intros k Hk. cbn beta in Hk.
  eapply returns_weaken; [apply returns_for_range, returns_gera_venda |].
  intros xs [Hxs Hlen]. split; [exact Hxs | lia].
Qed.

Lemma gera_rows_reseeds (semente start_date : Z) (dias : nat) (g : rng) :
  gera_rows semente start_date dias g
  = for_each (datas start_date dias) gera_dia (seed semente).
Proof. reflexivity. Qed.

Lemma returns_gera_rows (semente start_date : Z) (dias : nat) :
  returns (gera_rows semente start_date dias)
    (fun rows => Forall venda_valida rows /\ 5 * dias <= length rows).
Proof.
  intros g. rewrite gera_rows_reseeds.
  destruct (returns_for_each gera_dia venda_valida 5 (datas start_date dias)
              (fun d _ => returns_gera_dia d) (seed semente))
    as (rows & g' & Hrun & Hok & Hlen).
  exists rows, g'. split; [exact Hrun |]. split; [exact Hok |].
  unfold datas in Hlen. rewrite length_map, length_seq in Hlen. exact Hlen.
Qed.

(** C6: every row the generation pass produces has a product registered
    under its category in [dict_produtos], a quantity in [1, 25), and a
    revenue equal to [max(0, quantity * base price * (1 + noise))]
    rounded to 2 decimals for some noise in [-0.20, 0.20), hence a
    non-negative revenue; and the pass does return its rows. *)
Theorem C6_generated_rows_valid (semente start_date : Z) (dias : nat) (g : rng) :
  exists rows g',
    gera_rows semente start_date dias g = Some (rows, g')
    /\ Forall venda_valida rows.
Proof.
  destruct (returns_gera_rows semente start_date dias g)
    as (rows & g' & Hrun & Hok & _).
  exists rows, g'. split; assumption.
Qed.

(** C4: the generation pass is deterministic.  Whatever the state of
    the global generator before each run, two runs with the same seed,
    start date and number of days return the same sequence of rows (and
    leave the generator in the same state). *)
Theorem C4_generator_deterministic (semente start_date : Z) (dias : nat)
  (g1 g2 : rng) :
  exists rows g',
    gera_rows semente start_date dias g1 = Some (rows, g')
    /\ gera_rows semente start_date dias g2 = Some (rows, g').
Proof.
  destruct (returns_gera_rows semente start_date dias g1)
    as (rows & g' & Hrun & _).
  exists rows, g'. split; [exact Hrun |].
  rewrite gera_rows_reseeds in Hrun |- *. exact Hrun.
Qed.

Lemma executemany_length (rows : list Linha) (t : Tabela) :
  length (registros (executemany t rows)) = length (registros t) + length rows.
Proof.
  unfold executemany. revert t.
  induction rows as [|l rows IH]; intros t; cbn [fold_left length].
  - lia.
  - rewrite IH. cbn [insert registros]. rewrite length_app. cbn [length]. lia.
Qed.

(** C5: seeding is idempotent.  [dsa_init_db] returns; it changes the
    rows of the table exactly when the table had no row at the call, in
    which case the rows are those of one generation pass (at least five
    a day for 180 days); otherwise the table and the generator are left
    as they were.  A second call on the result inserts nothing: it returns
    the same connection and generator, so the row count is unchanged. *)
Theorem C5_seeding_idempotent (conn : Conn) (g : rng) :
  let t := create_table_if_not_exists conn in
  exists t1 g1,
    dsa_init_db conn g = Some (mkConn (Some t1), g1)
    /\ (select_count t = 0%Z <-> registros t1 <> registros t)
    /\ (select_count t = 0%Z ->
        exists rows, gera_rows 42 (Py.date 2026 1 1) 180 g = Some (rows, g1)
                     /\ t1 = executemany t rows
                     /\ (900 <= select_count t1)%Z)
    /\ (select_count t <> 0%Z -> t1 = t /\ g1 = g)
    /\ dsa_init_db (mkConn (Some t1)) g1 = Some (mkConn (Some t1), g1)
    /\ select_count t1 <> 0%Z.
Proof.
  intros t. unfold dsa_init_db. fold t.
  destruct (Z.eqb_spec (select_count t) 0) as [Hz | Hnz].
  - destruct (returns_gera_rows 42 (Py.date 2026 1 1) 180 g)
      as (rows & g1 & Hrun & _ & Hlen).
    assert (Hcount : (900 <= select_count (executemany t rows))%Z).
    { unfold select_count. rewrite executemany_length. lia. }
    exists (executemany t rows), g1.
    unfold bind at 1. rewrite Hrun. cbn [ret].
    split; [reflexivity |]. split.
    { split; [| intros _; exact Hz]. intros _ Heq.
      apply (f_equal (@length _)) in Heq. rewrite executemany_length in Heq.
      unfold select_count in Hz. lia. }
    split; [intros _; exists rows; auto |].
    split; [intros Hne; contradiction |].
    cbn [create_table_if_not_exists tb_vendas].
    destruct (Z.eqb_spec (select_count (executemany t rows)) 0) as [H0 | _];
      [lia |].
    split; [reflexivity | lia].
  - exists t, g. cbn [ret].
    split; [reflexivity |].
    split; [split; [intros Hz; contradiction | intros Hne; congruence] |].
    split; [intros Hz; contradiction |].
    split; [intros _; split; reflexivity |].
    cbn [create_table_if_not_exists tb_vendas].
    destruct (Z.eqb_spec (select_count t) 0) as [H0 | _]; [contradiction |].
    split; [reflexivity | exact Hnz].
Qed.

(** C7: the KPIs are returned for every frame, the empty one included:
    no division by zero is raised.  The average ticket is total revenue
    over total quantity when the total quantity is positive and 0
    otherwise, and the three KPIs of an empty frame are 0. *)
Theorem C7_kpis_total (df : list Venda) (g : rng) :
  let total_faturamento := soma (List.map faturamento df) in
  let total_qty := soma (List.map quantidade df) in
  exists avg_ticket g',
    dsa_renderiza_cards_kpis df g
    = Some ((total_faturamento, total_qty, avg_ticket), g')
    /\ ((0 < total_qty)%Z ->
        avg_ticket = (reais total_faturamento / inject_Z total_qty)%Q)
    /\ (~ (0 < total_qty)%Z -> avg_ticket = 0%Q)
    /\ (df = [] -> (total_faturamento, total_qty, avg_ticket) = (0%Z, 0%Z, 0%Q)).
Proof.
  intros total_faturamento total_qty. unfold dsa_renderiza_cards_kpis.
  fold total_faturamento total_qty.
  unfold bind, truediv, np_uniform, ret, raise.
  destruct (Z.ltb_spec 0 total_qty) as [Hpos | Hle].
  - destruct (Z.eqb_spec total_qty 0) as [H0 | _]; [lia |].
    destruct (uniform _ _ g) as [delta_rev g'].
    eexists _, _. split; [reflexivity |].
    split; [reflexivity |]. split; [intros Hn; contradiction |].
    intros Hnil. subst df. cbn in Hpos. lia.
  - destruct (uniform _ _ g) as [delta_rev g'].
    eexists _, _. split; [reflexivity |].
    split; [intros Hp; lia |]. split; [reflexivity |].
    intros Hnil. subst df. reflexivity.
Qed.

End GeneratorClaims.

(** ** The filter *)

Lemma boolean_index_map {A} (f : A -> bool) (rows : list A) :
  boolean_index rows (List.map f rows) = List.filter f rows.
Proof.
  induction rows as [|r rows IH]; cbn; [reflexivity |].
  rewrite IH. reflexivity.
Qed.

Lemma series_and_map {A} (f g : A -> bool) (rows : list A) :
  series_and (List.map f rows) (List.map g rows)
  = List.map (fun r => f r && g r) rows.
Proof.
  unfold series_and. induction rows as [|r rows IH]; cbn; [reflexivity |].
  f_equal. exact IH.
Qed.

(** A boolean test and the proposition it decides select the same rows. *)
Lemma filter_decides {A} (P : A -> Prop) `{!forall x, Decision (P x)}
  (f : A -> bool) (rows : list A) :
  (forall x, f x = true <-> P x) -> List.filter f rows = filter P rows.
Proof.
  intros Hf. induction rows as [|r rows IH]; [reflexivity |].
  cbn [List.filter]. rewrite filter_cons, IH.
  destruct (decide (P r)) as [HP | HP], (f r) eqn:E; try reflexivity.
  - apply Hf in HP. congruence.
  - apply Hf in E. contradiction.
Qed.

Lemma contains_elem_of (xs : list Py.str) (x : Py.str) :
  Py.contains xs x = true <-> x ∈ xs.
Proof.
  unfold Py.contains. rewrite existsb_exists, list_elem_of_In. split.
  - intros (y & Hin & Heq). unfold Py.str_eqb in Heq.
    apply bool_decide_eq_true_1 in Heq. subst y. exact Hin.
  - intros Hin. exists x. split; [exact Hin |].
    apply bool_decide_eq_true_2. reflexivity.
Qed.

(** The mask is one test per row, the conjunction of the five comparisons. *)
Lemma filtra_filter (ui : Sidebar) (rows : list Venda) :
  filtra ui rows
  = List.filter
      (fun r => date_ge (date r) (fst (periodo ui rows))
                && date_le (date r) (snd (periodo ui rows))
                && Py.contains (selected_regioes ui) (regiao r)
                && Py.contains (selected_categorias ui) (categoria r)
                && Py.contains (selected_produtos ui) (produto r))
      rows.
Proof.
  unfold filtra, mascara. destruct (periodo ui rows) as [start_date end_date].
  rewrite !series_and_map. apply boolean_index_map.
Qed.

(** C2: the filter keeps exactly the rows that satisfy the four clauses
    (date within [start, end], region, category and product each among
    the selected ones), in the order of the input: the output is the
    input with the other rows removed, hence a subsequence of it, and a
    row failing any clause is not in it. *)
Theorem C2_filter_conjunctive (rows : list Venda) (start_date end_date : Z)
  (regioes_sel categorias_sel produtos_sel : list Py.str) :
  let ui := mkSidebar [start_date; end_date]
              regioes_sel categorias_sel produtos_sel in
  let clauses := fun r : Venda =>
    (start_date <= date r <= end_date)%Z
    /\ regiao r ∈ regioes_sel
    /\ categoria r ∈ categorias_sel
    /\ produto r ∈ produtos_sel in
  filtra ui rows = filter clauses rows
  /\ sublist (filtra ui rows) rows
  /\ (forall r, r ∈ filtra ui rows <-> r ∈ rows /\ clauses r).
Proof.
  intros ui clauses.
  assert (Heq : filtra ui rows = filter clauses rows).
  { rewrite filtra_filter. apply filter_decides. intros r.
    unfold periodo, ui, clauses. cbn [date_range fst snd date_ge date_le
      selected_regioes selected_categorias selected_produtos].
    rewrite !andb_true_iff, !contains_elem_of, !Z.leb_le. tauto. }
  rewrite Heq. split; [reflexivity |].
  split; [apply sublist_filter |].
  intros r. rewrite list_elem_of_filter. tauto.
Qed.

Lemma fold_min_spec (s : list Z) (x : Z) :
  (fold_left Z.min s x <= x)%Z
  /\ (forall y, In y s -> (fold_left Z.min s x <= y)%Z)
  /\ In (fold_left Z.min s x) (x :: s).
Proof.
  revert x. induction s as [|y s IH]; intros x; cbn [fold_left].
  - split; [lia |]. split; [intros y [] | left; reflexivity].
  - destruct (IH (Z.min x y)) as (H1 & H2 & H3).
    split; [lia |]. split.
    + intros z [<- | Hz]; [lia | apply H2, Hz].
    + destruct H3 as [H3 | H3]; [| right; right; exact H3].
      rewrite <- H3.
      destruct (Z.min_spec x y) as [[_ ->] | [_ ->]];
        [left | right; left]; reflexivity.
Qed.

Lemma fold_max_spec (s : list Z) (x : Z) :
  (x <= fold_left Z.max s x)%Z
  /\ (forall y, In y s -> (y <= fold_left Z.max s x)%Z)
  /\ In (fold_left Z.max s x) (x :: s).
Proof.
  revert x. induction s as [|y s IH]; intros x; cbn [fold_left].
  - split; [lia |]. split; [intros y [] | left; reflexivity].
  - destruct (IH (Z.max x y)) as (H1 & H2 & H3).
    split; [lia |]. split.
    + intros z [<- | Hz]; [lia | apply H2, Hz].
    + destruct H3 as [H3 | H3]; [| right; right; exact H3].
      rewrite <- H3.
      destruct (Z.max_spec x y) as [[_ ->] | [_ ->]];
        [right; left | left]; reflexivity.
Qed.

(** The smallest and largest date present bound every date present. *)
Lemma series_min_max_bound (s : list Z) (d : Z) :
  In d s -> date_ge d (series_min s) = true /\ date_le d (series_max s) = true.
Proof.
  destruct s as [|x s]; [intros [] |]. intros Hd.
  cbn [series_min series_max date_ge date_le].
  destruct (fold_min_spec s x) as (Hm1 & Hm2 & _).
  destruct (fold_max_spec s x) as (HM1 & HM2 & _).
  rewrite !Z.leb_le.
  destruct Hd as [<- | Hd]; [lia |].
  split; [apply Hm2, Hd | apply HM2, Hd].
Qed.

Lemma periodo_fallback (ui : Sidebar) (rows : list Venda) :
  length (date_range ui) <> 2 ->
  periodo ui rows
  = (series_min (List.map date rows), series_max (List.map date rows)).
Proof.
  intros Hlen. unfold periodo.
  destruct (date_range ui) as [|a [|b [|c l]]]; cbn in Hlen;
    try reflexivity; lia.
Qed.

(** C8: when the date widget does not return exactly two values, the
    period is the smallest and the largest date of the frame; every row
    passes the two date comparisons, so the rows kept are exactly those
    that pass the three selections; and the minimum and maximum are dates
    of the frame whenever it has a row. *)
Theorem C8_date_fallback (ui : Sidebar) (rows : list Venda) :
  length (date_range ui) <> 2 ->
  periodo ui rows
  = (series_min (List.map date rows), series_max (List.map date rows))
  /\ (forall r, r ∈ rows ->
        date_ge (date r) (fst (periodo ui rows)) = true
        /\ date_le (date r) (snd (periodo ui rows)) = true)
  /\ filtra ui rows
     = filter (fun r => regiao r ∈ selected_regioes ui
                        /\ categoria r ∈ selected_categorias ui
                        /\ produto r ∈ selected_produtos ui) rows
  /\ (rows <> [] ->
      exists lo hi,
        periodo ui rows = (Some lo, Some hi)
        /\ lo ∈ List.map date rows /\ hi ∈ List.map date rows
        /\ forall r, r ∈ rows -> (lo <= date r <= hi)%Z).
Proof.
  intros Hlen. pose proof (periodo_fallback ui rows Hlen) as Hp.
  assert (Hall : forall r, r ∈ rows ->
            date_ge (date r) (fst (periodo ui rows)) = true
            /\ date_le (date r) (snd (periodo ui rows)) = true).
  { intros r Hr. rewrite Hp. cbn [fst snd].
    apply series_min_max_bound, in_map, list_elem_of_In, Hr. }
  split; [exact Hp |]. split; [exact Hall |]. split.
  - rewrite filtra_filter.
    transitivity (List.filter
      (fun r => Py.contains (selected_regioes ui) (regiao r)
                && Py.contains (selected_categorias ui) (categoria r)
                && Py.contains (selected_produtos ui) (produto r)) rows).
    + apply filter_ext_in. intros r Hr.
      destruct (Hall r (proj2 (list_elem_of_In _ _) Hr)) as [-> ->].
      reflexivity.
    + apply filter_decides. intros r.
      rewrite !andb_true_iff, !contains_elem_of. tauto.
  - intros Hne. destruct rows as [|r0 rows']; [congruence |].
    rewrite Hp in Hall |- *. cbn [List.map series_min series_max] in Hall |- *.
    destruct (fold_min_spec (List.map date rows') (date r0)) as (_ & _ & Hmin).
    destruct (fold_max_spec (List.map date rows') (date r0)) as (_ & _ & Hmax).
    eexists _, _. split; [reflexivity |].
    split; [apply list_elem_of_In, Hmin |].
    split; [apply list_elem_of_In, Hmax |].
    intros r Hr. destruct (Hall r Hr) as [Hge Hle].
    cbn [fst snd date_ge date_le] in Hge, Hle.
    apply Z.leb_le in Hge, Hle. lia.
Qed.

(** ** The store *)

Lemma alloc_fresh (F : DataFrame) (h : gmap positive DataFrame) :
  exists l, alloc F h = Some (l, <[l := F]> h) /\ h !! l = None.
Proof.
  exists (fresh (dom h)). split; [reflexivity |].
  apply not_elem_of_dom, is_fresh.
Qed.

(** What [dsa_filtros_sidebar] does to the store: two new frames, the
    slice and its copy, and nothing else. *)
Lemma dsa_filtros_sidebar_store (ui : Sidebar) (h : gmap positive DataFrame)
  (df : positive) (F : DataFrame) :
  h !! df = Some F ->
  let G := mkDataFrame (filtra ui (linhas F))
             (List.map (fun c => (fst c, boolean_index (snd c) (mascara ui (linhas F))))
                (extras F)) in
  exists fatia out,
    dsa_filtros_sidebar ui df h = Some (out, <[out := G]> (<[fatia := G]> h))
    /\ h !! fatia = None /\ h !! out = None /\ out <> fatia.
Proof.
  intros Hdf G. unfold dsa_filtros_sidebar, getitem_mask, copy, bind, deref, ret.
  rewrite Hdf. cbv beta iota. rewrite Hdf. cbv beta iota.
  destruct (alloc_fresh G h) as (fatia & Ha1 & Hf1).
  fold (filtra ui (linhas F)). fold G. rewrite Ha1. cbv beta iota.
  rewrite lookup_insert_eq. cbv beta iota.
  destruct (alloc_fresh G (<[fatia := G]> h)) as (out & Ha2 & Hf2).
  rewrite Ha2. exists fatia, out. split; [reflexivity |].
  split; [exact Hf1 |].
  destruct (decide (out = fatia)) as [-> | Hne].
  - rewrite lookup_insert_eq in Hf2. discriminate.
  - rewrite lookup_insert_ne in Hf2 by congruence. split; [exact Hf2 | exact Hne].
Qed.

(** C10: the filter does not change its source.  Called on a frame of
    the store, [dsa_filtros_sidebar] returns; the source frame, and every
    other frame the store held, is afterwards what it was (same rows, same
    values, same order); the result is a new object, at a reference unused
    before and different from the source, holding the filtered rows; and
    assigning a column to the result afterwards leaves the source as it
    was. *)
Theorem C10_filter_leaves_source (ui : Sidebar) (h : gmap positive DataFrame)
  (df : positive) (F : DataFrame) :
  h !! df = Some F ->
  exists (out : positive) (h' : gmap positive DataFrame) (G : DataFrame),
    dsa_filtros_sidebar ui df h = Some (out, h')
    /\ h' !! df = Some F
    /\ (forall l F0, h !! l = Some F0 -> h' !! l = Some F0)
    /\ h !! out = None
    /\ out <> df
    /\ h' !! out = Some G
    /\ linhas G = filtra ui (linhas F)
    /\ (forall name col,
          exists h'', setitem out name col h' = Some (tt, h'')
                      /\ h'' !! df = Some F
                      /\ linhas <$> h'' !! out = Some (linhas G)).
Proof.
  intros Hdf.
  destruct (dsa_filtros_sidebar_store ui h df F Hdf)
    as (fatia & out & Hrun & Hf1 & Hf2 & Hne).
  set (G := mkDataFrame (filtra ui (linhas F)) _) in Hrun.
  assert (Hkeep : forall l F0, h !! l = Some F0 ->
            (<[out := G]> (<[fatia := G]> h)) !! l = Some F0).
  { intros l F0 Hl.
    rewrite !lookup_insert_ne by (intros ->; congruence). exact Hl. }
  exists out, (<[out := G]> (<[fatia := G]> h)), G.
  split; [exact Hrun |]. split; [apply Hkeep, Hdf |].
  split; [exact Hkeep |]. split; [exact Hf2 |].
  split; [intros ->; congruence |].
  split; [apply lookup_insert_eq |]. split; [reflexivity |].
  intros name col. unfold setitem. rewrite lookup_insert_eq.
  eexists. split; [reflexivity |]. split.
  - rewrite lookup_insert_ne by (intros ->; congruence). apply Hkeep, Hdf.
  - rewrite lookup_insert_eq. reflexivity.
Qed.

(** ** The weekday chart *)

Lemma dict_get_set_col_eq (cols : list (Py.str * list valor)) (name : Py.str)
  (col : list valor) :
  dict_get (set_col cols name col) name = Some col.
Proof.
  induction cols as [|[n c] cols IH]; cbn [set_col dict_get].
  - unfold Py.str_eqb. rewrite bool_decide_eq_true_2; reflexivity.
  - destruct (Py.str_eqb name n) eqn:E; cbn [dict_get]; rewrite E;
      [reflexivity | exact IH].
Qed.

Lemma fold_add_acc (xs : list Z) (a : Z) :
  fold_left Z.add xs a = (a + fold_left Z.add xs 0)%Z.
Proof.
  revert a. induction xs as [|x xs IH]; intros a; cbn [fold_left]; [lia |].
  rewrite (IH (a + x)%Z), (IH (0 + x)%Z). lia.
Qed.

Lemma soma_cons (x : Z) (xs : list Z) : soma (x :: xs) = (x + soma xs)%Z.
Proof. unfold soma. cbn [fold_left]. rewrite fold_add_acc. lia. Qed.

Lemma soma_perm (xs ys : list Z) : Permutation xs ys -> soma xs = soma ys.
Proof.
  induction 1 as [| x xs ys _ IH | x y xs | xs ys zs _ IH1 _ IH2];
    rewrite ?soma_cons; [reflexivity | lia | lia | congruence].
Qed.

Lemma acumula_cons (s n v : Z) (vs : list Z) :
  acumula (Some ((s + v)%Z, (n + 1)%Z)) vs = acumula (Some (s, n)) (v :: vs).
Proof.
  destruct vs as [|w vs]; cbn [acumula].
  - rewrite soma_cons. cbn. do 2 f_equal; unfold soma; cbn; lia.
  - rewrite !soma_cons. cbn [length]. do 2 f_equal; lia.
Qed.

Lemma acumula_first (v : Z) (vs : list Z) :
  acumula (Some (v, 1%Z)) vs = acumula None (v :: vs).
Proof.
  destruct vs as [|w vs]; cbn [acumula].
  - reflexivity.
  - rewrite !soma_cons. cbn [length]. do 2 f_equal; lia.
Qed.

Lemma agrupa_fold_lookup (rows : list Venda) (g : gmap Py.str (Z * Z))
  (k : Py.str) :
  fold_left agrupa (List.map (fun r => (chave r, faturamento r)) rows) g !! k
  = acumula (g !! k)
      (List.map faturamento (List.filter (fun r => is_key k (chave r)) rows)).
Proof.
  revert g. induction rows as [|r rows IH]; intros g; [reflexivity |].
  cbn [List.map fold_left List.filter]. rewrite IH. unfold agrupa.
  cbn [fst snd]. destruct (chave r) as [z | k' | ]; cbn [is_key]; try reflexivity.
  unfold Py.str_eqb. case_bool_decide as Hk.
  - subst k'. cbn [List.map].
    destruct (g !! k) as [[s n]|] eqn:E; rewrite lookup_insert_eq.
    + apply acumula_cons.
    + apply acumula_first.
  - destruct (g !! k') as [[s n]|]; rewrite lookup_insert_ne by congruence;
      reflexivity.
Qed.

Lemma weekday_range (d : Z) : (0 <= Py.weekday d < 7)%Z.
Proof. unfold Py.weekday. apply Z.mod_pos_bound. reflexivity. Qed.

(** The names of [dias_pt_map] are distinct, so the rows of a name are
    the rows of its weekday number. *)
Lemma is_key_weekday (i : Z) (nome : Py.str) (r : Venda) :
  In (i, nome) dias_pt_map ->
  is_key nome (chave r) = (Py.weekday (date r) =? i)%Z.
Proof.
  intros Hin. unfold chave.
  pose proof (weekday_range (date r)) as Hw.
  generalize dependent (Py.weekday (date r)). intros w Hw.
  assert (Hcases : (w = 0 \/ w = 1 \/ w = 2 \/ w = 3 \/ w = 4 \/ w = 5 \/ w = 6)%Z)
    by lia.
  cbn in Hin.
  repeat (destruct Hin as [Hin | Hin]; [injection Hin as <- <- |]);
    [.. | destruct Hin];
    repeat (destruct Hcases as [-> | Hcases]; [vm_compute; reflexivity |]);
    subst w; vm_compute; reflexivity.
Qed.

Lemma groupby_mean_lookup (rows : list Venda) (i : Z) (nome : Py.str) :
  In (i, nome) dias_pt_map ->
  groupby_mean (List.map chave rows) (List.map faturamento rows) !! nome
  = media_do_dia rows i.
Proof.
  intros Hin. unfold groupby_mean, media_do_dia.
  rewrite lookup_fmap.
  replace (combine (List.map chave rows) (List.map faturamento rows))
    with (List.map (fun r => (chave r, faturamento r)) rows)
    by (induction rows as [|r rows IH]; cbn; [reflexivity | f_equal; exact IH]).
  rewrite agrupa_fold_lookup, lookup_empty.
  rewrite (filter_ext _ (fun r => (Py.weekday (date r) =? i)%Z))
    by (intros r; apply is_key_weekday, Hin).
  destruct (List.filter _ rows) as [|r0 bucket]; [reflexivity |].
  change (acumula None (List.map faturamento (r0 :: bucket)))
    with (Some (soma (List.map faturamento (r0 :: bucket)),
                Z.of_nat (length (List.map faturamento (r0 :: bucket))))).
  rewrite length_map. reflexivity.
Qed.

(** The chart rows, from the rows of the frame. *)
Lemma reindex_groupby (rows : list Venda) :
  reindex (groupby_mean (List.map chave rows) (List.map faturamento rows))
    dias_pt_ordem
  = List.map (fun p => (snd p, media_do_dia rows (fst p))) dias_pt_map.
Proof.
  unfold reindex. change dias_pt_ordem with (List.map snd dias_pt_map).
  rewrite List.map_map. apply map_ext_in. intros [i nome] Hin. cbn [fst snd].
  f_equal. apply groupby_mean_lookup, Hin.
Qed.

Lemma series_map_weekday (rows : list Venda) :
  series_map dias_pt_map
    (List.map (fun r => VInt (Py.weekday (date r))) rows)
  = List.map chave rows.
Proof. unfold series_map. rewrite List.map_map. reflexivity. Qed.

(** The weekday block returns, having assigned its two columns. *)
Lemma wd_rev_run (h : gmap positive DataFrame) (df : positive) (F : DataFrame) :
  h !! df = Some F ->
  exists h',
    wd_rev df h
    = Some (List.map (fun p => (snd p, media_do_dia (linhas F) (fst p)))
              dias_pt_map, h')
    /\ linhas <$> h' !! df = Some (linhas F).
Proof.
  intros Hdf. unfold wd_rev, bind, deref, setitem, getitem_col, ret.
  rewrite Hdf. cbv beta iota. rewrite Hdf. cbv beta iota.
  unfold bind, deref, ret.
  rewrite lookup_insert_eq. cbv beta iota. cbn [extras linhas].
  rewrite dict_get_set_col_eq. cbn [lift_option]. unfold ret.
  rewrite lookup_insert_eq. cbv beta iota. cbn [extras linhas].
  rewrite lookup_insert_eq. cbv beta iota. cbn [extras linhas].
  rewrite dict_get_set_col_eq. cbn [lift_option]. unfold ret.
  rewrite lookup_insert_eq. cbv beta iota. cbn [extras linhas].
  rewrite series_map_weekday, reindex_groupby.
  eexists. split; [reflexivity |].
  rewrite lookup_insert_eq. reflexivity.
Qed.

Lemma media_do_dia_perm (rows rows' : list Venda) (i : Z) :
  Permutation rows rows' -> media_do_dia rows i = media_do_dia rows' i.
Proof.
  intros Hperm. unfold media_do_dia.
  set (f := fun r => (Py.weekday (date r) =? i)%Z).
  assert (Hb : Permutation (List.filter f rows) (List.filter f rows')).
  { clear -Hperm. induction Hperm as [| x l l' _ IH | x y l | l l' l'' _ IH1 _ IH2];
      cbn [List.filter].
    - constructor.
    - destruct (f x); [constructor |]; exact IH.
    - destruct (f x), (f y); try reflexivity. apply perm_swap.
    - etransitivity; eassumption. }
  pose proof (Permutation_length Hb) as Hlen.
  pose proof (soma_perm _ _ (Permutation_map faturamento Hb)) as Hsum.
  destruct (List.filter f rows) as [|a l], (List.filter f rows') as [|b l'];
    try discriminate; [reflexivity |].
  rewrite Hsum, Hlen. reflexivity.
Qed.

(** C3: the weekday aggregation returns, for every filtered frame,
    exactly seven rows, one per weekday, in the order Segunda-feira to
    Domingo of [dias_pt_ordem]; the value of a weekday is the mean revenue
    of the rows dated on it, and none (NaN) when the frame has no such
    row; and the result is the same for any other order of the rows of the
    frame. *)
Theorem C3_weekday_complete (h : gmap positive DataFrame) (df : positive)
  (F : DataFrame) :
  h !! df = Some F ->
  exists out h',
    wd_rev df h = Some (out, h')
    /\ length out = 7
    /\ List.map fst out = dias_pt_ordem
    /\ out = List.map (fun p => (snd p, media_do_dia (linhas F) (fst p)))
               dias_pt_map
    /\ (forall (h2 : gmap positive DataFrame) (F2 : DataFrame),
          h2 !! df = Some F2 -> Permutation (linhas F) (linhas F2) ->
          exists h2', wd_rev df h2 = Some (out, h2')).
Proof.
  intros Hdf. destruct (wd_rev_run h df F Hdf) as (h' & Hrun & _).
  eexists _, h'. split; [exact Hrun |].
  split; [reflexivity |]. split; [reflexivity |]. split; [reflexivity |].
  intros h2 F2 Hdf2 Hperm.
  destruct (wd_rev_run h2 df F2 Hdf2) as (h2' & Hrun2 & _).
  exists h2'. rewrite Hrun2. do 2 f_equal.
  apply map_ext. intros [i nome]. cbn [fst snd]. f_equal.
  symmetry. apply media_do_dia_perm, Hperm.
Qed.

(** ** The sorts *)

Section InsertBy.
Variable first : Z -> Z -> bool.
Variable by_ : Venda -> Z.
Variable le : Z -> Z -> Prop.
Hypothesis le_trans : forall x y z, le x y -> le y z -> le x z.
Hypothesis first_true : forall x y, first x y = true -> le x y.
Hypothesis first_false : forall x y, first x y = false -> le y x.

Lemma insert_by_perm (x : Venda) (l : list Venda) :
  Permutation (Sorts.insert_by first by_ x l) (x :: l).
Proof.
  induction l as [|y l IH]; cbn [Sorts.insert_by]; [reflexivity |].
  destruct (first (by_ x) (by_ y)); [reflexivity |].
  rewrite IH. apply perm_swap.
Qed.

Lemma insert_by_sorted (x : Venda) (l : list Venda) :
  StronglySorted (fun a b => le (by_ a) (by_ b)) l ->
  StronglySorted (fun a b => le (by_ a) (by_ b)) (Sorts.insert_by first by_ x l).
Proof using le_trans first_true first_false.
  induction 1 as [|y l Hs IH Hy]; cbn [Sorts.insert_by].
  - constructor; constructor.
  - destruct (first (by_ x) (by_ y)) eqn:E.
    + constructor; [constructor; assumption |].
      apply first_true in E. constructor; [exact E |].
      eapply Forall_impl; [exact Hy |]. intros z Hz. eapply le_trans; eassumption.
    + constructor; [exact IH |].
      eapply Permutation_Forall; [symmetry; apply insert_by_perm |].
      constructor; [apply first_false, E | exact Hy].
Qed.

Lemma fold_insert_by_perm (l : list Venda) :
  Permutation (fold_right (Sorts.insert_by first by_) [] l) l.
Proof.
  induction l as [|x l IH]; cbn [fold_right]; [reflexivity |].
  rewrite insert_by_perm, IH. reflexivity.
Qed.

Lemma fold_insert_by_sorted (l : list Venda) :
  StronglySorted (fun a b => le (by_ a) (by_ b))
    (fold_right (Sorts.insert_by first by_) [] l).
Proof using le_trans first_true first_false.
  induction l as [|x l IH]; cbn [fold_right]; [constructor |].
  apply insert_by_sorted, IH.
Qed.

End InsertBy.

Lemma sorted_direction (by_ : Venda -> Z) (ascending : bool) (l : list Venda) :
  StronglySorted
    (fun a b => (if ascending then Z.le else fun x y => Z.le y x) (by_ a) (by_ b)) l ->
  StronglySorted
    (fun a b => if ascending then (by_ a <= by_ b)%Z else (by_ b <= by_ a)%Z) l.
Proof.
  apply StronglySorted_ind.
  - constructor.
  - intros a l' _ IH Ha. constructor; [exact IH |].
    eapply Forall_impl; [exact Ha |]. intros b. destruct ascending; tauto.
Qed.

Lemma stable_sorted (by_ : Venda -> Z) (ascending : bool) (df : list Venda) :
  StronglySorted
    (fun a b => if ascending then (by_ a <= by_ b)%Z else (by_ b <= by_ a)%Z)
    (Sorts.stable by_ ascending df).
Proof.
  apply sorted_direction. unfold Sorts.stable.
  apply fold_insert_by_sorted; unfold Sorts.not_after; destruct ascending;
    intros; repeat match goal with
                   | H : (_ <=? _)%Z = _ |- _ => revert H; case Z.leb_spec; intros
                   end; lia || congruence.
Qed.

Lemma stable_perm (by_ : Venda -> Z) (ascending : bool) (df : list Venda) :
  Permutation (Sorts.stable by_ ascending df) df.
Proof. apply fold_insert_by_perm. Qed.

Definition stable_sort : PandasSort := {|
  sort_values := Sorts.stable;
  sort_values_perm := stable_perm;
  sort_values_sorted := stable_sorted
|}.

(** ** The report *)

Lemma is_latin1_true (s : Py.str) : latin1 s -> Py.is_latin1 s = true.
Proof.
  intros Hs. unfold Py.is_latin1. apply forallb_forall. intros c Hc.
  apply N.leb_le. exact (proj1 (List.Forall_forall _ _) Hs c Hc).
Qed.

Lemma latin1_app (a b : Py.str) : latin1 a -> latin1 b -> latin1 (a ++ b).
Proof. intros Ha Hb. apply Forall_app. split; assumption. Qed.

Lemma latin1_digits_aux (fuel : nat) (n : N) (acc : Py.str) :
  latin1 acc -> latin1 (Py.digits_aux fuel n acc).
Proof.
  revert n acc. induction fuel as [|fuel IH]; intros n acc Hacc;
    cbn [Py.digits_aux]; [exact Hacc |].
  assert (Hd : latin1 ((48 + n mod 10)%N :: acc)).
  { constructor; [| exact Hacc].
    pose proof (N.mod_upper_bound n 10). lia. }
  destruct (n / 10 =? 0)%N; [exact Hd | apply IH, Hd].
Qed.

Lemma latin1_digits (n : N) : latin1 (Py.digits n).
Proof. apply latin1_digits_aux. constructor. Qed.

Lemma latin1_zfill (w : nat) (n : N) : latin1 (Py.zfill w n).
Proof.
  unfold Py.zfill. apply latin1_app; [| apply latin1_digits].
  apply List.Forall_forall. intros c Hc. apply repeat_spec in Hc. subst c. lia.
Qed.

Lemma latin1_group3_rev (ds : Py.str) : latin1 ds -> latin1 (Py.group3_rev ds).
Proof.
  remember (length ds) as n eqn:Hn.
  assert (Hle : length ds <= n) by lia. clear Hn. revert ds Hle.
  induction n as [|n IH]; intros ds Hle Hds.
  - destruct ds; [exact Hds | cbn in Hle; lia].
  - destruct ds as [|a [|b [|c [|d rest]]]]; try exact Hds.
    change (Py.group3_rev (a :: b :: c :: d :: rest))
      with (a :: b :: c :: 44%N :: Py.group3_rev (d :: rest)).
    inversion Hds as [|? ? Ha Hds1]; subst.
    inversion Hds1 as [|? ? Hb Hds2]; subst.
    inversion Hds2 as [|? ? Hc Hds3]; subst.
    repeat (constructor; [assumption || lia |]).
    apply IH; [cbn [length] in Hle |- *; lia | exact Hds3].
Qed.

Lemma latin1_grouped (n : N) : latin1 (Py.grouped n).
Proof.
  unfold Py.grouped. apply Forall_rev, latin1_group3_rev, Forall_rev.
  apply latin1_digits.
Qed.

Lemma latin1_minus_sign (z : Z) : latin1 (Py.minus_sign z).
Proof.
  unfold Py.minus_sign. destruct (z <? 0)%Z; [| constructor].
  constructor; [lia | constructor].
Qed.

Lemma latin1_fmt_2f_grouped (c : Z) : latin1 (Py.fmt_2f_grouped c).
Proof.
  unfold Py.fmt_2f_grouped.
  apply latin1_app; [apply latin1_minus_sign |].
  apply latin1_app; [apply latin1_grouped |].
  apply latin1_app; [| apply latin1_zfill].
  constructor; [lia | constructor].
Qed.

Lemma latin1_fmt_int_grouped (z : Z) : latin1 (Py.fmt_int_grouped z).
Proof.
  unfold Py.fmt_int_grouped.
  apply latin1_app; auto using latin1_minus_sign, latin1_grouped.
Qed.

Lemma latin1_lit (s : Py.str) : Py.is_latin1 s = true -> latin1 s.
Proof.
  unfold Py.is_latin1. intros Hs. apply List.Forall_forall. intros c Hc.
  apply N.leb_le. exact (proj1 (forallb_forall _ _) Hs c Hc).
Qed.

Lemma latin1_strftime (now : datetime) : latin1 (strftime_dmY_HM now).
Proof.
  unfold strftime_dmY_HM.
  repeat first [ apply latin1_zfill
               | apply latin1_lit; vm_compute; reflexivity
               | apply latin1_app ].
Qed.

Lemma safe_txt_map (d : Py.str) :
  safe_txt d = List.map (fun c => if (c <=? 255)%N then c else 63%N) d.
Proof. reflexivity. Qed.

Lemma latin1_safe_txt (d : Py.str) : latin1 (safe_txt d).
Proof.
  rewrite safe_txt_map. apply List.Forall_forall. intros c Hc.
  apply in_map_iff in Hc. destruct Hc as (c0 & <- & _).
  destruct (N.leb_spec c0 255); lia.
Qed.

Lemma safe_txt_id (d : Py.str) : latin1 d -> safe_txt d = d.
Proof.
  rewrite safe_txt_map. induction 1 as [|c d Hc _ IH]; cbn [List.map];
    [reflexivity |].
  rewrite IH. destruct (N.leb_spec c 255); [reflexivity | lia].
Qed.

Create HintDb latin1.
#[local] Hint Resolve latin1_app latin1_fmt_2f_grouped latin1_fmt_int_grouped
  latin1_strftime latin1_safe_txt : latin1.
#[local] Hint Extern 1 (latin1 (Py.lit _)) =>
  (apply latin1_lit; vm_compute; reflexivity) : latin1.

Lemma emits_emit (op : pdf_op) : emits (emit op) [op].
Proof. intros doc. reflexivity. Qed.

Lemma emits_cell (w h : Z) (txt : Py.str) (border : Z) (align : Py.str)
  (new_line : bool) :
  latin1 txt ->
  emits (pdf_cell w h txt border align new_line)
    [Cell w h txt border align new_line].
Proof.
  intros Htxt doc. unfold pdf_cell. rewrite (is_latin1_true txt Htxt).
  reflexivity.
Qed.

Lemma emits_bind (m : PDF unit) (k : unit -> PDF unit) (a b : list pdf_op) :
  emits m a -> emits (k tt) b -> emits (bind m k) (a ++ b).
Proof.
  intros Hm Hk doc. unfold bind. rewrite Hm, Hk, app_assoc. reflexivity.
Qed.

Lemma emits_for_ {A} (xs : list A) (body : A -> PDF unit)
  (ops : A -> list pdf_op) :
  (forall x, In x xs -> emits (body x) (ops x)) ->
  emits (for_ xs body) (flat_map ops xs).
Proof.
  induction xs as [|x xs IH]; intros Hbody; cbn [for_ flat_map].
  - intros doc. unfold ret. rewrite app_nil_r. reflexivity.
  - apply emits_bind; [apply Hbody; left; reflexivity |].
    apply IH. intros y Hy. apply Hbody. right. exact Hy.
Qed.

Lemma flat_map_singleton {A B} (f : A -> B) (xs : list A) :
  flat_map (fun x => [f x]) xs = List.map f xs.
Proof. induction xs as [|x xs IH]; cbn; [reflexivity | f_equal; exact IH]. Qed.

Lemma enumerate_In {A} (xs : list A) (i : nat) (x : A) :
  In (i, x) (enumerate xs) -> i < length xs.
Proof.
  unfold enumerate. intros Hin. apply in_combine_l in Hin.
  apply in_seq in Hin. lia.
Qed.

(** A cell of the table or of its header: the width is that of the
    column, which exists for the six columns. *)
Lemma emits_column_cell (i : nat) (h : Z) (txt align : Py.str) :
  i < 6 -> latin1 txt ->
  emits (let! w := lift_option (nth_error col_widths i) in
         pdf_cell w h txt 1 align false)
    [Cell (nth i col_widths 0%Z) h txt 1 align false].
Proof.
  intros Hi Htxt doc. unfold bind.
  rewrite (nth_error_nth' col_widths 0%Z) by (cbn; lia).
  cbn [lift_option ret]. apply emits_cell, Htxt.
Qed.

Lemma emits_celulas (row : Venda) : emits (celulas row) (celulas_de row).
Proof.
  unfold celulas, celulas_de.
  apply emits_bind; [| apply emits_emit].
  rewrite <- flat_map_singleton. apply emits_for_.
  intros [i d] Hin. apply enumerate_In in Hin.
  apply emits_column_cell; [exact Hin | apply latin1_safe_txt].
Qed.

Lemma StronglySorted_app_inv {A} (R : A -> A -> Prop) (l1 l2 : list A) :
  StronglySorted R (l1 ++ l2) ->
  StronglySorted R l1 /\ forall a b, In a l1 -> In b l2 -> R a b.
Proof.
  induction l1 as [|x l1 IH]; cbn [app]; intros Hs.
  - split; [constructor | intros a b []].
  - inversion Hs as [|? ? Hs' Hx]; subst.
    destruct (IH Hs') as [Hs1 Hcross]. split.
    + constructor; [exact Hs1 |].
      apply List.Forall_forall. intros y Hy.
      apply (proj1 (List.Forall_forall _ _) Hx). apply in_or_app. left. exact Hy.
    + intros a b [<- | Ha] Hb.
      * apply (proj1 (List.Forall_forall _ _) Hx). apply in_or_app. right. exact Hb.
      * apply Hcross; assumption.
Qed.

Lemma prefix_bind (m : PDF unit) (k : unit -> PDF unit) (T : list pdf_op) :
  (exists a, emits m a) ->
  (exists pre, emits (k tt) (pre ++ T)) ->
  exists pre, emits (bind m k) (pre ++ T).
Proof.
  intros [a Ha] [pre Hk]. exists (a ++ pre).
  rewrite <- app_assoc. apply emits_bind; assumption.
Qed.

Section ReportClaims.
Context {P : PandasSort}.

Lemma emits_tabela (df : list Venda) :
  emits (tabela df)
    ([SetFont u"Helvetica" u"" 9] ++ flat_map celulas_de (df_top df)).
Proof.
  unfold tabela. apply emits_bind; [apply emits_emit |].
  apply emits_for_. intros row _. apply emits_celulas.
Qed.

(** The report is drawn for every input: a heading, then the rows of
    the table. *)
Lemma dsa_gera_pdf_report_returns (now : datetime) (df : list Venda)
  (total_faturamento total_quantidade : Z) (avg_ticket : Q) :
  exists cabecalho,
    dsa_gera_pdf_report now df total_faturamento total_quantidade avg_ticket
    = Some (cabecalho ++ flat_map celulas_de (df_top df)).
Proof.
  unfold dsa_gera_pdf_report.
  match goal with
  | |- exists c, match ?m [] with _ => _ end = _ =>
    assert (Hm : exists pre, emits m (pre ++ flat_map celulas_de (df_top df)))
  end.
  { repeat (apply prefix_bind;
            [eexists; first [ apply emits_emit
                            | apply emits_cell; auto 6 with latin1 ] |]).
    apply prefix_bind.
    - eexists. apply emits_for_ with
        (ops := fun '(i, h) => [Cell (nth i col_widths 0%Z) 8 h 1 u"C" false]).
      intros [i h] Hin. pose proof (enumerate_In _ _ _ Hin) as Hi.
      apply emits_column_cell; [exact Hi |].
      apply in_combine_r in Hin. cbn in Hin.
      repeat (destruct Hin as [<- | Hin];
              [apply latin1_lit; vm_compute; reflexivity |]).
      destruct Hin.
    - apply prefix_bind; [eexists; apply emits_emit |].
      eexists. apply emits_tabela. }
  destruct Hm as [pre Hm]. exists pre. rewrite (Hm []). reflexivity.
Qed.

(** X16: the table of the report is drawn from [df_top], the first 15
    rows (all of them when there are fewer) of the frame sorted by
    revenue, descending: its rows are in descending order of revenue, they
    are rows of the frame, and no row of the frame left out has a higher
    revenue than a row listed.  This holds whatever the sort does with
    rows of equal revenue. *)
Theorem df_top_quinze_maiores (df : list Venda) :
  emits (tabela df)
    ([SetFont u"Helvetica" u"" 9] ++ flat_map celulas_de (df_top df))
  /\ length (df_top df) = Nat.min 15 (length df)
  /\ StronglySorted (fun a b => (faturamento b <= faturamento a)%Z) (df_top df)
  /\ exists resto,
       Permutation (df_top df ++ resto) df
       /\ forall r r', In r (df_top df) -> In r' resto ->
                       (faturamento r' <= faturamento r)%Z.
Proof.
  split; [apply emits_tabela |]. unfold df_top.
  pose proof (sort_values_perm faturamento false df) as Hperm.
  pose proof (sort_values_sorted faturamento false df) as Hsorted.
  cbv beta iota in Hsorted.
  rewrite <- (firstn_skipn 15 (sort_values faturamento false df)) in Hsorted.
  apply StronglySorted_app_inv in Hsorted. destruct Hsorted as [Hs Hcross].
  split; [rewrite length_firstn, (Permutation_length Hperm); reflexivity |].
  split; [exact Hs |].
  exists (skipn 15 (sort_values faturamento false df)).
  rewrite firstn_skipn. split; [exact Hperm |].
  intros r r' Hr Hr'. apply Hcross; assumption.
Qed.

(** C9: every text placed in a cell of the table is a field of the row
    transcoded to Latin-1, every character outside the encoding replaced
    by [?] and the others kept, so that the cell is accepted; and the
    report is drawn to the end for every frame, whatever its strings. *)
Theorem C9_latin1_transcoding :
  (forall d : Py.str,
      safe_txt d = List.map (fun c => if (c <=? 255)%N then c else 63%N) d
      /\ length (safe_txt d) = length d
      /\ Py.is_latin1 (safe_txt d) = true
      /\ (Py.is_latin1 d = true -> safe_txt d = d))
  /\ (forall row : Venda, emits (celulas row) (celulas_de row))
  /\ (forall (now : datetime) (df : list Venda)
             (total_faturamento total_quantidade : Z) (avg_ticket : Q),
        exists cabecalho,
          dsa_gera_pdf_report now df total_faturamento total_quantidade
            avg_ticket
          = Some (cabecalho ++ flat_map celulas_de (df_top df))).
Proof.
  split; [| split].
  - intros d. split; [apply safe_txt_map |].
    split; [rewrite safe_txt_map; apply length_map |].
    split; [apply is_latin1_true, latin1_safe_txt |].
    intros Hd. apply safe_txt_id, latin1_lit, Hd.
  - apply emits_celulas.
  - apply dsa_gera_pdf_report_returns.
Qed.

End ReportClaims.

Lemma sublist_filter_mono {A} (P : A -> Prop) `{!forall x, Decision (P x)}
  (l1 l2 : list A) :
  sublist l1 l2 -> sublist (filter P l1) (filter P l2).
Proof.
  induction 1 as [| x l1 l2 _ IH | x l1 l2 _ IH]; [constructor | |];
    rewrite ?filter_cons; destruct (decide (P x));
    try constructor; exact IH.
Qed.

Lemma filter_insert_not_after (v : Z) (x : Venda) (l : list Venda) :
  filter (fun r => faturamento r = v)
    (Sorts.insert_by (Sorts.not_after false) faturamento x l)
  = filter (fun r => faturamento r = v) (x :: l).
Proof.
  induction l as [|y l IH]; [reflexivity |]. cbn [Sorts.insert_by].
  destruct (Sorts.not_after false (faturamento x) (faturamento y)) eqn:E;
    [reflexivity |].
  unfold Sorts.not_after in E. apply Z.leb_gt in E.
  rewrite (filter_cons _ y), IH, !filter_cons.
  destruct (decide (faturamento x = v)), (decide (faturamento y = v));
    try reflexivity; lia.
Qed.

(** The order of rows of equal revenue is the sort's: with a sort that
    is stable (what pandas promises of [kind] mergesort and stable, and
    not of the default) they keep the order of the frame. *)
Lemma stable_sort_ordem_original (df : list Venda) :
  ordem_original df (@df_top stable_sort df).
Proof.
  intros v. unfold df_top. cbn [sort_values stable_sort].
  transitivity (filter (fun r => faturamento r = v)
                  (Sorts.stable faturamento false df)).
  - apply sublist_filter_mono, sublist_take.
  - unfold Sorts.stable. induction df as [|x df IH]; [reflexivity |].
    cbn [fold_right]. rewrite filter_insert_not_after, !filter_cons.
    destruct (decide (faturamento x = v)); [constructor |]; exact IH.
Qed.

(** ** The model on sample inputs *)

Example lit_acentos :
  u"Serviços" = [83; 101; 114; 118; 105; 231; 111; 115]%N.
Proof. reflexivity. Qed.

Example date_2026 : Py.date 2026 1 1 = 739617%Z.
Proof. reflexivity. Qed.

Example isoformat_examples :
  Py.isoformat 739617 = u"2026-01-01"
  /\ Py.isoformat (Py.date 2024 2 29) = u"2024-02-29"
  /\ Py.isoformat (Py.date 2026 6 29) = u"2026-06-29"
  /\ Py.isoformat (Py.date 2025 12 31) = u"2025-12-31".
Proof. repeat split; reflexivity. Qed.

Example weekday_2026 : Py.weekday (Py.date 2026 1 1) = 3%Z.
Proof. reflexivity. Qed.

Example fmt_examples :
  Py.fmt_2f_grouped 123456789 = u"1,234,567.89"
  /\ Py.fmt_2f_grouped 5 = u"0.05"
  /\ Py.fmt_2f_grouped 100000 = u"1,000.00"
  /\ Py.fmt_2f_grouped (-99950) = u"-999.50"
  /\ Py.fmt_int_grouped 1234567 = u"1,234,567"
  /\ Py.str_int 24 = u"24" /\ Py.str_int 0 = u"0" /\ Py.str_int 1000 = u"1000".
Proof. repeat split; reflexivity. Qed.

Example round2_examples :
  Py.round2 (1234567 # 1000) = 123457%Z /\ Py.round2 (1 # 3) = 33%Z.
Proof. split; reflexivity. Qed.

(** A character outside Latin-1 becomes [?]; accented letters stay. *)
Example safe_txt_euro : safe_txt u"Fone € ção" = u"Fone ? ção".
Proof. reflexivity. Qed.

Example data_euro :
  List.map safe_txt
    (data (mkVenda 7 (Py.date 2026 3 5) u"Sul" u"Eletrônicos"
             u"Carregador sem fio 15W € premium" 1234567 24))
  = [u"2026-03-05"; u"Sul"; u"Eletrônicos"; u"Carregador sem fio 1"; u"24";
     u"R$ 12,345.67"].
Proof. vm_compute. reflexivity. Qed.

Example filtra_amostra :
  filtra (mkSidebar [Py.date 2026 1 1; Py.date 2026 1 7] [u"Sul"; u"Norte"]
            [u"Roupas"; u"Alimentos"] [u"Terno"; u"Bebidas"]) amostra
  = [venda_a].
Proof. vm_compute. reflexivity. Qed.

Example filtra_parcial : filtra ui_parcial amostra = [venda_a; venda_b].
Proof. vm_compute. reflexivity. Qed.

Example wd_rev_amostra :
  fst <$> wd_rev 1%positive store_amostra
  = Some [ (u"Segunda-feira", None); (u"Terça-feira", None);
           (u"Quarta-feira", None); (u"Quinta-feira", Some (19550 # 200));
           (u"Sexta-feira", Some (15000 # 100)); (u"Sábado", None);
           (u"Domingo", None) ].
Proof. vm_compute. reflexivity. Qed.

Example df_top_stable :
  @df_top stable_sort amostra = [venda_a; venda_b; venda_c].
Proof. vm_compute. reflexivity. Qed.

Example gera_rows_lcg :
  (fun r => (length (fst r), hd_error (fst r)))
    <$> @gera_rows LCG_random 42 (Py.date 2026 1 1) 1 7%Z
  = Some (12, Some (mkLinha u"2026-01-01" u"Centro-Oeste" u"Roupas" u"Terno"
                      97602 8)).
Proof. vm_compute. reflexivity. Qed.

Example kpis_amostra :
  fst <$> @dsa_renderiza_cards_kpis LCG_random amostra 1%Z
  = Some (34550%Z, 5%Z, (reais 34550 / inject_Z 5)%Q).
Proof. vm_compute. reflexivity. Qed.

(** ** The claims on sample inputs *)

Lemma C8_date_fallback_witness :
  length (date_range ui_parcial) <> 2
  /\ (periodo ui_parcial amostra
      = (series_min (List.map date amostra), series_max (List.map date amostra))
      /\ (forall r, r ∈ amostra ->
            date_ge (date r) (fst (periodo ui_parcial amostra)) = true
            /\ date_le (date r) (snd (periodo ui_parcial amostra)) = true)
      /\ filtra ui_parcial amostra
         = filter (fun r => regiao r ∈ selected_regioes ui_parcial
                            /\ categoria r ∈ selected_categorias ui_parcial
                            /\ produto r ∈ selected_produtos ui_parcial) amostra
      /\ (amostra <> [] ->
          exists lo hi,
            periodo ui_parcial amostra = (Some lo, Some hi)
            /\ lo ∈ List.map date amostra /\ hi ∈ List.map date amostra
            /\ forall r, r ∈ amostra -> (lo <= date r <= hi)%Z)).
Proof.
  split; [cbn; lia |].
  apply (C8_date_fallback ui_parcial amostra). cbn. lia.
Defined.

Lemma C10_filter_leaves_source_witness :
  store_amostra !! 1%positive = Some (mkDataFrame amostra [])
  /\ exists (out : positive) (h' : gmap positive DataFrame) (G : DataFrame),
      dsa_filtros_sidebar ui_parcial 1%positive store_amostra = Some (out, h')
      /\ h' !! 1%positive = Some (mkDataFrame amostra [])
      /\ (forall l F0, store_amostra !! l = Some F0 -> h' !! l = Some F0)
      /\ store_amostra !! out = None
      /\ out <> 1%positive
      /\ h' !! out = Some G
      /\ linhas G = filtra ui_parcial (linhas (mkDataFrame amostra []))
      /\ (forall name col,
            exists h'', setitem out name col h' = Some (tt, h'')
                        /\ h'' !! 1%positive = Some (mkDataFrame amostra [])
                        /\ linhas <$> h'' !! out = Some (linhas G)).
Proof.
  split; [reflexivity |].
  apply (C10_filter_leaves_source ui_parcial store_amostra 1%positive
           (mkDataFrame amostra [])).
  reflexivity.
Defined.

Lemma C3_weekday_complete_witness :
  store_amostra !! 1%positive = Some (mkDataFrame amostra [])
  /\ exists out h',
      wd_rev 1%positive store_amostra = Some (out, h')
      /\ length out = 7
      /\ List.map fst out = dias_pt_ordem
      /\ out = List.map
                 (fun p => (snd p,
                            media_do_dia (linhas (mkDataFrame amostra [])) (fst p)))
                 dias_pt_map
      /\ (forall (h2 : gmap positive DataFrame) (F2 : DataFrame),
            h2 !! 1%positive = Some F2 ->
            Permutation (linhas (mkDataFrame amostra [])) (linhas F2) ->
            exists h2', wd_rev 1%positive h2 = Some (out, h2')).
Proof.
  split; [reflexivity |].
  apply (C3_weekday_complete store_amostra 1%positive (mkDataFrame amostra [])).
  reflexivity.
Defined.

(** * Further properties *)

(** ** The generator: days, domains and revenue band *)

Lemma round_half_even_lower (a : Z) (q : Q) :
  (inject_Z a <= q)%Q -> (a <= Py.round_half_even q)%Z.
Proof.
  intros Hq. unfold Qle in Hq. cbn in Hq. unfold Py.round_half_even.
  assert (Hfl : (a <= Qnum q / Z.pos (Qden q))%Z)
    by (apply Z.div_le_lower_bound; lia).
  repeat match goal with |- context [if ?b then _ else _] => destruct b end; lia.
Qed.

Lemma round_half_even_upper (b : Z) (q : Q) :
  (q <= inject_Z b)%Q -> (Py.round_half_even q <= b)%Z.
Proof.
  intros Hq. unfold Qle in Hq. cbn in Hq. unfold Py.round_half_even.
  pose proof (Z.div_mod (Qnum q) (Z.pos (Qden q)) ltac:(lia)) as Hdm.
  pose proof (Z.mod_pos_bound (Qnum q) (Z.pos (Qden q)) ltac:(lia)) as Hm.
  set (fl := (Qnum q / Z.pos (Qden q))%Z) in *.
  set (r := (Qnum q mod Z.pos (Qden q))%Z) in *.
  destruct (Z.ltb_spec (2 * r) (Z.pos (Qden q))) as [_ | H1]; [nia |].
  assert (fl + 1 <= b)%Z by nia.
  repeat match goal with |- context [if ?c then _ else _] => destruct c end; lia.
Qed.

Lemma preco_minimo (c p : Py.str) (produtos_c : list (Py.str * Z))
  (preco_base : Z) :
  In c categorias ->
  dict_get dict_produtos c = Some produtos_c ->
  In p (keys produtos_c) ->
  dict_get produtos_c p = Some preco_base ->
  (15 <= preco_base)%Z.
Proof.
  intros Hc Hget Hp Hpreco. cbn in Hc.
  destruct Hc as [<- | [<- | [<- | [<- | []]]]];
    vm_compute in Hget; injection Hget as <-;
    cbn in Hp; destruct Hp as [<- | [<- | [<- | []]]];
    vm_compute in Hpreco; injection Hpreco as <-; lia.
Qed.

Lemma faturamento_na_banda (preco_base quantidade : Z) (noise : Q) :
  (0 <= preco_base * quantidade)%Z ->
  (- (20 # 100) <= noise)%Q -> (noise < 20 # 100)%Q ->
  (80 * (preco_base * quantidade)
   <= Py.round2 (faturamento_de preco_base quantidade noise)
   <= 120 * (preco_base * quantidade))%Z.
Proof.
  intros Hpq Hn0 Hn1. unfold Py.round2, faturamento_de.
  set (m := (preco_base * quantidade)%Z) in *.
  assert (Hk : (0 <= inject_Z m)%Q) by (unfold Qle; cbn; lia).
  assert (H80 : (inject_Z (80 * m) == 80 * inject_Z m)%Q)
    by (rewrite inject_Z_mult; reflexivity).
  assert (H120 : (inject_Z (120 * m) == 120 * inject_Z m)%Q)
    by (rewrite inject_Z_mult; reflexivity).
  split.
  - apply round_half_even_lower. rewrite H80. unfold Py.max0.
    destruct (Qle_bool (inject_Z m * (1 + noise)) 0) eqn:E.
    + apply Qle_bool_iff in E. nra.
    + nra.
  - apply round_half_even_upper. rewrite H120. unfold Py.max0.
    destruct (Qle_bool (inject_Z m * (1 + noise)) 0) eqn:E; nra.
Qed.

Section GeneratorExtras.
Context {R : NumpyRandom}.

Lemma returns_gera_venda_dia (d : Z) :
  returns (gera_venda d)
    (fun l => l_date l = Py.isoformat d
              /\ In (l_regiao l) regioes /\ In (l_categoria l) categorias
              /\ na_banda l).
Proof.
  unfold gera_venda.
  eapply returns_bind; [apply returns_choice; discriminate |]. intros r Hr.
  eapply returns_bind; [apply returns_choice; discriminate |]. intros c Hc.
  destruct (categorias_registradas c Hc) as (produtos_c & Hget & Hne).
  eapply returns_bind; [eapply returns_lift_option with (Q := eq produtos_c);
                        [exact Hget | reflexivity] |].
  intros ? <-.
  eapply returns_bind; [apply returns_choice, Hne |]. intros p Hp.
  destruct (dict_get_keys produtos_c p Hp) as (preco_base & Hpreco).
  eapply returns_bind; [eapply returns_lift_option with (Q := eq preco_base);
                        [exact Hpreco | reflexivity] |].
  intros ? <-.
  eapply returns_bind; [apply returns_randint; lia |]. intros quantidade Hq.
  eapply returns_bind; [apply returns_uniform; reflexivity |].
  intros noise [Hn0 Hn1]. cbn beta in Hq.
  apply returns_ret. cbn [l_date l_regiao l_categoria].
  split; [reflexivity |]. split; [exact Hr |]. split; [exact Hc |].
  pose proof (preco_minimo c p produtos_c preco_base Hc Hget Hp Hpreco) as Hmin.
  pose proof (faturamento_na_banda preco_base quantidade noise
                ltac:(nia) Hn0 Hn1) as Hband.
  exists produtos_c, preco_base. cbn.
  split; [exact Hget |]. split; [exact Hpreco |].
  split; [exact Hband | nia].
Qed.

Lemma returns_gera_dia_bloco (d : Z) :
  returns (gera_dia d)
    (fun bloco =>
       bloco_do_dia d bloco
       /\ Forall (fun l => In (l_regiao l) regioes
                           /\ In (l_categoria l) categorias /\ na_banda l)
            bloco).
Proof.
  unfold gera_dia.
  eapply returns_bind; [apply returns_randint; lia |].
  intros k Hk. cbn beta in Hk.
  eapply returns_weaken; [apply returns_for_range, returns_gera_venda_dia |].
  intros xs [Hxs Hlen]. cbn beta in Hxs. unfold bloco_do_dia.
  split; [split; [lia |] |];
    (eapply Forall_impl; [exact Hxs |]; cbn beta; tauto).
Qed.

Lemma returns_for_each_blocos {S A B} (body : A -> ST S (list B))
  (P : A -> list B -> Prop) (ds : list A) :
  (forall d, In d ds -> returns (body d) (P d)) ->
  returns (for_each ds body)
    (fun xs => exists blocos, xs = concat blocos /\ Forall2 P ds blocos).
Proof.
  induction ds as [|d ds IH]; intros Hbody; cbn [for_each].
  - apply returns_ret. exists []. split; [reflexivity | constructor].
  - eapply returns_bind; [apply Hbody; left; reflexivity |].
    intros xs Hxs.
    eapply returns_bind; [apply IH; intros d' Hd'; apply Hbody; right; exact Hd' |].
    intros ys (blocos & -> & Hbl).
    apply returns_ret. exists (xs :: blocos).
    split; [reflexivity | constructor; assumption].
Qed.

Lemma blocos_length (ds : list Z) (blocos : list (list Linha)) :
  Forall2 bloco_do_dia ds blocos ->
  5 * length ds <= length (concat blocos) <= 14 * length ds.
Proof.
  induction 1 as [|d bloco ds blocos [Hlen _] _ IH]; cbn [concat length];
    [lia |].
  rewrite length_app. lia.
Qed.

(** X1: the rows of a generation pass are those of the days in calendar
    order, from the start date on, 5 to 14 rows to each day and each dated
    with its day; a pass over [dias] days thus has between [5 * dias] and
    [14 * dias] rows. *)
Theorem gera_rows_por_dia (semente start_date : Z) (dias : nat) (g : rng) :
  exists rows g' blocos,
    gera_rows semente start_date dias g = Some (rows, g')
    /\ rows = concat blocos
    /\ Forall2 bloco_do_dia (datas start_date dias) blocos
    /\ 5 * dias <= length rows <= 14 * dias.
Proof.
  rewrite gera_rows_reseeds.
  destruct (returns_for_each_blocos gera_dia
              (fun d bloco => bloco_do_dia d bloco
                 /\ Forall (fun l => In (l_regiao l) regioes
                              /\ In (l_categoria l) categorias /\ na_banda l)
                      bloco)
              (datas start_date dias)
              (fun d _ => returns_gera_dia_bloco d) (seed semente))
    as (rows & g' & Hrun & blocos & -> & Hbl).
  assert (Hbl' : Forall2 bloco_do_dia (datas start_date dias) blocos).
  { eapply Forall2_impl; [exact Hbl |]. cbn beta. tauto. }
  exists (concat blocos), g', blocos.
  split; [exact Hrun |]. split; [reflexivity |]. split; [exact Hbl' |].
  pose proof (blocos_length _ _ Hbl') as Hlen.
  unfold datas in Hlen. rewrite length_map, length_seq in Hlen. exact Hlen.
Qed.

(** X2: every generated row has one of the five regions and one of the four
    categories, and a positive revenue within 20% of quantity times the
    base price of its product: the floor at zero never applies. *)
Theorem gera_rows_dominios (semente start_date : Z) (dias : nat) (g : rng) :
  exists rows g',
    gera_rows semente start_date dias g = Some (rows, g')
    /\ Forall (fun l => In (l_regiao l) regioes
                        /\ In (l_categoria l) categorias /\ na_banda l) rows.
Proof.
  rewrite gera_rows_reseeds.
  destruct (returns_for_each gera_dia
              (fun l => In (l_regiao l) regioes
                        /\ In (l_categoria l) categorias /\ na_banda l)
              0 (datas start_date dias)
              (fun d _ => returns_weaken _ _ _ (returns_gera_dia_bloco d)
                            (fun xs H => conj (proj2 H) (Nat.le_0_l _)))
              (seed semente))
    as (rows & g' & Hrun & Hok & _).
  exists rows, g'. split; assumption.
Qed.

End GeneratorExtras.

(** ** The bulk insert *)

Lemma executemany_ultimo_id (rows : list Linha) (t : Tabela) :
  ultimo_id (executemany t rows) = (ultimo_id t + Z.of_nat (length rows))%Z.
Proof.
  unfold executemany. revert t.
  induction rows as [|l rows IH]; intros t; cbn [fold_left length]; [lia |].
  rewrite IH. cbn [insert ultimo_id]. lia.
Qed.

Lemma executemany_registros (rows : list Linha) (t : Tabela) :
  exists novos,
    registros (executemany t rows) = registros t ++ novos
    /\ List.map snd novos = rows
    /\ forall i l, nth_error rows i = Some l ->
         nth_error novos i = Some ((ultimo_id t + 1 + Z.of_nat i)%Z, l).
Proof.
  unfold executemany. revert t.
  induction rows as [|l rows IH]; intros t; cbn [fold_left].
  - exists []. rewrite app_nil_r. split; [reflexivity |].
    split; [reflexivity |]. intros [|i] l' H; discriminate.
  - destruct (IH (insert t l)) as (novos & Hreg & Hsnd & Hnth).
    exists (((ultimo_id t + 1)%Z, l) :: novos). cbn [insert registros] in Hreg.
    rewrite Hreg, <- app_assoc. split; [reflexivity |].
    split; [cbn; f_equal; exact Hsnd |].
    intros [|i] l' Hl'; cbn [nth_error] in Hl' |- *.
    + injection Hl' as <-. do 2 f_equal. lia.
    + rewrite (Hnth i l' Hl'). cbn [insert ultimo_id]. do 2 f_equal. lia.
Qed.

(** X3: the bulk insert appends: the rows the table had stay where they
    were, and the [i]-th new row follows them in the order of [rows], with
    the id [i + 1] above the last id used. *)
Theorem executemany_appends (t : Tabela) (rows : list Linha) :
  let t' := executemany t rows in
  firstn (length (registros t)) (registros t') = registros t
  /\ List.map snd (skipn (length (registros t)) (registros t')) = rows
  /\ (forall i l, nth_error rows i = Some l ->
        nth_error (registros t') (length (registros t) + i)
        = Some ((ultimo_id t + 1 + Z.of_nat i)%Z, l))
  /\ ultimo_id t' = (ultimo_id t + Z.of_nat (length rows))%Z.
Proof.
  intros t'. unfold t'.
  destruct (executemany_registros rows t) as (novos & Hreg & Hsnd & Hnth).
  rewrite Hreg.
  split; [rewrite firstn_app, Nat.sub_diag, firstn_all; cbn; apply app_nil_r |].
  split; [rewrite skipn_app, Nat.sub_diag, skipn_all; cbn; exact Hsnd |].
  split; [| apply executemany_ultimo_id].
  intros i l Hl. rewrite nth_error_app2 by lia.
  replace (length (registros t) + i - length (registros t)) with i by lia.
  apply Hnth, Hl.
Qed.

Lemma insert_ids_validos (t : Tabela) (l : Linha) :
  ids_validos t -> ids_validos (insert t l).
Proof.
  intros [Hnd Hle]. unfold ids_validos, insert. cbn [registros ultimo_id].
  split.
  - rewrite List.map_app. cbn [List.map fst].
    apply NoDup_app. split; [exact Hnd |]. split; [| apply NoDup_singleton].
    intros x Hx Hx'. apply list_elem_of_In in Hx.
    apply list_elem_of_singleton in Hx'. subst x.
    apply in_map_iff in Hx. destruct Hx as (p & Hp & Hin).
    pose proof (proj1 (List.Forall_forall _ _) Hle p Hin) as Hb.
    cbn beta in Hb. lia.
  - apply Forall_app. split.
    + eapply Forall_impl; [exact Hle |]. cbn beta. intros p Hp. lia.
    + constructor; [cbn; lia | constructor].
Qed.

(** X4: the ids stay distinct: a table whose ids are distinct and not above
    its counter is still such a table after a bulk insert. *)
Theorem executemany_ids_validos (t : Tabela) (rows : list Linha) :
  ids_validos t -> ids_validos (executemany t rows).
Proof.
  unfold executemany. revert t.
  induction rows as [|l rows IH]; intros t Ht; cbn [fold_left]; [exact Ht |].
  apply IH, insert_ids_validos, Ht.
Qed.

(** ** The selection widgets and the filter *)

Lemma str_compare_eq (a b : Py.str) : str_compare a b = Eq -> a = b.
Proof.
  revert b. induction a as [|x a IH]; intros [|y b]; cbn [str_compare];
    try discriminate; [reflexivity |].
  destruct (N.compare_spec x y) as [-> | _ | _]; try discriminate.
  intros H. f_equal. apply IH, H.
Qed.

Lemma str_compare_antisym (a b : Py.str) :
  str_compare b a = CompOpp (str_compare a b).
Proof.
  revert b. induction a as [|x a IH]; intros [|y b]; cbn [str_compare];
    try reflexivity.
  rewrite (N.compare_antisym x y).
  destruct (x ?= y)%N; cbn [CompOpp]; [apply IH | reflexivity | reflexivity].
Qed.

Lemma str_compare_trans (a b c : Py.str) :
  str_compare a b = Lt -> str_compare b c = Lt -> str_compare a c = Lt.
Proof.
  revert b c. induction a as [|x a IH]; intros [|y b] [|z c];
    cbn [str_compare]; try discriminate; try reflexivity.
  destruct (N.compare_spec x y) as [-> | Hxy | Hxy]; try discriminate.
  - destruct (y ?= z)%N; try discriminate; [apply IH | reflexivity].
  - intros _. destruct (N.compare_spec y z) as [-> | Hyz | Hyz];
      try discriminate; intros _.
    + apply N.compare_lt_iff in Hxy. rewrite Hxy. reflexivity.
    + assert (Hxz : (x < z)%N) by lia.
      apply N.compare_lt_iff in Hxz. rewrite Hxz. reflexivity.
Qed.

Lemma insere_ordenado_perm (x : Py.str) (l : list Py.str) :
  Permutation (insere_ordenado x l) (x :: l).
Proof.
  induction l as [|y l IH]; cbn [insere_ordenado]; [reflexivity |].
  destruct (str_ltb y x); [| reflexivity].
  rewrite IH. apply perm_swap.
Qed.

Lemma sorted_perm (xs : list Py.str) : Permutation (sorted xs) xs.
Proof.
  unfold sorted. induction xs as [|x xs IH]; cbn [fold_right]; [reflexivity |].
  rewrite insere_ordenado_perm, IH. reflexivity.
Qed.

Lemma insere_ordenado_sorted (x : Py.str) (l : list Py.str) :
  ~ In x l ->
  StronglySorted (fun a b => str_compare a b = Lt) l ->
  StronglySorted (fun a b => str_compare a b = Lt) (insere_ordenado x l).
Proof.
  intros Hx Hs. induction Hs as [|y l Hs IH Hy]; cbn [insere_ordenado].
  - constructor; constructor.
  - unfold str_ltb. destruct (str_compare y x) eqn:E.
    + apply str_compare_eq in E. subst y. exfalso. apply Hx. left. reflexivity.
    + constructor; [apply IH; intros Hin; apply Hx; right; exact Hin |].
      eapply Permutation_Forall; [symmetry; apply insere_ordenado_perm |].
      constructor; [exact E | exact Hy].
    + assert (Hlt : str_compare x y = Lt)
        by (rewrite str_compare_antisym, E; reflexivity).
      constructor; [constructor; assumption |].
      constructor; [exact Hlt |].
      eapply Forall_impl; [exact Hy |]. intros z Hz.
      eapply str_compare_trans; eassumption.
Qed.

Lemma unique_from_spec (s seen : list Py.str) :
  NoDup (unique_from seen s)
  /\ forall x, In x (unique_from seen s) <-> In x s /\ ~ In x seen.
Proof.
  revert seen. induction s as [|y s IH]; intros seen; cbn [unique_from].
  - split; [constructor | intros x; cbn; tauto].
  - destruct (Py.contains seen y) eqn:E.
    + apply contains_elem_of, list_elem_of_In in E.
      destruct (IH seen) as [Hnd Hin]. split; [exact Hnd |].
      intros x. rewrite Hin. cbn [In]. split; [tauto |].
      intros [[<- | Hx] Hns]; [contradiction | tauto].
    + assert (Hy : ~ In y seen).
      { intros Hy. apply list_elem_of_In, contains_elem_of in Hy. congruence. }
      destruct (IH (y :: seen)) as [Hnd Hin]. split.
      * apply NoDup_cons. split; [| exact Hnd].
        rewrite list_elem_of_In, Hin. cbn [In]. tauto.
      * intros x. cbn [In]. rewrite Hin. cbn [In]. split.
        -- intros [<- | [Hx Hns]]; [tauto |]. split; [tauto |]. tauto.
        -- intros [[<- | Hx] Hns]; [tauto |].
           destruct (decide (y = x)) as [-> | Hne]; [tauto |]. right. tauto.
Qed.

Lemma opcoes_elem_of (col : list Py.str) (x : Py.str) :
  In x col -> x ∈ opcoes col.
Proof.
  intros Hx. unfold opcoes, unique.
  rewrite (sorted_perm (unique_from [] col)).
  apply list_elem_of_In, (proj2 (unique_from_spec col [])). cbn [In]. tauto.
Qed.

(** X5: the options of a multiselect are the values of the column: each
    value present is an option, once, and the options are in strictly
    ascending order. *)
Theorem opcoes_distintas_ordenadas (col : list Py.str) :
  StronglySorted (fun a b => str_compare a b = Lt) (opcoes col)
  /\ NoDup (opcoes col)
  /\ forall x, x ∈ opcoes col <-> x ∈ col.
Proof.
  unfold opcoes, unique.
  destruct (unique_from_spec col []) as [Hnd Hin].
  assert (Hmem : forall x, x ∈ sorted (unique_from [] col) <-> x ∈ col).
  { intros x. rewrite (sorted_perm (unique_from [] col)).
    rewrite !list_elem_of_In, Hin. cbn [In]. tauto. }
  split; [| split; [rewrite sorted_perm; exact Hnd | exact Hmem]].
  clear Hin Hmem. unfold sorted.
  induction Hnd as [|x l Hx Hnd IH]; cbn [fold_right]; [constructor |].
  apply insere_ordenado_sorted; [| exact IH].
  intros Hin. apply Hx. apply list_elem_of_In.
  eapply Permutation_in; [apply sorted_perm | exact Hin].
Qed.

Lemma filter_all {A} (f : A -> bool) (l : list A) :
  (forall x, In x l -> f x = true) -> List.filter f l = l.
Proof.
  induction l as [|x l IH]; intros Hf; cbn [List.filter]; [reflexivity |].
  rewrite (Hf x (or_introl eq_refl)). f_equal.
  apply IH. intros y Hy. apply Hf. right. exact Hy.
Qed.

Lemma filter_none {A} (f : A -> bool) (l : list A) :
  (forall x, In x l -> f x = false) -> List.filter f l = [].
Proof.
  induction l as [|x l IH]; intros Hf; cbn [List.filter]; [reflexivity |].
  rewrite (Hf x (or_introl eq_refl)).
  apply IH. intros y Hy. apply Hf. right. exact Hy.
Qed.

(** X6: with the widgets left at their defaults, the whole period and every
    option selected, the filter keeps every row of a frame that has rows. *)
Theorem filtra_selecao_padrao (rows : list Venda) :
  rows <> [] ->
  exists min_date max_date,
    series_min (List.map date rows) = Some min_date
    /\ series_max (List.map date rows) = Some max_date
    /\ filtra (mkSidebar [min_date; max_date]
                 (opcoes (List.map regiao rows))
                 (opcoes (List.map categoria rows))
                 (opcoes (List.map produto rows))) rows
       = rows.
Proof.
  intros Hne.
  destruct (series_min (List.map date rows)) as [min_date|] eqn:Hmin;
    [| destruct rows; [congruence | discriminate]].
  destruct (series_max (List.map date rows)) as [max_date|] eqn:Hmax;
    [| destruct rows; [congruence | discriminate]].
  exists min_date, max_date. split; [reflexivity |]. split; [reflexivity |].
  rewrite filtra_filter. apply filter_all. intros r Hr.
  unfold periodo. cbn [date_range fst snd selected_regioes selected_categorias
                       selected_produtos].
  destruct (series_min_max_bound (List.map date rows) (date r)
              (in_map date rows r Hr)) as [Hge Hle].
  rewrite Hmin in Hge. rewrite Hmax in Hle. rewrite Hge, Hle. cbn [andb].
  rewrite !andb_true_iff, !contains_elem_of.
  repeat split; apply opcoes_elem_of, in_map, Hr.
Qed.

(** X7: no row is kept when a selection is empty, or when the period ends
    before it starts. *)
Theorem filtra_vazio (ui : Sidebar) (rows : list Venda) :
  selected_regioes ui = [] \/ selected_categorias ui = []
  \/ selected_produtos ui = []
  \/ (exists start_date end_date,
         date_range ui = [start_date; end_date] /\ (end_date < start_date)%Z) ->
  filtra ui rows = [].
Proof.
  intros Hcase. rewrite filtra_filter. apply filter_none. intros r _.
  destruct Hcase as [H | [H | [H | (s & e & H & Hlt)]]].
  - rewrite H. cbn [Py.contains existsb]. rewrite !andb_false_r. reflexivity.
  - rewrite H. cbn [Py.contains existsb]. rewrite !andb_false_r. reflexivity.
  - rewrite H. cbn [Py.contains existsb]. rewrite !andb_false_r. reflexivity.
  - unfold periodo. rewrite H. cbn [fst snd date_ge date_le].
    destruct (Z.leb_spec s (date r)), (Z.leb_spec (date r) e);
      try reflexivity. lia.
Qed.

(** X8: filtering again with the same widget values changes nothing. *)
Theorem filtra_idempotente (ui : Sidebar) (rows : list Venda) :
  filtra ui (filtra ui rows) = filtra ui rows.
Proof.
  rewrite (filtra_filter ui (filtra ui rows)). apply filter_all.
  intros r Hr. pose proof Hr as Hr0.
  rewrite filtra_filter in Hr0. apply filter_In in Hr0.
  destruct Hr0 as [_ Hpass].
  rewrite !andb_true_iff in Hpass |- *.
  destruct Hpass as [[[[Hge Hle] H1] H2] H3].
  repeat split; try assumption.
  - destruct (Nat.eq_dec (length (date_range ui)) 2) as [Hlen | Hlen].
    + unfold periodo in Hge |- *.
      destruct (date_range ui) as [|a [|b [|c l]]]; try discriminate. exact Hge.
    + rewrite (periodo_fallback ui _ Hlen). cbn [fst].
      apply series_min_max_bound, in_map, Hr.
  - destruct (Nat.eq_dec (length (date_range ui)) 2) as [Hlen | Hlen].
    + unfold periodo in Hle |- *.
      destruct (date_range ui) as [|a [|b [|c l]]]; try discriminate. exact Hle.
    + rewrite (periodo_fallback ui _ Hlen). cbn [snd].
      apply series_min_max_bound, in_map, Hr.
Qed.

(** ** The weekday block and the store *)

Lemma str_eqb_ne (a b : Py.str) : a <> b -> Py.str_eqb a b = false.
Proof. intros H. apply bool_decide_eq_false_2, H. Qed.

Lemma dict_get_set_col_ne (cols : list (Py.str * list valor))
  (name other : Py.str) (col : list valor) :
  other <> name ->
  dict_get (set_col cols name col) other = dict_get cols other.
Proof.
  intros Hne. induction cols as [|[n c] cols IH]; cbn [set_col dict_get].
  - rewrite (str_eqb_ne _ _ Hne). reflexivity.
  - destruct (Py.str_eqb name n) eqn:E; cbn [dict_get].
    + apply bool_decide_eq_true_1 in E. subst n.
      rewrite (str_eqb_ne _ _ Hne). reflexivity.
    + destruct (Py.str_eqb other n); [reflexivity | exact IH].
Qed.

Lemma set_col_same (cols : list (Py.str * list valor)) (name : Py.str)
  (col : list valor) :
  dict_get cols name = Some col -> set_col cols name col = cols.
Proof.
  induction cols as [|[n c] cols IH]; cbn [set_col dict_get]; [discriminate |].
  destruct (Py.str_eqb name n).
  - intros [= ->]. reflexivity.
  - intros H. f_equal. apply IH, H.
Qed.

Lemma wd_rev_store (h : gmap positive DataFrame) (df : positive)
  (F : DataFrame) :
  h !! df = Some F ->
  wd_rev df h
  = Some (List.map (fun p => (snd p, media_do_dia (linhas F) (fst p)))
            dias_pt_map,
          <[df := com_dia_semana F]> h).
Proof.
  intros Hdf. unfold wd_rev, bind, deref, setitem, getitem_col, ret.
  rewrite Hdf. cbv beta iota. rewrite Hdf. cbv beta iota.
  unfold bind, deref, ret.
  rewrite lookup_insert_eq. cbv beta iota. cbn [extras linhas].
  rewrite dict_get_set_col_eq. cbn [lift_option]. unfold ret.
  rewrite lookup_insert_eq. cbv beta iota. cbn [extras linhas].
  rewrite lookup_insert_eq. cbv beta iota. cbn [extras linhas].
  rewrite dict_get_set_col_eq. cbn [lift_option]. unfold ret.
  rewrite lookup_insert_eq. cbv beta iota. cbn [extras linhas].
  rewrite series_map_weekday, reindex_groupby, insert_insert_eq.
  reflexivity.
Qed.

Lemma int_dict_get_In (d : list (Z * Py.str)) (k : Z) (v : Py.str) :
  int_dict_get d k = Some v -> In (k, v) d.
Proof.
  induction d as [|[k' v'] d IH]; cbn [int_dict_get]; [discriminate |].
  destruct (Z.eqb_spec k k') as [-> | _].
  - intros [= ->]. left. reflexivity.
  - intros H. right. apply IH, H.
Qed.

Lemma chave_nome (r : Venda) :
  exists nome, chave r = VStr nome
               /\ In (Py.weekday (date r), nome) dias_pt_map.
Proof.
  unfold chave. pose proof (weekday_range (date r)) as Hw.
  destruct (int_dict_get dias_pt_map (Py.weekday (date r))) as [nome|] eqn:E.
  - exists nome. split; [reflexivity | apply int_dict_get_In, E].
  - exfalso. revert E. generalize dependent (Py.weekday (date r)). intros w Hw.
    assert (Hcases : (w = 0 \/ w = 1 \/ w = 2 \/ w = 3 \/ w = 4 \/ w = 5 \/ w = 6)%Z)
      by lia.
    repeat (destruct Hcases as [-> | Hcases]; [vm_compute; discriminate |]).
    subst w. vm_compute. discriminate.
Qed.

(** X9: the weekday block changes the frame it is given, and nothing else:
    the frame keeps its rows and its other columns and gets the columns
    [weekday_num] and [dia_semana], with one entry per row, the weekday
    number of the row, from 0 to 6, and its name, never missing; every
    other frame of the store is left as it was. *)
Theorem wd_rev_colunas (h : gmap positive DataFrame) (df : positive)
  (F : DataFrame) :
  h !! df = Some F ->
  exists chart h' F',
    wd_rev df h = Some (chart, h')
    /\ h' !! df = Some F'
    /\ linhas F' = linhas F
    /\ dict_get (extras F') u"weekday_num"
       = Some (List.map (fun r => VInt (Py.weekday (date r))) (linhas F))
    /\ dict_get (extras F') u"dia_semana" = Some (List.map chave (linhas F))
    /\ (forall r, In r (linhas F) ->
          (0 <= Py.weekday (date r) < 7)%Z
          /\ exists nome, chave r = VStr nome
                          /\ In (Py.weekday (date r), nome) dias_pt_map)
    /\ (forall name, name <> u"weekday_num" -> name <> u"dia_semana" ->
          dict_get (extras F') name = dict_get (extras F) name)
    /\ (forall l, l <> df -> h' !! l = h !! l).
Proof.
  intros Hdf. eexists _, _, (com_dia_semana F).
  split; [apply wd_rev_store, Hdf |].
  split; [apply lookup_insert_eq |]. split; [reflexivity |].
  unfold com_dia_semana. cbn [extras].
  split; [rewrite dict_get_set_col_ne by (vm_compute; discriminate);
          apply dict_get_set_col_eq |].
  split; [apply dict_get_set_col_eq |].
  split; [intros r _; split; [apply weekday_range | apply chave_nome] |].
  split.
  - intros name H1 H2. rewrite !dict_get_set_col_ne by assumption. reflexivity.
  - intros l Hl. apply lookup_insert_ne. congruence.
Qed.

(** X10: running the weekday block again on the same frame gives the same
    chart and changes nothing: the two columns are replaced, not added
    once more. *)
Theorem wd_rev_de_novo (h h' : gmap positive DataFrame) (df : positive)
  (chart : list (Py.str * option Q)) :
  wd_rev df h = Some (chart, h') -> wd_rev df h' = Some (chart, h').
Proof.
  intros Hrun. destruct (h !! df) as [F|] eqn:Hdf.
  - rewrite (wd_rev_store h df F Hdf) in Hrun. injection Hrun as <- <-.
    rewrite (wd_rev_store _ df (com_dia_semana F) (lookup_insert_eq _ _ _)).
    rewrite insert_insert_eq. do 3 f_equal.
    unfold com_dia_semana at 1. cbn [linhas extras com_dia_semana].
    unfold com_dia_semana. f_equal.
    rewrite (set_col_same _ u"weekday_num").
    + apply set_col_same, dict_get_set_col_eq.
    + rewrite dict_get_set_col_ne by (vm_compute; discriminate).
      apply dict_get_set_col_eq.
  - unfold wd_rev, bind, deref in Hrun. rewrite Hdf in Hrun. discriminate.
Qed.

(** X11: the filter followed by the weekday block, as the page runs them:
    both return, the chart is that of the filtered rows, and the frame the
    filter was given is in the end what it was, although the block has
    changed the frame the filter returned. *)
Theorem filtro_e_dia_semana (ui : Sidebar) (h : gmap positive DataFrame)
  (df : positive) (F : DataFrame) :
  h !! df = Some F ->
  exists out h1 chart h2,
    dsa_filtros_sidebar ui df h = Some (out, h1)
    /\ wd_rev out h1 = Some (chart, h2)
    /\ chart = List.map
                 (fun p => (snd p, media_do_dia (filtra ui (linhas F)) (fst p)))
                 dias_pt_map
    /\ h2 !! df = Some F
    /\ (forall l F0, h !! l = Some F0 -> h2 !! l = Some F0)
    /\ (exists G', h2 !! out = Some G'
                   /\ linhas G' = filtra ui (linhas F)
                   /\ dict_get (extras G') u"dia_semana"
                      = Some (List.map chave (filtra ui (linhas F)))).
Proof.
  intros Hdf.
  destruct (dsa_filtros_sidebar_store ui h df F Hdf)
    as (fatia & out & Hrun & Hf1 & Hf2 & Hne).
  set (G := mkDataFrame (filtra ui (linhas F)) _) in Hrun.
  set (h1 := <[out := G]> (<[fatia := G]> h)) in *.
  assert (Hout : h1 !! out = Some G) by apply lookup_insert_eq.
  exists out, h1. eexists _, _.
  split; [exact Hrun |]. split; [apply (wd_rev_store h1 out G Hout) |].
  split; [reflexivity |].
  assert (Hkeep : forall l F0, h !! l = Some F0 ->
            (<[out := com_dia_semana G]> h1) !! l = Some F0).
  { intros l F0 Hl. unfold h1.
    rewrite !lookup_insert_ne by (intros ->; congruence). exact Hl. }
  split; [apply Hkeep, Hdf |]. split; [exact Hkeep |].
  exists (com_dia_semana G). split; [apply lookup_insert_eq |].
  split; [reflexivity |]. apply dict_get_set_col_eq.
Qed.

(** ** The sums of the other charts *)

Section GroupBySumFacts.
Context {K : Type} (compare : K -> K -> comparison).
Hypothesis compare_eq : forall a b, compare a b = Eq -> a = b.
Hypothesis compare_refl : forall a, compare a a = Eq.
Hypothesis compare_antisym : forall a b, compare b a = CompOpp (compare a b).
Hypothesis compare_trans :
  forall a b c, compare a b = Lt -> compare b c = Lt -> compare a c = Lt.

#[local] Abbreviation ordenado :=
  (StronglySorted (fun a b : K * Z => compare (fst a) (fst b) = Lt)).

Lemma soma_no_grupo_keys (k : K) (v : Z) (g : list (K * Z)) (p : K * Z) :
  In p (soma_no_grupo compare k v g) -> fst p = k \/ In (fst p) (List.map fst g).
Proof.
  induction g as [|[k' s] g IH]; cbn [soma_no_grupo].
  - intros [<- | []]. left. reflexivity.
  - destruct (compare k k'); cbn [In List.map fst].
    + intros [<- | Hin]; [right; left; reflexivity |].
      right. right. apply in_map, Hin.
    + intros [<- | [<- | Hin]]; [tauto | tauto |].
      right. right. apply in_map, Hin.
    + intros [<- | Hin]; [tauto |]. destruct (IH Hin); tauto.
Qed.

Lemma soma_no_grupo_ordenado (k : K) (v : Z) (g : list (K * Z)) :
  ordenado g -> ordenado (soma_no_grupo compare k v g).
Proof using compare_eq compare_antisym compare_trans.
  induction 1 as [|[k' s] g Hs IH Hk]; cbn [soma_no_grupo].
  - constructor; constructor.
  - destruct (compare k k') eqn:E.
    + constructor; assumption.
    + constructor; [constructor; assumption |].
      constructor; [exact E |].
      eapply Forall_impl; [exact Hk |]. cbn [fst]. intros p Hp.
      eapply compare_trans; eassumption.
    + constructor; [exact IH |].
      apply List.Forall_forall. intros p Hp. cbn [fst].
      destruct (soma_no_grupo_keys _ _ _ _ Hp) as [-> | Hin].
      * rewrite compare_antisym, E. reflexivity.
      * apply in_map_iff in Hin. destruct Hin as (p' & Hfst & Hin).
        rewrite <- Hfst. exact (proj1 (List.Forall_forall _ _) Hk p' Hin).
Qed.

Lemma busca_menor (k : K) (g : list (K * Z)) :
  Forall (fun p => compare k (fst p) = Lt) g -> busca compare k g = None.
Proof.
  induction 1 as [|[k' s] g Hk _ IH]; cbn [busca]; [reflexivity |].
  cbn [fst] in Hk. rewrite Hk. exact IH.
Qed.

Lemma busca_soma_no_grupo (k k0 : K) (v : Z) (g : list (K * Z)) :
  ordenado g ->
  busca compare k0 (soma_no_grupo compare k v g)
  = match compare k0 k with
    | Eq => Some (match busca compare k0 g with Some s => s + v | None => v end)%Z
    | _ => busca compare k0 g
    end.
Proof using compare_eq compare_refl compare_antisym compare_trans.
  induction 1 as [|[k' s] g Hs IH Hk]; cbn [soma_no_grupo busca].
  - destruct (compare k0 k); reflexivity.
  - destruct (compare k k') eqn:E; cbn [busca].
    + apply compare_eq in E. subst k'.
      destruct (compare k0 k); reflexivity.
    + destruct (compare k0 k) eqn:E0; try reflexivity.
      apply compare_eq in E0. subst k0. rewrite E.
      rewrite busca_menor; [reflexivity |].
      eapply Forall_impl; [exact Hk |]. cbn [fst]. intros p Hp.
      eapply compare_trans; eassumption.
    + rewrite IH. destruct (compare k0 k') eqn:E1; try reflexivity.
      apply compare_eq in E1. subst k0.
      rewrite compare_antisym, E. reflexivity.
Qed.

Lemma groupby_fold_ordenado (kvs g : list (K * Z)) :
  ordenado g ->
  ordenado (fold_left (fun g kv => soma_no_grupo compare (fst kv) (snd kv) g)
              kvs g).
Proof using compare_eq compare_antisym compare_trans.
  revert g. induction kvs as [|[k v] kvs IH]; intros g Hg; cbn [fold_left];
    [exact Hg |].
  apply IH, soma_no_grupo_ordenado, Hg.
Qed.

Lemma groupby_fold_busca (key : Venda -> K) (rows : list Venda)
  (g : list (K * Z)) (k : K) :
  ordenado g ->
  busca compare k
    (fold_left (fun g kv => soma_no_grupo compare (fst kv) (snd kv) g)
       (List.map (fun r => (key r, faturamento r)) rows) g)
  = match List.filter (fun r => match compare k (key r) with
                                | Eq => true
                                | _ => false
                                end) rows, busca compare k g with
    | [], o => o
    | grupo, Some s => Some (s + soma (List.map faturamento grupo))%Z
    | grupo, None => Some (soma (List.map faturamento grupo))
    end.
Proof using compare_eq compare_refl compare_antisym compare_trans.
  revert g. induction rows as [|r rows IH]; intros g Hg;
    cbn [List.map fold_left List.filter fst snd].
  - destruct (busca compare k g); reflexivity.
  - rewrite IH by (apply soma_no_grupo_ordenado, Hg).
    rewrite busca_soma_no_grupo by exact Hg.
    destruct (compare k (key r)); try reflexivity.
    assert (Hnil : soma [] = 0%Z) by reflexivity.
    destruct (List.filter _ rows) as [|r' grupo];
      destruct (busca compare k g) as [s|];
      cbn [List.map]; rewrite ?soma_cons, ?Hnil; f_equal; lia.
Qed.

Lemma combine_map {A} (f : A -> K) (h : A -> Z) (rows : list A) :
  combine (List.map f rows) (List.map h rows)
  = List.map (fun r => (f r, h r)) rows.
Proof. induction rows as [|r rows IH]; cbn; [reflexivity | f_equal; exact IH]. Qed.

Lemma busca_In (g : list (K * Z)) (k : K) (s : Z) :
  ordenado g -> (In (k, s) g <-> busca compare k g = Some s).
Proof using compare_eq compare_refl compare_antisym.
  induction 1 as [|[k' s'] g Hs IH Hk]; cbn [In busca]; [split; [tauto | discriminate] |].
  split.
  - intros [[= -> ->] | Hin]; [rewrite compare_refl; reflexivity |].
    pose proof (proj1 (List.Forall_forall _ _) Hk _ Hin) as Hlt.
    cbn [fst] in Hlt. rewrite compare_antisym, Hlt. cbn [CompOpp].
    apply IH, Hin.
  - destruct (compare k k') eqn:E.
    + apply compare_eq in E. subst k'. intros [= ->]. left. reflexivity.
    + intros H. right. apply IH, H.
    + intros H. right. apply IH, H.
Qed.

(** What a grouped sum shows: its rows are in strictly ascending order
    of key, and a key has a row exactly when the frame has rows of that
    key, with the sum of their revenues, added in the order of the
    frame. *)
Lemma groupby_sum_spec (key : Venda -> K) (rows : list Venda) :
  let out := groupby_sum compare (List.map key rows)
               (List.map faturamento rows) in
  ordenado out
  /\ (forall k s, In (k, s) out <-> soma_da_chave compare key rows k = Some s).
Proof using compare_eq compare_refl compare_antisym compare_trans.
  intros out.
  assert (Hs : ordenado out).
  { unfold out, groupby_sum. rewrite combine_map.
    apply groupby_fold_ordenado. constructor. }
  split; [exact Hs |].
  intros k s. rewrite (busca_In out k s Hs).
  unfold out, groupby_sum. rewrite combine_map.
  rewrite groupby_fold_busca by constructor.
  unfold soma_da_chave. cbn [busca].
  destruct (List.filter _ rows); reflexivity.
Qed.

End GroupBySumFacts.

Lemma StronglySorted_impl {A} (R R' : A -> A -> Prop) (l : list A) :
  (forall a b, R a b -> R' a b) -> StronglySorted R l -> StronglySorted R' l.
Proof.
  intros HR. induction 1 as [|a l _ IH Ha]; constructor; [exact IH |].
  eapply Forall_impl; [exact Ha |]. intros b. apply HR.
Qed.

Lemma Z_compare_trans (a b c : Z) :
  (a ?= b)%Z = Lt -> (b ?= c)%Z = Lt -> (a ?= c)%Z = Lt.
Proof. rewrite !Z.compare_lt_iff. lia. Qed.

Lemma str_compare_refl (a : Py.str) : str_compare a a = Eq.
Proof.
  induction a as [|x a IH]; cbn [str_compare]; [reflexivity |].
  rewrite N.compare_refl. exact IH.
Qed.

(** X12: the line chart: one point per date of the frame, in ascending order
    of date, with the sum of the revenues of that date, added in the order
    of the frame. *)
Theorem daily_rev_por_data (rows : list Venda) :
  StronglySorted (fun a b => (fst a < fst b)%Z) (daily_rev rows)
  /\ (forall d s, In (d, s) (daily_rev rows)
                  <-> soma_da_chave Z.compare date rows d = Some s).
Proof.
  destruct (groupby_sum_spec Z.compare Z.compare_eq Z.compare_refl
              Z.compare_antisym Z_compare_trans date rows)
    as (Hs & Hb).
  split; [| assumption].
  eapply StronglySorted_impl; [| exact Hs].
  intros p q. apply Z.compare_lt_iff.
Qed.

(** X13: the pie chart and the bar chart: one row per category (per region)
    of the frame, in ascending order, with the sum of its revenues, added
    in the order of the frame. *)
Theorem cat_rev_regiao_rev (rows : list Venda) :
  (StronglySorted (fun a b => str_compare (fst a) (fst b) = Lt) (cat_rev rows)
   /\ (forall c s, In (c, s) (cat_rev rows)
                   <-> soma_da_chave str_compare categoria rows c = Some s))
  /\ (StronglySorted (fun a b => str_compare (fst a) (fst b) = Lt)
        (regiao_rev rows)
      /\ (forall c s, In (c, s) (regiao_rev rows)
                      <-> soma_da_chave str_compare regiao rows c = Some s)).
Proof.
  split;
    apply (groupby_sum_spec str_compare str_compare_eq str_compare_refl
             str_compare_antisym str_compare_trans).
Qed.

(** ** The table of the report when revenues are distinct *)

Lemma NoDup_map_inj {A B} (f : A -> B) (l : list A) (x y : A) :
  NoDup (List.map f l) -> In x l -> In y l -> f x = f y -> x = y.
Proof.
  induction l as [|a l IH]; cbn [List.map In]; [tauto |].
  intros Hnd Hx Hy Hf. apply NoDup_cons in Hnd. destruct Hnd as [Ha Hnd].
  destruct Hx as [-> | Hx], Hy as [-> | Hy]; try reflexivity.
  - exfalso. apply Ha. rewrite Hf. apply list_elem_of_In, in_map, Hy.
  - exfalso. apply Ha. rewrite <- Hf. apply list_elem_of_In, in_map, Hx.
  - apply IH; assumption.
Qed.

(** Two descending orderings of the same rows are the same list when no
    two rows have the same key. *)
Lemma sorted_perm_unique (by_ : Venda -> Z) (l1 l2 : list Venda) :
  NoDup (List.map by_ l1) ->
  StronglySorted (fun a b => (by_ b <= by_ a)%Z) l1 ->
  StronglySorted (fun a b => (by_ b <= by_ a)%Z) l2 ->
  Permutation l1 l2 -> l1 = l2.
Proof.
  revert l2. induction l1 as [|x l1 IH]; intros l2 Hnd Hs1 Hs2 Hperm.
  - apply Permutation_nil in Hperm. congruence.
  - destruct l2 as [|y l2];
      [apply Permutation_sym, Permutation_nil in Hperm; discriminate |].
    inversion Hs1 as [|? ? Hs1' Hx]; subst.
    inversion Hs2 as [|? ? Hs2' Hy]; subst.
    assert (Hxy : x = y).
    { assert (Hyin : In y (x :: l1))
        by (eapply Permutation_in; [symmetry; exact Hperm | left; reflexivity]).
      assert (Hxin : In x (y :: l2))
        by (eapply Permutation_in; [exact Hperm | left; reflexivity]).
      apply (NoDup_map_inj by_ (x :: l1)); [exact Hnd | left; reflexivity | exact Hyin |].
      destruct Hyin as [-> | Hyin]; [reflexivity |].
      destruct Hxin as [-> | Hxin]; [reflexivity |].
      pose proof (proj1 (List.Forall_forall _ _) Hx y Hyin) as H1.
      pose proof (proj1 (List.Forall_forall _ _) Hy x Hxin) as H2.
      cbn beta in H1, H2. lia. }
    subst y. f_equal. apply IH; try assumption.
    + cbn [List.map] in Hnd. apply NoDup_cons in Hnd. tauto.
    + eapply Permutation_cons_inv, Hperm.
Qed.

(** X14: when no two rows of the frame have the same revenue, the table of
    the report is determined: whatever the sort and whatever the order of
    the rows in the frame, [df_top] is the same list. *)
Theorem df_top_determinado (P1 P2 : PandasSort) (df df' : list Venda) :
  NoDup (List.map faturamento df) ->
  Permutation df df' ->
  @df_top P1 df = @df_top P2 df'.
Proof.
  intros Hnd Hperm. unfold df_top. f_equal.
  apply (sorted_perm_unique faturamento).
  - rewrite (Permutation_map faturamento (sort_values_perm faturamento false df)).
    exact Hnd.
  - exact (sort_values_sorted faturamento false df).
  - exact (sort_values_sorted faturamento false df').
  - rewrite !sort_values_perm. exact Hperm.
Qed.

(** ** The cells of a row *)

Lemma safe_txt_firstn (n : nat) (d : Py.str) :
  safe_txt (firstn n d) = firstn n (safe_txt d).
Proof. rewrite !safe_txt_map. symmetry. apply firstn_map. Qed.

(** X15: the fourth cell of a row of the table holds the product name cut
    to its first 20 characters and transcoded, which is also the first 20
    characters of the transcoded name; transcoding what was transcoded
    changes nothing. *)
Theorem celula_produto (row : Venda) :
  nth_error (celulas_de row) 3
  = Some (Cell 40 7 (firstn 20 (safe_txt (produto row))) 1 u"L" false)
  /\ length (firstn 20 (safe_txt (produto row))) <= 20
  /\ (length (produto row) <= 20 ->
      firstn 20 (safe_txt (produto row)) = safe_txt (produto row))
  /\ safe_txt (safe_txt (produto row)) = safe_txt (produto row).
Proof.
  split; [| split; [| split]].
  - unfold celulas_de, enumerate, data. cbn [length seq combine List.map
      nth_error app nth col_widths Nat.eqb].
    unfold Py.slice_to. rewrite safe_txt_firstn. reflexivity.
  - apply firstn_le_length.
  - intros Hlen. apply firstn_all2. rewrite safe_txt_map, length_map. exact Hlen.
  - apply safe_txt_id, latin1_safe_txt.
Qed.

(** ** The KPIs of a frame of sales *)

Section KpiExtras.
Context {R : NumpyRandom}.

Lemma soma_lower (xs : list Z) (b : Z) :
  Forall (fun x => (b <= x)%Z) xs -> (b * Z.of_nat (length xs) <= soma xs)%Z.
Proof.
  induction 1 as [|x xs Hx _ IH]; [unfold soma; cbn; lia |].
  rewrite soma_cons. cbn [length]. lia.
Qed.

(** X17: for a frame that has rows, each sold in a quantity of one or more
    and for a revenue that is not negative, the total quantity is at least
    the number of rows, so the average ticket is the quotient, not the
    fallback, and it is not negative. *)
Theorem kpis_frame_de_vendas (df : list Venda) (g : rng) :
  df <> [] ->
  Forall (fun r => (1 <= quantidade r)%Z /\ (0 <= faturamento r)%Z) df ->
  exists total_faturamento total_qty avg_ticket g',
    dsa_renderiza_cards_kpis df g
    = Some ((total_faturamento, total_qty, avg_ticket), g')
    /\ (Z.of_nat (length df) <= total_qty)%Z
    /\ (0 <= total_faturamento)%Z
    /\ avg_ticket = (reais total_faturamento / inject_Z total_qty)%Q
    /\ (0 <= avg_ticket)%Q.
Proof.
  intros Hne Hrows. unfold dsa_renderiza_cards_kpis.
  set (tf := soma (List.map faturamento df)).
  set (tq := soma (List.map quantidade df)).
  assert (Htq : (Z.of_nat (length df) <= tq)%Z).
  { pose proof (soma_lower (List.map quantidade df) 1) as H.
    rewrite length_map in H. unfold tq.
    etransitivity; [| apply H]; [lia |].
    apply Forall_map. eapply Forall_impl; [exact Hrows |]. cbn beta. tauto. }
  assert (Htf : (0 <= tf)%Z).
  { pose proof (soma_lower (List.map faturamento df) 0) as H. unfold tf.
    etransitivity; [| apply H]; [lia |].
    apply Forall_map. eapply Forall_impl; [exact Hrows |]. cbn beta. tauto. }
  assert (Hpos : (0 < tq)%Z) by (destruct df; [congruence | cbn [length] in Htq; lia]).
  unfold bind, truediv, np_uniform, ret, raise.
  destruct (Z.ltb_spec 0 tq) as [_ | Hle]; [| lia].
  destruct (Z.eqb_spec tq 0) as [H0 | _]; [lia |].
  destruct (uniform _ _ g) as [delta_rev g'].
  eexists _, _, _, _. split; [reflexivity |].
  split; [exact Htq |]. split; [exact Htf |]. split; [reflexivity |].
  unfold reais, Qdiv. apply Qmult_le_0_compat.
  - unfold Qle. cbn. lia.
  - apply Qinv_le_0_compat. unfold Qle. cbn. lia.
Qed.

End KpiExtras.

(** ** Loading the table *)

Lemma zseq_In (n : nat) (lo d : Z) :
  (lo <= d < lo + Z.of_nat n)%Z -> In d (Iso.zseq lo n).
Proof.
  revert lo. induction n as [|n IH]; intros lo Hd; cbn [Iso.zseq]; [lia |].
  destruct (Z.eq_dec lo d) as [-> | Hne]; [left; reflexivity |].
  right. apply IH. lia.
Qed.

Lemma fromisoformat_isoformat (d : Z) :
  (timestamp_min <= d <= timestamp_max)%Z ->
  Iso.fromisoformat (Py.isoformat d) = Some d.
Proof.
  intros Hd.
  assert (Hall : forallb
            (fun d => match Iso.fromisoformat (Py.isoformat d) with
                      | Some d' => (d' =? d)%Z
                      | None => false
                      end)
            (Iso.zseq timestamp_min (Z.to_nat 36525)) = true)
    by (vm_cast_no_check (eq_refl true)).
  assert (Hin : In d (Iso.zseq timestamp_min (Z.to_nat 36525))).
  { apply zseq_In. rewrite Z2Nat.id by lia.
    unfold timestamp_min, timestamp_max in *.
    change (Py.date 2000 1 1) with 730120%Z in *.
    change (Py.date 2099 12 31) with 766644%Z in *. lia. }
  pose proof (proj1 (forallb_forall _ _) Hall d Hin) as Hd'. cbn beta in Hd'.
  destruct (Iso.fromisoformat (Py.isoformat d)) as [d'|]; [| discriminate].
  apply Z.eqb_eq in Hd'. congruence.
Qed.

Definition iso_datetime : PandasDatetime := {|
  to_datetime := Iso.fromisoformat;
  to_datetime_iso := fromisoformat_isoformat
|}.

Section LoadFacts.
Context {R : NumpyRandom} {D : PandasDatetime}.

Lemma gera_rows_blocos (semente start_date : Z) (dias : nat) (g : rng) :
  exists rows g' blocos,
    gera_rows semente start_date dias g = Some (rows, g')
    /\ rows = concat blocos
    /\ Forall2 bloco_do_dia (datas start_date dias) blocos.
Proof.
  rewrite gera_rows_reseeds.
  destruct (returns_for_each_blocos gera_dia
              (fun d bloco => bloco_do_dia d bloco
                 /\ Forall (fun l => In (l_regiao l) regioes
                              /\ In (l_categoria l) categorias /\ na_banda l)
                      bloco)
              (datas start_date dias)
              (fun d _ => returns_gera_dia_bloco d) (seed semente))
    as (rows & g' & Hrun & blocos & -> & Hbl).
  exists (concat blocos), g', blocos.
  split; [exact Hrun |]. split; [reflexivity |].
  eapply Forall2_impl; [exact Hbl |]. cbn beta. tauto.
Qed.

Lemma dsa_init_db_vazia (db : Conn) (g : rng) (rows : list Linha) (g' : rng) :
  select_count (create_table_if_not_exists db) = 0%Z ->
  gera_rows 42 (Py.date 2026 1 1) 180 g = Some (rows, g') ->
  dsa_init_db db g
  = Some (mkConn (Some (executemany (create_table_if_not_exists db) rows)), g').
Proof.
  intros Hz Hrun. unfold dsa_init_db. rewrite Hz. cbn [Z.eqb].
  unfold bind. rewrite Hrun. reflexivity.
Qed.

Lemma dsa_init_db_povoada (db : Conn) (g : rng) :
  select_count (create_table_if_not_exists db) <> 0%Z ->
  dsa_init_db db g = Some (mkConn (Some (create_table_if_not_exists db)), g).
Proof.
  intros Hnz. unfold dsa_init_db.
  destruct (Z.eqb_spec (select_count (create_table_if_not_exists db)) 0);
    [contradiction | reflexivity].
Qed.

Lemma dias_linhas_Forall2 (ds : list Z) (blocos : list (list Linha)) :
  Forall2 bloco_do_dia ds blocos ->
  Forall2 (fun d l => l_date l = Py.isoformat d)
    (dias_linhas ds blocos) (concat blocos).
Proof.
  induction 1 as [|d bloco ds blocos [_ Hd] _ IH]; cbn [dias_linhas concat];
    [constructor |].
  apply Forall2_app; [| exact IH].
  clear -Hd. induction Hd as [|l bloco Hl _ IH]; cbn [length repeat];
    constructor; assumption.
Qed.

Lemma dias_linhas_In (ds : list Z) (blocos : list (list Linha)) (d : Z) :
  Forall2 bloco_do_dia ds blocos ->
  (In d (dias_linhas ds blocos) <-> In d ds).
Proof.
  induction 1 as [|d0 bloco ds blocos [Hlen _] _ IH]; cbn [dias_linhas In];
    [tauto |].
  rewrite in_app_iff, IH. split.
  - intros [Hin | Hin]; [left; symmetry; eapply repeat_spec, Hin | tauto].
  - intros [<- | Hin]; [left | tauto].
    destruct bloco as [|l bloco]; [cbn in Hlen; lia | left; reflexivity].
Qed.

Lemma dias_linhas_sorted (ds : list Z) (blocos : list (list Linha)) :
  Forall2 bloco_do_dia ds blocos ->
  StronglySorted Z.le ds -> StronglySorted Z.le (dias_linhas ds blocos).
Proof.
  intros Hbl. induction Hbl as [|d bloco ds blocos _ Hbl IH];
    intros Hs; cbn [dias_linhas]; [constructor |].
  inversion Hs as [|? ? Hs' Hd]; subst.
  assert (Hrest : Forall (Z.le d) (dias_linhas ds blocos)).
  { apply List.Forall_forall. intros x Hx.
    apply (dias_linhas_In ds blocos x Hbl) in Hx.
    exact (proj1 (List.Forall_forall _ _) Hd x Hx). }
  induction (length bloco) as [|n IHn]; cbn [repeat app]; [apply IH, Hs' |].
  constructor; [exact IHn |].
  apply Forall_app. split; [| exact Hrest].
  apply List.Forall_forall. intros x Hx. apply repeat_spec in Hx. lia.
Qed.

Lemma datas_sorted (start_date : Z) (n : nat) :
  StronglySorted Z.le (datas start_date n).
Proof.
  unfold datas. generalize 0 as k.
  induction n as [|n IH]; intros k; cbn [seq List.map]; constructor;
    [apply IH |].
  apply List.Forall_forall. intros x Hx. apply in_map_iff in Hx.
  destruct Hx as (i & <- & Hi). apply in_seq in Hi. lia.
Qed.

Lemma datas_In (start_date : Z) (n : nat) (d : Z) :
  In d (datas start_date n)
  <-> (start_date <= d < start_date + Z.of_nat n)%Z.
Proof.
  unfold datas. rewrite in_map_iff. split.
  - intros (i & <- & Hi). apply in_seq in Hi. lia.
  - intros Hd. exists (Z.to_nat (d - start_date)). split; [lia |].
    apply in_seq. lia.
Qed.

Lemma le_linhas_zip (ds : list Z) (regs : list (Z * Linha)) :
  Forall2 (fun d p => (timestamp_min <= d <= timestamp_max)%Z
                      /\ l_date (snd p) = Py.isoformat d) ds regs ->
  le_linhas regs = Some (zip_with venda_de ds regs).
Proof.
  induction 1 as [|d p ds regs [Hd Hp] _ IH]; cbn [le_linhas zip_with];
    [reflexivity |].
  unfold le_linha. rewrite Hp, (to_datetime_iso d Hd), IH. reflexivity.
Qed.

Lemma zip_with_date (ds : list Z) (regs : list (Z * Linha)) :
  length ds = length regs ->
  List.map date (zip_with venda_de ds regs) = ds.
Proof.
  revert regs. induction ds as [|d ds IH]; intros [|p regs] Hlen;
    cbn in Hlen |- *; try reflexivity; try discriminate.
  f_equal. apply IH. lia.
Qed.

Lemma zip_with_nth {A B C} (f : A -> B -> C) (xs : list A) (ys : list B)
  (i : nat) (x : A) (y : B) :
  nth_error xs i = Some x -> nth_error ys i = Some y ->
  nth_error (zip_with f xs ys) i = Some (f x y).
Proof.
  revert ys i. induction xs as [|x0 xs IH]; intros [|y0 ys] [|i];
    cbn [nth_error zip_with]; try discriminate.
  - intros [= ->] [= ->]. reflexivity.
  - apply IH.
Qed.

Lemma Forall2_datas_registros (ds : list Z) (novos : list (Z * Linha)) :
  Forall2 (fun d l => l_date l = Py.isoformat d) ds (List.map snd novos) ->
  Forall (fun d => (timestamp_min <= d <= timestamp_max)%Z) ds ->
  Forall2 (fun d p => (timestamp_min <= d <= timestamp_max)%Z
                      /\ l_date (snd p) = Py.isoformat d) ds novos.
Proof.
  revert ds. induction novos as [|p novos IH]; intros ds Hdias Hrange;
    cbn [List.map] in Hdias; inversion Hdias; subst; constructor.
  - inversion Hrange; subst. split; assumption.
  - inversion Hrange; subst. apply IH; assumption.
Qed.

(** The database after the load of a table that had no row, and the
    frame loaded, from the blocks of the generation pass. *)
Lemma carrega_semeado (db : Conn) (g : rng) :
  let t := create_table_if_not_exists db in
  select_count t = 0%Z ->
  exists rows g' blocos novos,
    gera_rows 42 (Py.date 2026 1 1) 180 g = Some (rows, g')
    /\ rows = concat blocos
    /\ Forall2 bloco_do_dia (datas (Py.date 2026 1 1) 180) blocos
    /\ registros (executemany t rows) = novos
    /\ List.map snd novos = rows
    /\ (forall i l, nth_error rows i = Some l ->
          nth_error novos i = Some ((ultimo_id t + 1 + Z.of_nat i)%Z, l))
    /\ dsa_carrega_dados db g
       = Some ((mkConn (Some (executemany t rows)),
                zip_with venda_de
                  (dias_linhas (datas (Py.date 2026 1 1) 180) blocos) novos),
               g').
Proof.
  intros t Hz.
  destruct (gera_rows_blocos 42 (Py.date 2026 1 1) 180 g)
    as (rows & g' & blocos & Hrun & Hrows & Hbl).
  destruct (executemany_registros rows t) as (novos & Hreg & Hsnd & Hnth).
  assert (Hnil : registros t = []).
  { unfold select_count in Hz. destruct (registros t); [reflexivity |].
    cbn [length] in Hz. lia. }
  rewrite Hnil in Hreg. cbn [app] in Hreg.
  exists rows, g', blocos, novos.
  split; [exact Hrun |]. split; [exact Hrows |]. split; [exact Hbl |].
  split; [exact Hreg |]. split; [exact Hsnd |]. split; [exact Hnth |].
  unfold dsa_carrega_dados, bind.
  rewrite (dsa_init_db_vazia db g rows g' Hz Hrun). fold t.
  unfold read_sql_query. cbn [tb_vendas]. rewrite Hreg.
  rewrite (le_linhas_zip (dias_linhas (datas (Py.date 2026 1 1) 180) blocos)).
  - reflexivity.
  - pose proof (dias_linhas_Forall2 _ _ Hbl) as Hdias.
    rewrite <- Hrows, <- Hsnd in Hdias.
    assert (Hrange : Forall (fun d => (timestamp_min <= d <= timestamp_max)%Z)
              (dias_linhas (datas (Py.date 2026 1 1) 180) blocos)).
    { apply List.Forall_forall. intros d Hd.
      apply (dias_linhas_In _ _ d Hbl), datas_In in Hd.
      unfold timestamp_min, timestamp_max.
      change (Py.date 2000 1 1) with 730120%Z.
      change (Py.date 2099 12 31) with 766644%Z.
      change (Py.date 2026 1 1) with 739617%Z in Hd. lia. }
    apply Forall2_datas_registros; assumption.
Qed.

End LoadFacts.

Lemma Forall2_nth_error {A B} (P : A -> B -> Prop) (xs : list A) (ys : list B)
  (i : nat) (y : B) :
  Forall2 P xs ys -> nth_error ys i = Some y ->
  exists x, nth_error xs i = Some x /\ P x y.
Proof.
  intros H. revert i. induction H as [|x0 y0 xs ys Hxy _ IH]; intros [|i];
    cbn [nth_error]; try discriminate.
  - intros [= <-]. exists x0. split; [reflexivity | exact Hxy].
  - apply IH.
Qed.

Lemma series_min_eq (s : list Z) (m : Z) :
  In m s -> (forall x, In x s -> (m <= x)%Z) -> series_min s = Some m.
Proof.
  destruct s as [|x s]; [intros [] |]. intros Hin Hle. cbn [series_min].
  destruct (fold_min_spec s x) as (H1 & H2 & H3). f_equal.
  pose proof (Hle _ H3).
  destruct Hin as [<- | Hin]; [lia |]. pose proof (H2 m Hin). lia.
Qed.

Lemma series_max_eq (s : list Z) (m : Z) :
  In m s -> (forall x, In x s -> (x <= m)%Z) -> series_max s = Some m.
Proof.
  destruct s as [|x s]; [intros [] |]. intros Hin Hle. cbn [series_max].
  destruct (fold_max_spec s x) as (H1 & H2 & H3). f_equal.
  pose proof (Hle _ H3).
  destruct Hin as [<- | Hin]; [lia |]. pose proof (H2 m Hin). lia.
Qed.

Section LoadClaims.
Context {R : NumpyRandom} {D : PandasDatetime}.

(** X18: from a table without rows, the load seeds the table and reads it
    back whole: the frame has one row for each row generated, in the same
    order and between 900 and 2520 of them, with the id the insert gave
    it, the date its text stands for, and the other fields as they were
    generated. *)
Theorem carrega_apos_semear (db : Conn) (g : rng) :
  let t := create_table_if_not_exists db in
  select_count t = 0%Z ->
  exists rows g' df,
    gera_rows 42 (Py.date 2026 1 1) 180 g = Some (rows, g')
    /\ dsa_carrega_dados db g
       = Some ((mkConn (Some (executemany t rows)), df), g')
    /\ length df = length rows
    /\ 900 <= length df <= 2520
    /\ (forall i l, nth_error rows i = Some l ->
          exists v, nth_error df i = Some v
                    /\ rowid v = (ultimo_id t + 1 + Z.of_nat i)%Z
                    /\ Py.isoformat (date v) = l_date l
                    /\ regiao v = l_regiao l /\ categoria v = l_categoria l
                    /\ produto v = l_produto l
                    /\ faturamento v = l_faturamento l
                    /\ quantidade v = l_quantidade l).
Proof.
  intros t Hz.
  destruct (carrega_semeado db g Hz)
    as (rows & g' & blocos & novos & Hrun & Hrows & Hbl & Hreg & Hsnd & Hnth & Hload).
  fold t in Hload, Hnth.
  pose proof (dias_linhas_Forall2 _ _ Hbl) as Hdias. rewrite <- Hrows in Hdias.
  assert (Hlen_ds : length (dias_linhas (datas (Py.date 2026 1 1) 180) blocos)
                    = length rows) by (eapply Forall2_length, Hdias).
  assert (Hlen_novos : length novos = length rows)
    by (rewrite <- Hsnd; symmetry; apply length_map).
  assert (Hlen_df : length (zip_with venda_de
                              (dias_linhas (datas (Py.date 2026 1 1) 180) blocos)
                              novos) = length rows).
  { rewrite <- (length_map date), zip_with_date by lia. exact Hlen_ds. }
  eexists rows, g', _. split; [exact Hrun |]. split; [exact Hload |].
  split; [exact Hlen_df |]. split.
  - rewrite Hlen_df, Hrows.
    pose proof (blocos_length _ _ Hbl) as Hb.
    unfold datas in Hb. rewrite length_map, length_seq in Hb. lia.
  - intros i l Hl.
    destruct (Forall2_nth_error _ _ _ i l Hdias Hl) as (d & Hd & Hdate).
    eexists. split; [apply (zip_with_nth venda_de _ _ i d _ Hd (Hnth i l Hl)) |].
    cbn. rewrite Hdate. repeat split; reflexivity.
Qed.

(** X19: the frame loaded from a table seeded by the load is in calendar
    order, every day from 2026-01-01 to 2026-06-29 has rows, and these two
    days are its smallest and largest dates: the bounds the date widget is
    given are dates, never NaT. *)
Theorem carrega_periodo (db : Conn) (g : rng) :
  select_count (create_table_if_not_exists db) = 0%Z ->
  exists db' df g',
    dsa_carrega_dados db g = Some ((db', df), g')
    /\ StronglySorted Z.le (List.map date df)
    /\ (forall d, In d (List.map date df)
                  <-> (Py.date 2026 1 1 <= d <= Py.date 2026 6 29)%Z)
    /\ series_min (List.map date df) = Some (Py.date 2026 1 1)
    /\ series_max (List.map date df) = Some (Py.date 2026 6 29).
Proof.
  intros Hz.
  destruct (carrega_semeado db g Hz)
    as (rows & g' & blocos & novos & Hrun & Hrows & Hbl & Hreg & Hsnd & Hnth & Hload).
  pose proof (dias_linhas_Forall2 _ _ Hbl) as Hdias. rewrite <- Hrows in Hdias.
  assert (Hlen : length (dias_linhas (datas (Py.date 2026 1 1) 180) blocos)
                 = length novos).
  { rewrite (Forall2_length _ _ _ Hdias), <- Hsnd. apply length_map. }
  eexists _, _, g'. split; [exact Hload |].
  rewrite (zip_with_date _ _ Hlen).
  assert (Hin : forall d, In d (dias_linhas (datas (Py.date 2026 1 1) 180) blocos)
                  <-> (Py.date 2026 1 1 <= d <= Py.date 2026 6 29)%Z).
  { intros d. rewrite (dias_linhas_In _ _ d Hbl), datas_In.
    change (Py.date 2026 1 1) with 739617%Z.
    change (Py.date 2026 6 29) with 739796%Z. lia. }
  split; [apply dias_linhas_sorted; [exact Hbl | apply datas_sorted] |].
  split; [exact Hin |]. split.
  - apply series_min_eq; [apply Hin; vm_compute; split; discriminate |].
    intros x Hx. apply Hin in Hx. lia.
  - apply series_max_eq; [apply Hin; vm_compute; split; discriminate |].
    intros x Hx. apply Hin in Hx. lia.
Qed.

Lemma read_sql_query_pure (conn : Conn) (g g2 : rng) (df : list Venda) :
  read_sql_query conn g = Some (df, g2) ->
  g2 = g /\ forall g0, read_sql_query conn g0 = Some (df, g0).
Proof.
  unfold read_sql_query. destruct (tb_vendas conn); [| discriminate].
  destruct (le_linhas _); [| discriminate].
  cbn [lift_option]. unfold ret. intros [= <- <-]. split; reflexivity.
Qed.

Lemma dsa_init_db_fixo (t1 : Tabela) (g : rng) :
  select_count t1 <> 0%Z ->
  dsa_init_db (mkConn (Some t1)) g = Some (mkConn (Some t1), g).
Proof. intros Hnz. apply (dsa_init_db_povoada (mkConn (Some t1)) g Hnz). Qed.

(** X20: a second load returns the frame of the first and changes neither
    the database nor the generator: where the first has seeded the table,
    the second finds its rows. *)
Theorem carrega_de_novo (db db' : Conn) (g g' : rng) (df : list Venda) :
  dsa_carrega_dados db g = Some ((db', df), g') ->
  dsa_carrega_dados db' g' = Some ((db', df), g').
Proof.
  intros Hload. unfold dsa_carrega_dados, bind in Hload |- *.
  assert (Hinit : exists t1 g1,
             dsa_init_db db g = Some (mkConn (Some t1), g1)
             /\ select_count t1 <> 0%Z).
  { destruct (Z.eq_dec (select_count (create_table_if_not_exists db)) 0%Z)
      as [Hz | Hnz].
    - destruct (returns_gera_rows 42 (Py.date 2026 1 1) 180 g)
        as (rows & g1 & Hrun & _ & Hlen).
      eexists _, g1. split; [apply (dsa_init_db_vazia db g rows g1 Hz Hrun) |].
      unfold select_count. rewrite executemany_length. lia.
    - eexists _, g. split; [apply (dsa_init_db_povoada db g Hnz) | exact Hnz]. }
  destruct Hinit as (t1 & g1 & Hinit & Hnz). rewrite Hinit in Hload.
  destruct (read_sql_query _ g1) as [[df1 g2]|] eqn:Hread; [| discriminate].
  unfold ret in Hload. injection Hload as <- <- <-.
  destruct (read_sql_query_pure _ _ _ _ Hread) as [-> Hany].
  rewrite (dsa_init_db_fixo t1 g1 Hnz), (Hany g1). reflexivity.
Qed.

End LoadClaims.

(** ** What the table of the report shows of generated rows *)

Lemma latin1_firstn (n : nat) (s : Py.str) : latin1 s -> latin1 (firstn n s).
Proof.
  intros Hs. revert n. induction Hs as [|c s Hc _ IH]; intros [|n];
    cbn [firstn]; constructor; [exact Hc | apply IH].
Qed.

Lemma latin1_isoformat (d : Z) : latin1 (Py.isoformat d).
Proof.
  unfold Py.isoformat. destruct (Py.ord2ymd d) as [[y m] dd].
  repeat first [ apply latin1_zfill
               | apply latin1_app
               | (constructor; [lia | constructor]) ].
Qed.

Lemma latin1_str_int (z : Z) : latin1 (Py.str_int z).
Proof.
  unfold Py.str_int. apply latin1_app;
    [apply latin1_minus_sign | apply latin1_digits].
Qed.

(** X21: the names the generator draws from are all Latin-1, accents
    included, so the table of the report shows a generated row as it is:
    no field of it is altered by the transcoding. *)
Theorem data_de_venda_gerada (row : Venda) (produtos_c : list (Py.str * Z)) :
  In (regiao row) regioes ->
  In (categoria row) categorias ->
  dict_get dict_produtos (categoria row) = Some produtos_c ->
  In (produto row) (keys produtos_c) ->
  List.map safe_txt (data row) = data row.
Proof.
  intros Hr Hc Hget Hp.
  assert (Hreg : latin1 (regiao row)).
  { cbn in Hr. repeat (destruct Hr as [<- | Hr];
                       [apply latin1_lit; vm_compute; reflexivity |]).
    destruct Hr. }
  assert (Hcat : latin1 (categoria row)).
  { revert Hc. generalize (categoria row). intros c Hc. cbn in Hc.
    repeat (destruct Hc as [<- | Hc];
            [apply latin1_lit; vm_compute; reflexivity |]).
    destruct Hc. }
  assert (Hprod : latin1 (produto row)).
  { revert Hget Hp Hc. generalize (categoria row), (produto row).
    intros c p Hget Hp Hc. cbn in Hc.
    destruct Hc as [<- | [<- | [<- | [<- | []]]]];
      vm_compute in Hget; injection Hget as <-;
      cbn in Hp; destruct Hp as [<- | [<- | [<- | []]]];
      apply latin1_lit; vm_compute; reflexivity. }
  unfold data, Py.slice_to. cbn [List.map].
  rewrite (safe_txt_id _ (latin1_isoformat _)),
    (safe_txt_id _ Hreg), (safe_txt_id _ Hcat),
    (safe_txt_id _ (latin1_firstn 20 _ Hprod)),
    (safe_txt_id _ (latin1_str_int _)).
  rewrite (safe_txt_id (u"R$ " ++ _)); [reflexivity |].
  apply latin1_app; [apply latin1_lit; vm_compute; reflexivity |].
  apply latin1_fmt_2f_grouped.
Qed.

(** ** The columns of the frame shown and exported *)

(** X22: after the filter and the weekday block, the frame that the table
    tab shows and the CSV button exports has nine columns: the seven of
    the table and then [weekday_num] and [dia_semana], when the frame
    loaded had the seven. *)
Theorem colunas_exportadas (ui : Sidebar) (h : gmap positive DataFrame)
  (df : positive) (F : DataFrame) :
  h !! df = Some F -> extras F = [] ->
  exists out h1 chart h2 G,
    dsa_filtros_sidebar ui df h = Some (out, h1)
    /\ wd_rev out h1 = Some (chart, h2)
    /\ h2 !! out = Some G
    /\ columns G
       = [u"id"; u"date"; u"regiao"; u"categoria"; u"produto";
          u"faturamento"; u"quantidade"; u"weekday_num"; u"dia_semana"]
    /\ Forall (fun c => length (snd c) = length (linhas G)) (extras G).
Proof.
  intros Hdf Hex.
  destruct (dsa_filtros_sidebar_store ui h df F Hdf)
    as (fatia & out & Hrun & Hf1 & Hf2 & Hne).
  rewrite Hex in Hrun. cbn [List.map] in Hrun.
  set (G := mkDataFrame (filtra ui (linhas F)) []) in Hrun.
  set (h1 := <[out := G]> (<[fatia := G]> h)) in *.
  assert (Hout : h1 !! out = Some G) by apply lookup_insert_eq.
  exists out, h1. eexists _, _, (com_dia_semana G).
  split; [exact Hrun |]. split; [apply (wd_rev_store h1 out G Hout) |].
  split; [apply lookup_insert_eq |].
  unfold columns, com_dia_semana, G. cbn [extras linhas set_col].
  rewrite str_eqb_ne by (vm_compute; discriminate).
  split; [reflexivity |].
  repeat constructor; cbn [snd]; apply length_map.
Qed.

(** ** The further properties on sample inputs *)

Lemma executemany_ids_validos_witness :
  ids_validos (mkTabela [] 0)
  /\ ids_validos (executemany (mkTabela [] 0) [linha_amostra; linha_amostra]).
Proof.
  assert (H0 : ids_validos (mkTabela [] 0)) by (split; constructor).
  split; [exact H0 |].
  apply (executemany_ids_validos (mkTabela [] 0) [linha_amostra; linha_amostra]).
  exact H0.
Defined.

Lemma filtra_selecao_padrao_witness :
  amostra <> []
  /\ exists min_date max_date,
      series_min (List.map date amostra) = Some min_date
      /\ series_max (List.map date amostra) = Some max_date
      /\ filtra (mkSidebar [min_date; max_date]
                   (opcoes (List.map regiao amostra))
                   (opcoes (List.map categoria amostra))
                   (opcoes (List.map produto amostra))) amostra
         = amostra.
Proof.
  split; [discriminate |].
  apply (filtra_selecao_padrao amostra). discriminate.
Defined.

Lemma filtra_vazio_witness :
  (selected_regioes ui_sem_regiao = []
   \/ selected_categorias ui_sem_regiao = []
   \/ selected_produtos ui_sem_regiao = []
   \/ (exists start_date end_date,
          date_range ui_sem_regiao = [start_date; end_date]
          /\ (end_date < start_date)%Z))
  /\ filtra ui_sem_regiao amostra = [].
Proof.
  split; [left; reflexivity |].
  apply (filtra_vazio ui_sem_regiao amostra). left. reflexivity.
Defined.

Lemma wd_rev_colunas_witness :
  store_amostra !! 1%positive = Some (mkDataFrame amostra [])
  /\ exists chart h' F',
      wd_rev 1%positive store_amostra = Some (chart, h')
      /\ h' !! 1%positive = Some F'
      /\ linhas F' = amostra
      /\ dict_get (extras F') u"weekday_num"
         = Some (List.map (fun r => VInt (Py.weekday (date r))) amostra)
      /\ dict_get (extras F') u"dia_semana" = Some (List.map chave amostra)
      /\ (forall r, In r amostra ->
            (0 <= Py.weekday (date r) < 7)%Z
            /\ exists nome, chave r = VStr nome
                            /\ In (Py.weekday (date r), nome) dias_pt_map)
      /\ (forall name, name <> u"weekday_num" -> name <> u"dia_semana" ->
            dict_get (extras F') name = dict_get [] name)
      /\ (forall l, l <> 1%positive -> h' !! l = store_amostra !! l).
Proof.
  split; [reflexivity |].
  apply (wd_rev_colunas store_amostra 1%positive (mkDataFrame amostra [])).
  reflexivity.
Defined.

Lemma wd_rev_de_novo_witness :
  wd_rev 1%positive store_amostra
  = Some (chart_amostra,
          <[1%positive := com_dia_semana (mkDataFrame amostra [])]> store_amostra)
  /\ wd_rev 1%positive
       (<[1%positive := com_dia_semana (mkDataFrame amostra [])]> store_amostra)
     = Some (chart_amostra,
             <[1%positive := com_dia_semana (mkDataFrame amostra [])]> store_amostra).
Proof.
  assert (H0 : wd_rev 1%positive store_amostra
               = Some (chart_amostra,
                       <[1%positive := com_dia_semana (mkDataFrame amostra [])]>
                         store_amostra))
    by (vm_compute; reflexivity).
  split; [exact H0 |].
  apply (wd_rev_de_novo store_amostra _ 1%positive chart_amostra). exact H0.
Defined.

Lemma filtro_e_dia_semana_witness :
  store_amostra !! 1%positive = Some (mkDataFrame amostra [])
  /\ exists out h1 chart h2,
      dsa_filtros_sidebar ui_parcial 1%positive store_amostra = Some (out, h1)
      /\ wd_rev out h1 = Some (chart, h2)
      /\ chart = List.map
                   (fun p => (snd p,
                              media_do_dia (filtra ui_parcial amostra) (fst p)))
                   dias_pt_map
      /\ h2 !! 1%positive = Some (mkDataFrame amostra [])
      /\ (forall l F0, store_amostra !! l = Some F0 -> h2 !! l = Some F0)
      /\ (exists G', h2 !! out = Some G'
                     /\ linhas G' = filtra ui_parcial amostra
                     /\ dict_get (extras G') u"dia_semana"
                        = Some (List.map chave (filtra ui_parcial amostra))).
Proof.
  split; [reflexivity |].
  apply (filtro_e_dia_semana ui_parcial store_amostra 1%positive
           (mkDataFrame amostra [])).
  reflexivity.
Defined.

Lemma colunas_exportadas_witness :
  (store_amostra !! 1%positive = Some (mkDataFrame amostra [])
   /\ extras (mkDataFrame amostra []) = [])
  /\ exists out h1 chart h2 G,
      dsa_filtros_sidebar ui_parcial 1%positive store_amostra = Some (out, h1)
      /\ wd_rev out h1 = Some (chart, h2)
      /\ h2 !! out = Some G
      /\ columns G
         = [u"id"; u"date"; u"regiao"; u"categoria"; u"produto";
            u"faturamento"; u"quantidade"; u"weekday_num"; u"dia_semana"]
      /\ Forall (fun c => length (snd c) = length (linhas G)) (extras G).
Proof.
  split; [split; reflexivity |].
  apply (colunas_exportadas ui_parcial store_amostra 1%positive
           (mkDataFrame amostra [])); reflexivity.
Defined.

Lemma df_top_determinado_witness :
  (NoDup (List.map faturamento [venda_a; venda_c])
   /\ Permutation [venda_a; venda_c] [venda_c; venda_a])
  /\ @df_top stable_sort [venda_a; venda_c]
     = @df_top stable_sort [venda_c; venda_a].
Proof.
  assert (Hnd : NoDup (List.map faturamento [venda_a; venda_c])).
  { cbn [List.map faturamento venda_a venda_c].
    apply NoDup_cons. split; [| apply NoDup_singleton].
    intros Hin. apply list_elem_of_singleton in Hin. discriminate. }
  split; [split; [exact Hnd | apply perm_swap] |].
  apply (df_top_determinado stable_sort stable_sort
           [venda_a; venda_c] [venda_c; venda_a] Hnd).
  apply perm_swap.
Defined.

Lemma kpis_frame_de_vendas_witness :
  (amostra <> []
   /\ Forall (fun r => (1 <= quantidade r)%Z /\ (0 <= faturamento r)%Z) amostra)
  /\ exists total_faturamento total_qty avg_ticket g',
      @dsa_renderiza_cards_kpis LCG_random amostra 1%Z
      = Some ((total_faturamento, total_qty, avg_ticket), g')
      /\ (Z.of_nat (length amostra) <= total_qty)%Z
      /\ (0 <= total_faturamento)%Z
      /\ avg_ticket = (reais total_faturamento / inject_Z total_qty)%Q
      /\ (0 <= avg_ticket)%Q.
Proof.
  assert (Hrows : Forall (fun r => (1 <= quantidade r)%Z
                                   /\ (0 <= faturamento r)%Z) amostra)
    by (repeat constructor; cbn; lia).
  split; [split; [discriminate | exact Hrows] |].
  apply (@kpis_frame_de_vendas LCG_random amostra 1%Z); [discriminate | exact Hrows].
Defined.

Lemma carrega_apos_semear_witness :
  select_count (create_table_if_not_exists (mkConn None)) = 0%Z
  /\ exists rows g' df,
      @gera_rows LCG_random 42 (Py.date 2026 1 1) 180 7%Z = Some (rows, g')
      /\ @dsa_carrega_dados LCG_random iso_datetime (mkConn None) 7%Z
         = Some ((mkConn (Some (executemany (mkTabela [] 0) rows)), df), g')
      /\ length df = length rows
      /\ 900 <= length df <= 2520
      /\ (forall i l, nth_error rows i = Some l ->
            exists v, nth_error df i = Some v
                      /\ rowid v = (0 + 1 + Z.of_nat i)%Z
                      /\ Py.isoformat (date v) = l_date l
                      /\ regiao v = l_regiao l /\ categoria v = l_categoria l
                      /\ produto v = l_produto l
                      /\ faturamento v = l_faturamento l
                      /\ quantidade v = l_quantidade l).
Proof.
  split; [reflexivity |].
  apply (@carrega_apos_semear LCG_random iso_datetime (mkConn None) 7%Z).
  reflexivity.
Defined.

Lemma carrega_periodo_witness :
  select_count (create_table_if_not_exists (mkConn None)) = 0%Z
  /\ exists db' df g',
      @dsa_carrega_dados LCG_random iso_datetime (mkConn None) 7%Z
      = Some ((db', df), g')
      /\ StronglySorted Z.le (List.map date df)
      /\ (forall d, In d (List.map date df)
                    <-> (Py.date 2026 1 1 <= d <= Py.date 2026 6 29)%Z)
      /\ series_min (List.map date df) = Some (Py.date 2026 1 1)
      /\ series_max (List.map date df) = Some (Py.date 2026 6 29).
Proof.
  split; [reflexivity |].
  apply (@carrega_periodo LCG_random iso_datetime (mkConn None) 7%Z).
  reflexivity.
Defined.

Lemma carrega_de_novo_witness :
  @dsa_carrega_dados LCG_random iso_datetime (mkConn (Some tabela_amostra)) 7%Z
  = Some ((mkConn (Some tabela_amostra), [venda_a]), 7%Z)
  /\ @dsa_carrega_dados LCG_random iso_datetime (mkConn (Some tabela_amostra)) 7%Z
     = Some ((mkConn (Some tabela_amostra), [venda_a]), 7%Z).
Proof.
  assert (H0 : @dsa_carrega_dados LCG_random iso_datetime
                 (mkConn (Some tabela_amostra)) 7%Z
               = Some ((mkConn (Some tabela_amostra), [venda_a]), 7%Z))
    by (vm_compute; reflexivity).
  split; [exact H0 |].
  apply (@carrega_de_novo LCG_random iso_datetime
           (mkConn (Some tabela_amostra)) (mkConn (Some tabela_amostra))
           7%Z 7%Z [venda_a]).
  exact H0.
Defined.

Lemma data_de_venda_gerada_witness :
  (In (regiao venda_a) regioes
   /\ In (categoria venda_a) categorias
   /\ dict_get dict_produtos (categoria venda_a)
      = Some [(u"Camiseta", 50%Z); (u"Terno", 150%Z); (u"Casaco", 300%Z)]
   /\ In (produto venda_a)
        (keys [(u"Camiseta", 50%Z); (u"Terno", 150%Z); (u"Casaco", 300%Z)]))
  /\ List.map safe_txt (data venda_a) = data venda_a.
Proof.
  assert (H1 : In (regiao venda_a) regioes) by (do 2 right; left; reflexivity).
  assert (H2 : In (categoria venda_a) categorias) by (right; left; reflexivity).
  assert (H3 : dict_get dict_produtos (categoria venda_a)
               = Some [(u"Camiseta", 50%Z); (u"Terno", 150%Z); (u"Casaco", 300%Z)])
    by (vm_compute; reflexivity).
  assert (H4 : In (produto venda_a)
                 (keys [(u"Camiseta", 50%Z); (u"Terno", 150%Z); (u"Casaco", 300%Z)]))
    by (right; left; reflexivity).
  split; [repeat split; assumption |].
  apply (data_de_venda_gerada venda_a _ H1 H2 H3 H4).
Defined.
